(** * GoTheora: the raster-to-planar converter, the stream parameters, the
    encoder session and the decoder of [theora.go], and the example encoder
    of [test/encoder/main.go]

    The Go code is embedded shallowly.  Go's [int] is the 64-bit signed
    integer of the platforms cgo targets, [uint32] and C's [int] are 32 bit
    wide, and every arithmetic operation is written with its wrap-around.
    Methods that mutate their receiver are computations in a state monad in
    which a run-time panic (nil dereference, index out of range, a [make]
    that is refused) is an outcome of its own.  What lies outside the
    repository is kept abstract: a colour is anything [color.NRGBAModel]
    converts, libtheora and the googg stream answer each call through an
    arbitrary environment, and the converter runs on an arbitrary host, which
    says how long a slice [make] obtains and what googg's [Ptr] does with an
    empty slice. *)

From Stdlib Require Import ZArith List Bool Lia String Floats Uint63.
From stdpp Require Import base list.
Import ListNotations.
Local Open Scope Z_scope.

(** ** Machine integers *)

Module GoInt.

Definition wrapU (bits z : Z) : Z := z mod 2 ^ bits.
Definition wrapS (bits z : Z) : Z :=
  (z + 2 ^ (bits - 1)) mod 2 ^ bits - 2 ^ (bits - 1).

(** Go [uint32], Go [int] (64 bit), C [int] (32 bit), Go [byte]. *)
Definition uint32 (z : Z) : Z := wrapU 32 z.
Definition int (z : Z) : Z := wrapS 64 z.
Definition C_int (z : Z) : Z := wrapS 32 z.
Definition byte (z : Z) : Z := wrapU 8 z.

(** A [uint8] value: the range is part of the type. *)
Record uint8 : Type := mk_uint8 {
  u8 : Z;
  u8_ok : (0 <=? u8) && (u8 <=? 255) = true
}.

(** Go's conversion [uint8(z)]: the low eight bits. *)
Definition to_uint8 (z : Z) : uint8 :=
  match bool_dec ((0 <=? byte z) && (byte z <=? 255)) true with
  | left ok => mk_uint8 (byte z) ok
  | right _ => mk_uint8 0 eq_refl
  end.

End GoInt.
Import GoInt.

(** Go's arithmetic on [uint32] and on [int]: every operation wraps.  The
    scopes let the embedded expressions be written as in the source. *)
Declare Scope u32_scope.
Delimit Scope u32_scope with u32.
Declare Scope int_scope.
Delimit Scope int_scope with int.

Definition u32_add (a b : Z) : Z := uint32 (Z.add a b).
Definition u32_sub (a b : Z) : Z := uint32 (Z.sub a b).
Definition u32_mul (a b : Z) : Z := uint32 (Z.mul a b).
Definition u32_div (a b : Z) : Z := Z.div a b.
Arguments u32_add (a b)%_u32.
Arguments u32_sub (a b)%_u32.
Arguments u32_mul (a b)%_u32.
Arguments u32_div (a b)%_u32.

Definition int_add (a b : Z) : Z := int (Z.add a b).
Definition int_sub (a b : Z) : Z := int (Z.sub a b).
Definition int_mul (a b : Z) : Z := int (Z.mul a b).
Arguments int_add (a b)%_int.
Arguments int_sub (a b)%_int.
Arguments int_mul (a b)%_int.

Notation "a + b" := (u32_add a b) : u32_scope.
Notation "a - b" := (u32_sub a b) : u32_scope.
Notation "a * b" := (u32_mul a b) : u32_scope.
Notation "a / b" := (u32_div a b) : u32_scope.
Notation "a + b" := (int_add a b) : int_scope.
Notation "a - b" := (int_sub a b) : int_scope.
Notation "a * b" := (int_mul a b) : int_scope.

(** ** The state-and-panic monad *)

Inductive Result (S A : Type) : Type :=
| Ok (a : A) (s : S)
| Panic
| OutOfFuel.
Arguments Ok {S A} a s.
Arguments Panic {S A}.
Arguments OutOfFuel {S A}.

Definition M (S A : Type) : Type := S -> Result S A.

Definition ret {S A} (a : A) : M S A := fun s => Ok a s.

Definition bind {S A B} (m : M S A) (f : A -> M S B) : M S B :=
fun s => match m s with
         | Ok a s' => f a s'
         | Panic => Panic
         | OutOfFuel => OutOfFuel
         end.

Definition panic {S A} : M S A := fun _ => Panic.
Definition get {S} : M S S := fun s => Ok s s.
Definition put {S} (s : S) : M S unit := fun _ => Ok tt s.

Notation "x <- m ;; k" := (bind m (fun x => k))
  (at level 20, m at level 99, k at level 200, only parsing).
Notation "m ;; k" := (bind m (fun _ => k))
  (at level 100, k at level 200, only parsing, right associativity).

(** [for i < bound { body }] with the counter threaded through [body], which
  returns the counter's next value.  The fuel bounds the iterations. *)
Fixpoint while {S} (fuel : nat) (cond : Z -> bool) (body : Z -> M S Z) (i : Z)
: M S Z :=
match fuel with
| O => fun _ => OutOfFuel
| Datatypes.S fuel' =>
    if cond i then (i' <- body i ;; while fuel' cond body i')
    else ret i
end.

(** ** Go's [image] and [image/color] interfaces *)

Module GoImage.

(** [color.NRGBA]. *)
Record NRGBA : Type := mkNRGBA { NR : uint8; NG : uint8; NB : uint8; NA : uint8 }.

(** [color.RGBA] (alpha-premultiplied). *)
Record RGBA : Type := mkRGBA { CR : uint8; CG : uint8; CB : uint8; CA : uint8 }.

(** A colour type is one that [color.NRGBAModel.Convert] accepts. *)
Class Color (C : Type) : Type := { NRGBAModel_Convert : C -> NRGBA }.

#[export] Instance Color_NRGBA : Color NRGBA := {| NRGBAModel_Convert c := c |}.

(** [color.RGBA.RGBA()] followed by the standard library's [nrgbaModel]. *)
Definition nrgbaModel_RGBA (c : RGBA) : NRGBA :=
  let r := Z.lor (u8 (CR c)) (Z.shiftl (u8 (CR c)) 8) in
  let g := Z.lor (u8 (CG c)) (Z.shiftl (u8 (CG c)) 8) in
  let b := Z.lor (u8 (CB c)) (Z.shiftl (u8 (CB c)) 8) in
  let a := Z.lor (u8 (CA c)) (Z.shiftl (u8 (CA c)) 8) in
  if a =? 65535 then
    mkNRGBA (to_uint8 (Z.shiftr r 8)) (to_uint8 (Z.shiftr g 8))
            (to_uint8 (Z.shiftr b 8)) (to_uint8 255)
  else if a =? 0 then
    mkNRGBA (to_uint8 0) (to_uint8 0) (to_uint8 0) (to_uint8 0)
  else
    let r := ((r * 65535) / a)%u32 in
    let g := ((g * 65535) / a)%u32 in
    let b := ((b * 65535) / a)%u32 in
    mkNRGBA (to_uint8 (Z.shiftr r 8)) (to_uint8 (Z.shiftr g 8))
            (to_uint8 (Z.shiftr b 8)) (to_uint8 (Z.shiftr a 8)).

#[export] Instance Color_RGBA : Color RGBA :=
  {| NRGBAModel_Convert := nrgbaModel_RGBA |}.

Record Point : Type := Pt { X : Z; Y : Z }.
Record Rectangle : Type := Rect { Min : Point; Max : Point }.

Definition Dx (r : Rectangle) : Z := (X (Max r) - X (Min r))%int.
Definition Dy (r : Rectangle) : Z := (Y (Max r) - Y (Min r))%int.

(** [image.Image]: the bounds and the pixel accessor. *)
Record Image (C : Type) : Type := mkImage {
  Bounds : Rectangle;
  At : Z -> Z -> C
}.
Arguments Bounds {C} _.
Arguments At {C} _ _ _.

(** [image.YCbCrSubsampleRatio] is an [int] with six named values. *)
Definition YCbCrSubsampleRatio : Type := Z.
Definition YCbCrSubsampleRatio444 : YCbCrSubsampleRatio := 0.
Definition YCbCrSubsampleRatio422 : YCbCrSubsampleRatio := 1.
Definition YCbCrSubsampleRatio420 : YCbCrSubsampleRatio := 2.
Definition YCbCrSubsampleRatio440 : YCbCrSubsampleRatio := 3.
Definition YCbCrSubsampleRatio411 : YCbCrSubsampleRatio := 4.
Definition YCbCrSubsampleRatio410 : YCbCrSubsampleRatio := 5.

End GoImage.
Import GoImage.

(** ** [TheoraYUVbuffer] and [ConvertFromRasterImage] *)

Module Yuv.

Inductive Plane : Type := PlaneY | PlaneU | PlaneV.

(** A C [unsigned char*] of [yuv_buffer]: null, or the address of the first
  element of the backing array of one of the buffer's Go slices, which is
  what [OGG.Ptr(slice[0:])] hands to C. *)
Inductive uchar_ptr : Type := NULL | PtrTo (p : Plane).

(** What the repository leaves to the host it runs on.
    [maxAlloc] is the length of the longest slice of bytes [make] obtains.
    Go's [makeslice] panics on a length above the runtime's limit (2^48
    bytes on linux/amd64), and a machine short of memory grants less than
    that; either way the call does not return.
    [Ptr_empty] is what googg's [Ptr], whose code is not in the repository,
    does with a slice that has no element: it panics ([None]), or it returns
    some pointer. *)
Record Host : Type := mkHost {
  maxAlloc : Z;
  Ptr_empty : option uchar_ptr
}.

(** libtheora's [yuv_buffer]; the dimension fields are C [int]s. *)
Record yuv_buffer : Type := mk_yuv_buffer {
  y_width : Z; y_height : Z; y_stride : Z;
  uv_width : Z; uv_height : Z; uv_stride : Z;
  c_y : uchar_ptr; c_u : uchar_ptr; c_v : uchar_ptr
}.

(** The struct after [calloc]. *)
Definition yuv_buffer_zero : yuv_buffer :=
  mk_yuv_buffer 0 0 0 0 0 0 NULL NULL NULL.

(** [fValue] is [None] when the pointer is nil (after [Done]).  The three
  slices are held by their backing arrays: the local slices [yuv_y], [yuv_u],
  [yuv_v] of [ConvertFromRasterImage] share them with the buffer, so a write
  through a local slice is a write to the buffer's plane. *)
Record TheoraYUVbuffer : Type := mkTheoraYUVbuffer {
  fValue : option yuv_buffer;
  fyData : list Z;
  fuData : list Z;
  fvData : list Z;
  fOwnData : bool
}.

(** What [NewTheoraYUVbuffer] returns. *)
Definition NewTheoraYUVbuffer : TheoraYUVbuffer :=
  mkTheoraYUVbuffer (Some yuv_buffer_zero) [] [] [] false.

(** The calls observed during a conversion: a pixel read of the source image
  and an element assignment into a plane. *)
Inductive Event : Type :=
| EvAt (x y : Z)
| EvStore (p : Plane) (i : Z).

Record World : Type := mkWorld {
  yuv : TheoraYUVbuffer;
  trace : list Event
}.

Definition set_fValue (c : option yuv_buffer) (b : TheoraYUVbuffer) :=
  mkTheoraYUVbuffer c (fyData b) (fuData b) (fvData b) (fOwnData b).

Definition plane_data (p : Plane) (b : TheoraYUVbuffer) : list Z :=
  match p with PlaneY => fyData b | PlaneU => fuData b | PlaneV => fvData b end.

Definition set_plane_data (p : Plane) (l : list Z) (b : TheoraYUVbuffer) :=
  match p with
  | PlaneY => mkTheoraYUVbuffer (fValue b) l (fuData b) (fvData b) (fOwnData b)
  | PlaneU => mkTheoraYUVbuffer (fValue b) (fyData b) l (fvData b) (fOwnData b)
  | PlaneV => mkTheoraYUVbuffer (fValue b) (fyData b) (fuData b) l (fOwnData b)
  end.

Definition set_ptr (p : Plane) (q : uchar_ptr) (c : yuv_buffer) : yuv_buffer :=
  match p with
  | PlaneY => mk_yuv_buffer (y_width c) (y_height c) (y_stride c)
                (uv_width c) (uv_height c) (uv_stride c) q (c_u c) (c_v c)
  | PlaneU => mk_yuv_buffer (y_width c) (y_height c) (y_stride c)
                (uv_width c) (uv_height c) (uv_stride c) (c_y c) q (c_v c)
  | PlaneV => mk_yuv_buffer (y_width c) (y_height c) (y_stride c)
                (uv_width c) (uv_height c) (uv_stride c) (c_y c) (c_u c) q
  end.

(** Dereferencing [v.fValue]: a nil pointer panics. *)
Definition Ref : M World yuv_buffer :=
  fun s => match fValue (yuv s) with
           | Some c => Ok c s
           | None => Panic
           end.

Definition assign (f : yuv_buffer -> yuv_buffer) : M World unit :=
  fun s => match fValue (yuv s) with
           | Some c => Ok tt (mkWorld (set_fValue (Some (f c)) (yuv s)) (trace s))
           | None => Panic
           end.

Definition GetYWidth : M World Z := c <- Ref ;; ret (y_width c).
Definition SetYWidth (value : Z) : M World unit :=
  assign (fun c => mk_yuv_buffer (C_int value) (y_height c) (y_stride c)
                     (uv_width c) (uv_height c) (uv_stride c) (c_y c) (c_u c) (c_v c)).

Definition GetYHeight : M World Z := c <- Ref ;; ret (y_height c).
Definition SetYHeight (value : Z) : M World unit :=
  assign (fun c => mk_yuv_buffer (y_width c) (C_int value) (y_stride c)
                     (uv_width c) (uv_height c) (uv_stride c) (c_y c) (c_u c) (c_v c)).

Definition GetYStride : M World Z := c <- Ref ;; ret (y_stride c).
Definition SetYStride (value : Z) : M World unit :=
  assign (fun c => mk_yuv_buffer (y_width c) (y_height c) (C_int value)
                     (uv_width c) (uv_height c) (uv_stride c) (c_y c) (c_u c) (c_v c)).

Definition GetUVWidth : M World Z := c <- Ref ;; ret (uv_width c).
Definition SetUVWidth (value : Z) : M World unit :=
  assign (fun c => mk_yuv_buffer (y_width c) (y_height c) (y_stride c)
                     (C_int value) (uv_height c) (uv_stride c) (c_y c) (c_u c) (c_v c)).

Definition GetUVHeight : M World Z := c <- Ref ;; ret (uv_height c).
Definition SetUVHeight (value : Z) : M World unit :=
  assign (fun c => mk_yuv_buffer (y_width c) (y_height c) (y_stride c)
                     (uv_width c) (C_int value) (uv_stride c) (c_y c) (c_u c) (c_v c)).

Definition GetUVStride : M World Z := c <- Ref ;; ret (uv_stride c).
Definition SetUVStride (value : Z) : M World unit :=
  assign (fun c => mk_yuv_buffer (y_width c) (y_height c) (y_stride c)
                     (uv_width c) (uv_height c) (C_int value) (c_y c) (c_u c) (c_v c)).

Definition set_slice (p : Plane) (value : list Z) : M World unit :=
  fun s => Ok tt (mkWorld (set_plane_data p value (yuv s)) (trace s)).

(** [OGG.Ptr(slice[0:])] on the slice the buffer holds for plane [p]: the
  address of the first element when there is one, and what the host says
  when there is none. *)
Definition OGG_Ptr (host : Host) (p : Plane) : M World uchar_ptr :=
  fun s => match plane_data p (yuv s) with
           | [] => match Ptr_empty host with
                   | Some q => Ok q s
                   | None => Panic
                   end
           | _ :: _ => Ok (PtrTo p) s
           end.

Definition GetYData : M World (list Z) := fun s => Ok (fyData (yuv s)) s.
Definition SetYData (host : Host) (value : list Z) : M World unit :=
  set_slice PlaneY value ;;
  q <- OGG_Ptr host PlaneY ;; assign (set_ptr PlaneY q).

Definition GetUData : M World (list Z) := fun s => Ok (fuData (yuv s)) s.
Definition SetUData (host : Host) (value : list Z) : M World unit :=
  set_slice PlaneU value ;;
  q <- OGG_Ptr host PlaneU ;; assign (set_ptr PlaneU q).

Definition GetVData : M World (list Z) := fun s => Ok (fvData (yuv s)) s.
Definition SetVData (host : Host) (value : list Z) : M World unit :=
  set_slice PlaneV value ;;
  q <- OGG_Ptr host PlaneV ;; assign (set_ptr PlaneV q).

(** [make([]byte, n)]: zeroed bytes.  A negative length panics, and so does
  a length above what the host grants. *)
Definition make (host : Host) (n : Z) : M World (list Z) :=
  if (n <? 0) || (maxAlloc host <? n) then panic
  else ret (replicate (Z.to_nat n) 0).

(** [slice[i] = val] on the plane's backing array, with Go's bounds check. *)
Definition store (p : Plane) (i val : Z) : M World unit :=
  fun s =>
    let l := plane_data p (yuv s) in
    if (0 <=? i) && (i <? Z.of_nat (length l)) then
      Ok tt (mkWorld (set_plane_data p (<[Z.to_nat i := val]> l) (yuv s))
                     (trace s ++ [EvStore p i]))
    else Panic.

(** The three closures of [ConvertFromRasterImage]. *)
Definition nrgb {C} `{Color C} (v : C) : Z * Z * Z :=
  let c := NRGBAModel_Convert v in (u8 (NR c), u8 (NG c), u8 (NB c)).

Definition clamp (v : Z) : Z := if 255 <? v then 255 else byte v.

Definition booltoint (v : bool) : Z := if v then 1 else 0.

(** [aData.At(x, y)]. *)
Definition sample {C} (aData : Image C) (x y : Z) : M World C :=
  fun s => Ok (At aData x y) (mkWorld (yuv s) (trace s ++ [EvAt x y])).

(** The three [uint32] expressions the loops repeat for each sample. *)
Definition luma (c : Z * Z * Z) : Z :=
  let '(r0, g0, b0) := c in
  ((65481 * r0 + 128553 * g0 + 24966 * b0 + 4207500) / 255000)%u32.

Definition chroma_u (c : Z * Z * Z) : Z :=
  let '(r0, g0, b0) := c in
  (29032005 - 33488 * r0 - 65744 * g0 + 99232 * b0)%u32.

Definition chroma_v (c : Z * Z * Z) : Z :=
  let '(r0, g0, b0) := c in
  (157024 * r0 - 131488 * g0 - 25536 * b0 + 45940035)%u32.

(** [x + booltoint((x+1) < n)]: the coordinate of the second sample of a
  block, which the source computes for columns ([x1]) and for rows ([y1]). *)
Definition next_or_last (x n : Z) : Z :=
  (x + booltoint ((x + 1)%int <? n))%int.

Section Convert.
Context {C : Type} `{Color C}.
Variable aData : Image C.
Variables w h yuv_w : Z.

Definition block420 (y y1 x : Z) : M World Z :=
  let x1 := next_or_last x w in
  p0 <- sample aData x y ;;
  p1 <- sample aData x1 y ;;
  p2 <- sample aData x y1 ;;
  p3 <- sample aData x1 y1 ;;
  store PlaneY (x + y * yuv_w)%int (clamp (luma (nrgb p0))) ;;
  store PlaneY (x1 + y * yuv_w)%int (clamp (luma (nrgb p1))) ;;
  store PlaneY (x + y1 * yuv_w)%int (clamp (luma (nrgb p2))) ;;
  store PlaneY (x1 + y1 * yuv_w)%int (clamp (luma (nrgb p3))) ;;
  s <- GetUVStride ;;
  store PlaneU (Z.shiftr x 1 + Z.shiftr y 1 * s)%int
    (clamp ((chroma_u (nrgb p0) / 4 + chroma_u (nrgb p1) / 4 +
             chroma_u (nrgb p2) / 4 + chroma_u (nrgb p3) / 4) / 225930)%u32) ;;
  s <- GetUVStride ;;
  store PlaneV (Z.shiftr x 1 + Z.shiftr y 1 * s)%int
    (clamp ((chroma_v (nrgb p0) / 4 + chroma_v (nrgb p1) / 4 +
             chroma_v (nrgb p2) / 4 + chroma_v (nrgb p3) / 4) / 357510)%u32) ;;
  ret (x + 2)%int.

Definition row420 (y : Z) : M World Z :=
  let y1 := next_or_last y h in
  while (S (Z.to_nat w)) (fun x => x <? w) (block420 y y1) 0 ;;
  ret (y + 2)%int.

Definition pixel444 (y x : Z) : M World Z :=
  p0 <- sample aData x y ;;
  store PlaneY (x + y * yuv_w)%int (clamp (luma (nrgb p0))) ;;
  store PlaneU (x + y * yuv_w)%int (clamp (chroma_u (nrgb p0) / 225930)%u32) ;;
  store PlaneV (x + y * yuv_w)%int (clamp (chroma_v (nrgb p0) / 357510)%u32) ;;
  ret (x + 1)%int.

Definition row444 (y : Z) : M World Z :=
  while (S (Z.to_nat w)) (fun x => x <? w) (pixel444 y) 0 ;;
  ret (y + 1)%int.

Definition block422 (y x : Z) : M World Z :=
  let x1 := next_or_last x w in
  p0 <- sample aData x y ;;
  p1 <- sample aData x1 y ;;
  store PlaneY (x + y * yuv_w)%int (clamp (luma (nrgb p0))) ;;
  store PlaneY (x1 + y * yuv_w)%int (clamp (luma (nrgb p1))) ;;
  s <- GetUVStride ;;
  store PlaneU (Z.shiftr x 1 + y * s)%int
    (clamp ((chroma_u (nrgb p0) / 2 + chroma_u (nrgb p1) / 2) / 225930)%u32) ;;
  s <- GetUVStride ;;
  store PlaneV (Z.shiftr x 1 + y * s)%int
    (clamp ((chroma_v (nrgb p0) / 2 + chroma_v (nrgb p1) / 2) / 357510)%u32) ;;
  ret (x + 2)%int.

Definition row422 (y : Z) : M World Z :=
  while (S (Z.to_nat w)) (fun x => x <? w) (block422 y) 0 ;;
  ret (y + 1)%int.

End Convert.

Definition supported (chroma_format : YCbCrSubsampleRatio) : bool :=
  (chroma_format =? YCbCrSubsampleRatio444) ||
  (chroma_format =? YCbCrSubsampleRatio422) ||
  (chroma_format =? YCbCrSubsampleRatio420).

Definition ConvertFromRasterImage {C} `{Color C} (host : Host)
    (chroma_format : YCbCrSubsampleRatio) (aData : Image C) : M World bool :=
  if negb (supported chroma_format) then ret false
  else
    let h := Dy (Bounds aData) in
    let w := Dx (Bounds aData) in
    let yuv_w := Z.land (uint32 (w + 15)%int) (uint32 (Z.lnot 15)) in
    let yuv_h := Z.land (uint32 (h + 15)%int) (uint32 (Z.lnot 15)) in
    SetYWidth yuv_w ;;
    SetYHeight yuv_h ;;
    SetYStride yuv_w ;;
    (if chroma_format =? YCbCrSubsampleRatio444
     then SetUVWidth yuv_w
     else SetUVWidth (Z.shiftr yuv_w 1)) ;;
    uvw <- GetUVWidth ;;
    SetUVStride uvw ;;
    (if chroma_format =? YCbCrSubsampleRatio420
     then SetUVHeight (Z.shiftr yuv_h 1)
     else SetUVHeight yuv_h) ;;
    ys <- GetYStride ;; yh <- GetYHeight ;;
    yuv_y <- make host (ys * yh)%int ;;
    uvs <- GetUVStride ;; uvh <- GetUVHeight ;;
    yuv_u <- make host (uvs * uvh)%int ;;
    uvs <- GetUVStride ;; uvh <- GetUVHeight ;;
    yuv_v <- make host (uvs * uvh)%int ;;
    SetYData host yuv_y ;;
    SetUData host yuv_u ;;
    SetVData host yuv_v ;;
    (if chroma_format =? YCbCrSubsampleRatio420 then
       while (S (Z.to_nat h)) (fun y => y <? h) (row420 aData w h yuv_w) 0
     else if chroma_format =? YCbCrSubsampleRatio444 then
       while (S (Z.to_nat h)) (fun y => y <? h) (row444 aData w yuv_w) 0
     else
       while (S (Z.to_nat h)) (fun y => y <? h) (row422 aData w yuv_w) 0) ;;
    ret true.

(** [fOwnData] is a field of the Go struct: no pointer is dereferenced. *)
Definition GetOwnData : M World bool := fun s => Ok (fOwnData (yuv s)) s.
Definition SetOwnData (value : bool) : M World unit :=
  fun s => Ok tt (mkWorld (mkTheoraYUVbuffer (fValue (yuv s)) (fyData (yuv s))
                             (fuData (yuv s)) (fvData (yuv s)) value)
                          (trace s)).

(** What [Done] hands to [C.free]: the memory a plane pointer points to, or
  the [yuv_buffer] struct itself. *)
Inductive Freed : Type :=
| FreePlane (p : uchar_ptr)
| FreeStruct.

(** [if ptr != nil { C.free(ptr) }] for one plane pointer. *)
Definition free_plane (p : uchar_ptr) : list Freed :=
  match p with
  | NULL => []
  | _ => [FreePlane p]
  end.

(** [Done]; the Go method returns nothing, the value returned here is the
  list of its [C.free] calls, in order.  What [C.free] does with the memory
  it is handed is C's affair: the call is recorded, no more. *)
Definition Done : M World (list Freed) :=
  fun s =>
    match fValue (yuv s) with
    | Some c =>
        let planes :=
          if fOwnData (yuv s)
          then free_plane (c_y c) ++ free_plane (c_u c) ++ free_plane (c_v c)
          else [] in
        Ok (planes ++ [FreeStruct]) (mkWorld (set_fValue None (yuv s)) (trace s))
    | None => Ok [] s
    end.

End Yuv.

(** ** [TheoraInfo]: the stream parameters *)

Module Info.

(** libtheora's [theora_info], field by field ([codec_setup], an opaque
  pointer, is left out). *)
Record theora_info : Type := mk_theora_info {
  version_major : Z;
  version_minor : Z;
  version_subminor : Z;
  width : Z;
  height : Z;
  frame_width : Z;
  frame_height : Z;
  offset_x : Z;
  offset_y : Z;
  fps_numerator : Z;
  fps_denominator : Z;
  aspect_numerator : Z;
  aspect_denominator : Z;
  colorspace : Z;
  target_bitrate : Z;
  quality : Z;
  quick_p : Z;
  dropframes_p : Z;
  keyframe_auto_p : Z;
  keyframe_frequency : Z;
  keyframe_frequency_force : Z;
  keyframe_data_target_bitrate : Z;
  keyframe_auto_threshold : Z;
  keyframe_mindistance : Z;
  noise_sensitivity : Z;
  sharpness : Z;
  pixelformat : Z
}.

(** [fValue] is [None] when the pointer is nil (after [Done]); dereferencing
  it then panics, which the methods report as [None]. *)
Record TheoraInfo : Type := mkTheoraInfo { fValue : option theora_info }.

(** A [TheoraInfo] whose C struct is allocated. *)
Definition live (c : theora_info) : TheoraInfo := mkTheoraInfo (Some c).

Definition set_dropframes_p (value : Z) (c : theora_info) : theora_info :=
  mk_theora_info (version_major c) (version_minor c) (version_subminor c)
    (width c) (height c) (frame_width c) (frame_height c) (offset_x c)
    (offset_y c) (fps_numerator c) (fps_denominator c) (aspect_numerator c)
    (aspect_denominator c) (colorspace c) (target_bitrate c) (quality c)
    (quick_p c) value (keyframe_auto_p c) (keyframe_frequency c)
    (keyframe_frequency_force c) (keyframe_data_target_bitrate c)
    (keyframe_auto_threshold c) (keyframe_mindistance c) (noise_sensitivity c)
    (sharpness c) (pixelformat c).

Definition set_keyframe_auto_p (value : Z) (c : theora_info) : theora_info :=
  mk_theora_info (version_major c) (version_minor c) (version_subminor c)
    (width c) (height c) (frame_width c) (frame_height c) (offset_x c)
    (offset_y c) (fps_numerator c) (fps_denominator c) (aspect_numerator c)
    (aspect_denominator c) (colorspace c) (target_bitrate c) (quality c)
    (quick_p c) (dropframes_p c) value (keyframe_frequency c)
    (keyframe_frequency_force c) (keyframe_data_target_bitrate c)
    (keyframe_auto_threshold c) (keyframe_mindistance c) (noise_sensitivity c)
    (sharpness c) (pixelformat c).

Definition set_quick_p (value : Z) (c : theora_info) : theora_info :=
  mk_theora_info (version_major c) (version_minor c) (version_subminor c)
    (width c) (height c) (frame_width c) (frame_height c) (offset_x c)
    (offset_y c) (fps_numerator c) (fps_denominator c) (aspect_numerator c)
    (aspect_denominator c) (colorspace c) (target_bitrate c) (quality c) value
    (dropframes_p c) (keyframe_auto_p c) (keyframe_frequency c)
    (keyframe_frequency_force c) (keyframe_data_target_bitrate c)
    (keyframe_auto_threshold c) (keyframe_mindistance c) (noise_sensitivity c)
    (sharpness c) (pixelformat c).

Definition GetDropFrames (v : TheoraInfo) : option bool :=
  c ← fValue v; Some (0 <? dropframes_p c).

Definition GetKeyframeAuto (v : TheoraInfo) : option bool :=
  c ← fValue v; Some (0 <? keyframe_auto_p c).

Definition GetQuick (v : TheoraInfo) : option bool :=
  c ← fValue v; Some (0 <? quick_p c).

Definition SetDropFrames (AValue : bool) (v : TheoraInfo) : option TheoraInfo :=
  c ← fValue v;
  if AValue then Some (live (set_dropframes_p (C_int 0) c))
  else Some (live (set_dropframes_p (C_int 1) c)).

Definition SetKeyframeAuto (AValue : bool) (v : TheoraInfo) : option TheoraInfo :=
  c ← fValue v;
  if AValue then Some (live (set_keyframe_auto_p (C_int 0) c))
  else Some (live (set_keyframe_auto_p (C_int 1) c)).

Definition SetQuick (AValue : bool) (v : TheoraInfo) : option TheoraInfo :=
  c ← fValue v;
  if AValue then Some (live (set_quick_p (C_int 1) c))
  else Some (live (set_quick_p (C_int 0) c)).

(** The remaining field updates of [theora_info]. *)

Definition set_width (value : Z) (c : theora_info) : theora_info :=
  mk_theora_info (version_major c) (version_minor c) (version_subminor c)
    value (height c) (frame_width c) (frame_height c) (offset_x c)
    (offset_y c) (fps_numerator c) (fps_denominator c) (aspect_numerator c)
    (aspect_denominator c) (colorspace c) (target_bitrate c) (quality c)
    (quick_p c) (dropframes_p c) (keyframe_auto_p c) (keyframe_frequency c)
    (keyframe_frequency_force c) (keyframe_data_target_bitrate c)
    (keyframe_auto_threshold c) (keyframe_mindistance c) (noise_sensitivity c)
    (sharpness c) (pixelformat c).

Definition set_height (value : Z) (c : theora_info) : theora_info :=
  mk_theora_info (version_major c) (version_minor c) (version_subminor c)
    (width c) value (frame_width c) (frame_height c) (offset_x c) (offset_y c)
    (fps_numerator c) (fps_denominator c) (aspect_numerator c)
    (aspect_denominator c) (colorspace c) (target_bitrate c) (quality c)
    (quick_p c) (dropframes_p c) (keyframe_auto_p c) (keyframe_frequency c)
    (keyframe_frequency_force c) (keyframe_data_target_bitrate c)
    (keyframe_auto_threshold c) (keyframe_mindistance c) (noise_sensitivity c)
    (sharpness c) (pixelformat c).

Definition set_frame_width (value : Z) (c : theora_info) : theora_info :=
  mk_theora_info (version_major c) (version_minor c) (version_subminor c)
    (width c) (height c) value (frame_height c) (offset_x c) (offset_y c)
    (fps_numerator c) (fps_denominator c) (aspect_numerator c)
    (aspect_denominator c) (colorspace c) (target_bitrate c) (quality c)
    (quick_p c) (dropframes_p c) (keyframe_auto_p c) (keyframe_frequency c)
    (keyframe_frequency_force c) (keyframe_data_target_bitrate c)
    (keyframe_auto_threshold c) (keyframe_mindistance c) (noise_sensitivity c)
    (sharpness c) (pixelformat c).

Definition set_frame_height (value : Z) (c : theora_info) : theora_info :=
  mk_theora_info (version_major c) (version_minor c) (version_subminor c)
    (width c) (height c) (frame_width c) value (offset_x c) (offset_y c)
    (fps_numerator c) (fps_denominator c) (aspect_numerator c)
    (aspect_denominator c) (colorspace c) (target_bitrate c) (quality c)
    (quick_p c) (dropframes_p c) (keyframe_auto_p c) (keyframe_frequency c)
    (keyframe_frequency_force c) (keyframe_data_target_bitrate c)
    (keyframe_auto_threshold c) (keyframe_mindistance c) (noise_sensitivity c)
    (sharpness c) (pixelformat c).

Definition set_offset_x (value : Z) (c : theora_info) : theora_info :=
  mk_theora_info (version_major c) (version_minor c) (version_subminor c)
    (width c) (height c) (frame_width c) (frame_height c) value (offset_y c)
    (fps_numerator c) (fps_denominator c) (aspect_numerator c)
    (aspect_denominator c) (colorspace c) (target_bitrate c) (quality c)
    (quick_p c) (dropframes_p c) (keyframe_auto_p c) (keyframe_frequency c)
    (keyframe_frequency_force c) (keyframe_data_target_bitrate c)
    (keyframe_auto_threshold c) (keyframe_mindistance c) (noise_sensitivity c)
    (sharpness c) (pixelformat c).

Definition set_offset_y (value : Z) (c : theora_info) : theora_info :=
  mk_theora_info (version_major c) (version_minor c) (version_subminor c)
    (width c) (height c) (frame_width c) (frame_height c) (offset_x c) value
    (fps_numerator c) (fps_denominator c) (aspect_numerator c)
    (aspect_denominator c) (colorspace c) (target_bitrate c) (quality c)
    (quick_p c) (dropframes_p c) (keyframe_auto_p c) (keyframe_frequency c)
    (keyframe_frequency_force c) (keyframe_data_target_bitrate c)
    (keyframe_auto_threshold c) (keyframe_mindistance c) (noise_sensitivity c)
    (sharpness c) (pixelformat c).

Definition set_fps_numerator (value : Z) (c : theora_info) : theora_info :=
  mk_theora_info (version_major c) (version_minor c) (version_subminor c)
    (width c) (height c) (frame_width c) (frame_height c) (offset_x c)
    (offset_y c) value (fps_denominator c) (aspect_numerator c)
    (aspect_denominator c) (colorspace c) (target_bitrate c) (quality c)
    (quick_p c) (dropframes_p c) (keyframe_auto_p c) (keyframe_frequency c)
    (keyframe_frequency_force c) (keyframe_data_target_bitrate c)
    (keyframe_auto_threshold c) (keyframe_mindistance c) (noise_sensitivity c)
    (sharpness c) (pixelformat c).

Definition set_fps_denominator (value : Z) (c : theora_info) : theora_info :=
  mk_theora_info (version_major c) (version_minor c) (version_subminor c)
    (width c) (height c) (frame_width c) (frame_height c) (offset_x c)
    (offset_y c) (fps_numerator c) value (aspect_numerator c)
    (aspect_denominator c) (colorspace c) (target_bitrate c) (quality c)
    (quick_p c) (dropframes_p c) (keyframe_auto_p c) (keyframe_frequency c)
    (keyframe_frequency_force c) (keyframe_data_target_bitrate c)
    (keyframe_auto_threshold c) (keyframe_mindistance c) (noise_sensitivity c)
    (sharpness c) (pixelformat c).

Definition set_aspect_numerator (value : Z) (c : theora_info) : theora_info :=
  mk_theora_info (version_major c) (version_minor c) (version_subminor c)
    (width c) (height c) (frame_width c) (frame_height c) (offset_x c)
    (offset_y c) (fps_numerator c) (fps_denominator c) value
    (aspect_denominator c) (colorspace c) (target_bitrate c) (quality c)
    (quick_p c) (dropframes_p c) (keyframe_auto_p c) (keyframe_frequency c)
    (keyframe_frequency_force c) (keyframe_data_target_bitrate c)
    (keyframe_auto_threshold c) (keyframe_mindistance c) (noise_sensitivity c)
    (sharpness c) (pixelformat c).

Definition set_aspect_denominator (value : Z) (c : theora_info) : theora_info :=
  mk_theora_info (version_major c) (version_minor c) (version_subminor c)
    (width c) (height c) (frame_width c) (frame_height c) (offset_x c)
    (offset_y c) (fps_numerator c) (fps_denominator c) (aspect_numerator c)
    value (colorspace c) (target_bitrate c) (quality c) (quick_p c)
    (dropframes_p c) (keyframe_auto_p c) (keyframe_frequency c)
    (keyframe_frequency_force c) (keyframe_data_target_bitrate c)
    (keyframe_auto_threshold c) (keyframe_mindistance c) (noise_sensitivity c)
    (sharpness c) (pixelformat c).

Definition set_colorspace (value : Z) (c : theora_info) : theora_info :=
  mk_theora_info (version_major c) (version_minor c) (version_subminor c)
    (width c) (height c) (frame_width c) (frame_height c) (offset_x c)
    (offset_y c) (fps_numerator c) (fps_denominator c) (aspect_numerator c)
    (aspect_denominator c) value (target_bitrate c) (quality c) (quick_p c)
    (dropframes_p c) (keyframe_auto_p c) (keyframe_frequency c)
    (keyframe_frequency_force c) (keyframe_data_target_bitrate c)
    (keyframe_auto_threshold c) (keyframe_mindistance c) (noise_sensitivity c)
    (sharpness c) (pixelformat c).

Definition set_target_bitrate (value : Z) (c : theora_info) : theora_info :=
  mk_theora_info (version_major c) (version_minor c) (version_subminor c)
    (width c) (height c) (frame_width c) (frame_height c) (offset_x c)
    (offset_y c) (fps_numerator c) (fps_denominator c) (aspect_numerator c)
    (aspect_denominator c) (colorspace c) value (quality c) (quick_p c)
    (dropframes_p c) (keyframe_auto_p c) (keyframe_frequency c)
    (keyframe_frequency_force c) (keyframe_data_target_bitrate c)
    (keyframe_auto_threshold c) (keyframe_mindistance c) (noise_sensitivity c)
    (sharpness c) (pixelformat c).

Definition set_quality (value : Z) (c : theora_info) : theora_info :=
  mk_theora_info (version_major c) (version_minor c) (version_subminor c)
    (width c) (height c) (frame_width c) (frame_height c) (offset_x c)
    (offset_y c) (fps_numerator c) (fps_denominator c) (aspect_numerator c)
    (aspect_denominator c) (colorspace c) (target_bitrate c) value (quick_p c)
    (dropframes_p c) (keyframe_auto_p c) (keyframe_frequency c)
    (keyframe_frequency_force c) (keyframe_data_target_bitrate c)
    (keyframe_auto_threshold c) (keyframe_mindistance c) (noise_sensitivity c)
    (sharpness c) (pixelformat c).

Definition set_keyframe_frequency (value : Z) (c : theora_info) : theora_info :=
  mk_theora_info (version_major c) (version_minor c) (version_subminor c)
    (width c) (height c) (frame_width c) (frame_height c) (offset_x c)
    (offset_y c) (fps_numerator c) (fps_denominator c) (aspect_numerator c)
    (aspect_denominator c) (colorspace c) (target_bitrate c) (quality c)
    (quick_p c) (dropframes_p c) (keyframe_auto_p c) value
    (keyframe_frequency_force c) (keyframe_data_target_bitrate c)
    (keyframe_auto_threshold c) (keyframe_mindistance c) (noise_sensitivity c)
    (sharpness c) (pixelformat c).

Definition set_keyframe_frequency_force (value : Z) (c : theora_info) : theora_info :=
  mk_theora_info (version_major c) (version_minor c) (version_subminor c)
    (width c) (height c) (frame_width c) (frame_height c) (offset_x c)
    (offset_y c) (fps_numerator c) (fps_denominator c) (aspect_numerator c)
    (aspect_denominator c) (colorspace c) (target_bitrate c) (quality c)
    (quick_p c) (dropframes_p c) (keyframe_auto_p c) (keyframe_frequency c)
    value (keyframe_data_target_bitrate c) (keyframe_auto_threshold c)
    (keyframe_mindistance c) (noise_sensitivity c) (sharpness c)
    (pixelformat c).

Definition set_keyframe_data_target_bitrate (value : Z) (c : theora_info) : theora_info :=
  mk_theora_info (version_major c) (version_minor c) (version_subminor c)
    (width c) (height c) (frame_width c) (frame_height c) (offset_x c)
    (offset_y c) (fps_numerator c) (fps_denominator c) (aspect_numerator c)
    (aspect_denominator c) (colorspace c) (target_bitrate c) (quality c)
    (quick_p c) (dropframes_p c) (keyframe_auto_p c) (keyframe_frequency c)
    (keyframe_frequency_force c) value (keyframe_auto_threshold c)
    (keyframe_mindistance c) (noise_sensitivity c) (sharpness c)
    (pixelformat c).

Definition set_keyframe_auto_threshold (value : Z) (c : theora_info) : theora_info :=
  mk_theora_info (version_major c) (version_minor c) (version_subminor c)
    (width c) (height c) (frame_width c) (frame_height c) (offset_x c)
    (offset_y c) (fps_numerator c) (fps_denominator c) (aspect_numerator c)
    (aspect_denominator c) (colorspace c) (target_bitrate c) (quality c)
    (quick_p c) (dropframes_p c) (keyframe_auto_p c) (keyframe_frequency c)
    (keyframe_frequency_force c) (keyframe_data_target_bitrate c) value
    (keyframe_mindistance c) (noise_sensitivity c) (sharpness c)
    (pixelformat c).

Definition set_keyframe_mindistance (value : Z) (c : theora_info) : theora_info :=
  mk_theora_info (version_major c) (version_minor c) (version_subminor c)
    (width c) (height c) (frame_width c) (frame_height c) (offset_x c)
    (offset_y c) (fps_numerator c) (fps_denominator c) (aspect_numerator c)
    (aspect_denominator c) (colorspace c) (target_bitrate c) (quality c)
    (quick_p c) (dropframes_p c) (keyframe_auto_p c) (keyframe_frequency c)
    (keyframe_frequency_force c) (keyframe_data_target_bitrate c)
    (keyframe_auto_threshold c) value (noise_sensitivity c) (sharpness c)
    (pixelformat c).

Definition set_noise_sensitivity (value : Z) (c : theora_info) : theora_info :=
  mk_theora_info (version_major c) (version_minor c) (version_subminor c)
    (width c) (height c) (frame_width c) (frame_height c) (offset_x c)
    (offset_y c) (fps_numerator c) (fps_denominator c) (aspect_numerator c)
    (aspect_denominator c) (colorspace c) (target_bitrate c) (quality c)
    (quick_p c) (dropframes_p c) (keyframe_auto_p c) (keyframe_frequency c)
    (keyframe_frequency_force c) (keyframe_data_target_bitrate c)
    (keyframe_auto_threshold c) (keyframe_mindistance c) value (sharpness c)
    (pixelformat c).

Definition set_sharpness (value : Z) (c : theora_info) : theora_info :=
  mk_theora_info (version_major c) (version_minor c) (version_subminor c)
    (width c) (height c) (frame_width c) (frame_height c) (offset_x c)
    (offset_y c) (fps_numerator c) (fps_denominator c) (aspect_numerator c)
    (aspect_denominator c) (colorspace c) (target_bitrate c) (quality c)
    (quick_p c) (dropframes_p c) (keyframe_auto_p c) (keyframe_frequency c)
    (keyframe_frequency_force c) (keyframe_data_target_bitrate c)
    (keyframe_auto_threshold c) (keyframe_mindistance c) (noise_sensitivity c)
    value (pixelformat c).

Definition set_pixelformat (value : Z) (c : theora_info) : theora_info :=
  mk_theora_info (version_major c) (version_minor c) (version_subminor c)
    (width c) (height c) (frame_width c) (frame_height c) (offset_x c)
    (offset_y c) (fps_numerator c) (fps_denominator c) (aspect_numerator c)
    (aspect_denominator c) (colorspace c) (target_bitrate c) (quality c)
    (quick_p c) (dropframes_p c) (keyframe_auto_p c) (keyframe_frequency c)
    (keyframe_frequency_force c) (keyframe_data_target_bitrate c)
    (keyframe_auto_threshold c) (keyframe_mindistance c) (noise_sensitivity c)
    (sharpness c) value.

(** The struct after [calloc], which is what [NewTheoraInfo] holds. *)
Definition theora_info_zero : theora_info :=
  mk_theora_info 0 0 0 0 0 0 0 0 0 0 0 0 0 0 0 0 0 0 0 0 0 0 0 0 0 0 0.

Definition NewTheoraInfo : TheoraInfo := live theora_info_zero.

(** [Done] clears and frees the struct unless the pointer is nil already. *)
Definition Done (v : TheoraInfo) : TheoraInfo :=
  match fValue v with
  | Some _ => mkTheoraInfo None
  | None => v
  end.

(** The getters of the numeric fields: [int(v.fValue.field)]. *)

Definition GetAspectDenominator (v : TheoraInfo) : option Z :=
  c ← fValue v; Some (int (aspect_denominator c)).

Definition GetAspectNumerator (v : TheoraInfo) : option Z :=
  c ← fValue v; Some (int (aspect_numerator c)).

Definition GetFPSDenominator (v : TheoraInfo) : option Z :=
  c ← fValue v; Some (int (fps_denominator c)).

Definition GetFPSNumerator (v : TheoraInfo) : option Z :=
  c ← fValue v; Some (int (fps_numerator c)).

Definition GetFrameHeight (v : TheoraInfo) : option Z :=
  c ← fValue v; Some (int (frame_height c)).

Definition GetFrameWidth (v : TheoraInfo) : option Z :=
  c ← fValue v; Some (int (frame_width c)).

Definition GetHeight (v : TheoraInfo) : option Z :=
  c ← fValue v; Some (int (height c)).

Definition GetKeyframeAutoThreshold (v : TheoraInfo) : option Z :=
  c ← fValue v; Some (int (keyframe_auto_threshold c)).

Definition GetKeyframeDataTargetBitrate (v : TheoraInfo) : option Z :=
  c ← fValue v; Some (int (keyframe_data_target_bitrate c)).

Definition GetKeyframeFrequency (v : TheoraInfo) : option Z :=
  c ← fValue v; Some (int (keyframe_frequency c)).

Definition GetKeyframeFrequencyForce (v : TheoraInfo) : option Z :=
  c ← fValue v; Some (int (keyframe_frequency_force c)).

Definition GetKeyframeMindistance (v : TheoraInfo) : option Z :=
  c ← fValue v; Some (int (keyframe_mindistance c)).

Definition GetNoiseSensitivity (v : TheoraInfo) : option Z :=
  c ← fValue v; Some (int (noise_sensitivity c)).

Definition GetOffsetX (v : TheoraInfo) : option Z :=
  c ← fValue v; Some (int (offset_x c)).

Definition GetOffsetY (v : TheoraInfo) : option Z :=
  c ← fValue v; Some (int (offset_y c)).

Definition GetQuality (v : TheoraInfo) : option Z :=
  c ← fValue v; Some (int (quality c)).

Definition GetSharpness (v : TheoraInfo) : option Z :=
  c ← fValue v; Some (int (sharpness c)).

Definition GetTargetBitrate (v : TheoraInfo) : option Z :=
  c ← fValue v; Some (int (target_bitrate c)).

Definition GetWidth (v : TheoraInfo) : option Z :=
  c ← fValue v; Some (int (width c)).

(** The version getters: [byte(v.fValue.version_major)]. *)
Definition GetVersionMajor (v : TheoraInfo) : option Z :=
  c ← fValue v; Some (byte (version_major c)).
Definition GetVersionMinor (v : TheoraInfo) : option Z :=
  c ← fValue v; Some (byte (version_minor c)).
Definition GetVersionSubminor (v : TheoraInfo) : option Z :=
  c ← fValue v; Some (byte (version_subminor c)).

(** The setters of the fields libtheora declares [ogg_uint32_t]: the Go
  [int] is converted with [C.uint32_t(AValue)]. *)

Definition SetAspectDenominator (AValue : Z) (v : TheoraInfo) : option TheoraInfo :=
  c ← fValue v; Some (live (set_aspect_denominator (uint32 AValue) c)).

Definition SetAspectNumerator (AValue : Z) (v : TheoraInfo) : option TheoraInfo :=
  c ← fValue v; Some (live (set_aspect_numerator (uint32 AValue) c)).

Definition SetFPSDenominator (AValue : Z) (v : TheoraInfo) : option TheoraInfo :=
  c ← fValue v; Some (live (set_fps_denominator (uint32 AValue) c)).

Definition SetFPSNumerator (AValue : Z) (v : TheoraInfo) : option TheoraInfo :=
  c ← fValue v; Some (live (set_fps_numerator (uint32 AValue) c)).

Definition SetFrameHeight (AValue : Z) (v : TheoraInfo) : option TheoraInfo :=
  c ← fValue v; Some (live (set_frame_height (uint32 AValue) c)).

Definition SetFrameWidth (AValue : Z) (v : TheoraInfo) : option TheoraInfo :=
  c ← fValue v; Some (live (set_frame_width (uint32 AValue) c)).

Definition SetHeight (AValue : Z) (v : TheoraInfo) : option TheoraInfo :=
  c ← fValue v; Some (live (set_height (uint32 AValue) c)).

Definition SetKeyframeDataTargetBitrate (AValue : Z) (v : TheoraInfo) : option TheoraInfo :=
  c ← fValue v; Some (live (set_keyframe_data_target_bitrate (uint32 AValue) c)).

Definition SetKeyframeFrequency (AValue : Z) (v : TheoraInfo) : option TheoraInfo :=
  c ← fValue v; Some (live (set_keyframe_frequency (uint32 AValue) c)).

Definition SetKeyframeFrequencyForce (AValue : Z) (v : TheoraInfo) : option TheoraInfo :=
  c ← fValue v; Some (live (set_keyframe_frequency_force (uint32 AValue) c)).

Definition SetKeyframeMindistance (AValue : Z) (v : TheoraInfo) : option TheoraInfo :=
  c ← fValue v; Some (live (set_keyframe_mindistance (uint32 AValue) c)).

Definition SetOffsetX (AValue : Z) (v : TheoraInfo) : option TheoraInfo :=
  c ← fValue v; Some (live (set_offset_x (uint32 AValue) c)).

Definition SetOffsetY (AValue : Z) (v : TheoraInfo) : option TheoraInfo :=
  c ← fValue v; Some (live (set_offset_y (uint32 AValue) c)).

Definition SetWidth (AValue : Z) (v : TheoraInfo) : option TheoraInfo :=
  c ← fValue v; Some (live (set_width (uint32 AValue) c)).

(** The setters of the signed 32-bit fields: [C.int32_t(AValue)] and
  [C.int(AValue)]. *)

Definition SetKeyframeAutoThreshold (AValue : Z) (v : TheoraInfo) : option TheoraInfo :=
  c ← fValue v; Some (live (set_keyframe_auto_threshold (C_int AValue) c)).

Definition SetNoiseSensitivity (AValue : Z) (v : TheoraInfo) : option TheoraInfo :=
  c ← fValue v; Some (live (set_noise_sensitivity (C_int AValue) c)).

Definition SetQuality (AValue : Z) (v : TheoraInfo) : option TheoraInfo :=
  c ← fValue v; Some (live (set_quality (C_int AValue) c)).

Definition SetSharpness (AValue : Z) (v : TheoraInfo) : option TheoraInfo :=
  c ← fValue v; Some (live (set_sharpness (C_int AValue) c)).

Definition SetTargetBitrate (AValue : Z) (v : TheoraInfo) : option TheoraInfo :=
  c ← fValue v; Some (live (set_target_bitrate (C_int AValue) c)).

(** [Colorspace] and its four values; cgo gives a C enum without negative
  constants the representation of [uint32]. *)
Definition Colorspace : Type := Z.
Definition Unspec : Colorspace := 0.
Definition ITURec470M : Colorspace := 1.
Definition ITURec470BG : Colorspace := 2.
Definition NSpaces : Colorspace := 3.

Definition GetColorspace (v : TheoraInfo) : option Colorspace :=
  c ← fValue v; Some (int (colorspace c)).
Definition SetColorspace (AValue : Colorspace) (v : TheoraInfo) : option TheoraInfo :=
  c ← fValue v; Some (live (set_colorspace (uint32 AValue) c)).

(** libtheora's [theora_pixelformat]. *)
Definition OC_PF_420 : Z := 0.
Definition OC_PF_RSVD : Z := 1.
Definition OC_PF_422 : Z := 2.
Definition OC_PF_444 : Z := 3.

(** A [switch] on the stored value with three cases, and a default after it. *)
Definition GetPixelFormat (v : TheoraInfo) : option YCbCrSubsampleRatio :=
  c ← fValue v;
  if pixelformat c =? 0 then Some YCbCrSubsampleRatio420
  else if pixelformat c =? 2 then Some YCbCrSubsampleRatio422
  else if pixelformat c =? 3 then Some YCbCrSubsampleRatio444
  else Some YCbCrSubsampleRatio410.

(** A [switch] on the argument with three cases and no default: outside the
  cases the receiver is not touched, nor is its pointer dereferenced. *)
Definition SetPixelFormat (AValue : YCbCrSubsampleRatio) (v : TheoraInfo)
  : option TheoraInfo :=
  if AValue =? YCbCrSubsampleRatio420 then
    c ← fValue v; Some (live (set_pixelformat OC_PF_420 c))
  else if AValue =? YCbCrSubsampleRatio422 then
    c ← fValue v; Some (live (set_pixelformat OC_PF_422 c))
  else if AValue =? YCbCrSubsampleRatio444 then
    c ← fValue v; Some (live (set_pixelformat OC_PF_444 c))
  else Some v.

End Info.

(** ** [TheoraEncoder]: the encoder session *)

Module Enc.

(** The Go [error] values an encoder method can return; [None] is [nil]. *)
Inductive error : Type :=
| errTheoraException (r : Z)
| ETheoraEncCompletedException
| ETheoraEncNotReadyException
| ETheoraEncDifferException
| errOGG (code : Z).

(** libtheora's [OC_EINVAL]. *)
Definition OC_EINVAL : Z := -10.

(** libtheora's [theora_comment]: the vendor string and the user comments. *)
Record TheoraComment : Type := mkTheoraComment {
  vendor : string;
  user_comments : list string
}.

(** What an [ogg_packet] holds once the engine has filled it. *)
Inductive PacketKind : Type := Identification | CommentPacket | Setup | Data.

(** The calls that leave the wrapper: into libtheora and into the googg
  stream.  A packet argument is recorded by what the packet holds when the
  call is made. *)
Inductive Call : Type :=
| theora_encode_header
| theora_encode_comment (tc : TheoraComment)
| theora_encode_tables
| theora_encode_packetout (lp : Z)
| theora_encode_YUVin
| OGG_NewPacket
| SavePacketToStream (content : option PacketKind)
| PacketIn (content : option PacketKind)
| PagesFlushToStream
| StreamDone.

(** The session object.  [fState] and [foggs] are interface values, nil
  ([None]) or not; an [OGG.IOGGPacket] is an index into [packets]. *)
Record TheoraEncoder : Type := mkTheoraEncoder {
  fState : option unit;
  foggs : option unit
}.

Record State : Type := mkState {
  enc : TheoraEncoder;
  packets : list (option PacketKind);
  calls : list Call
}.

(** The codec engine and the transport are external: [engine] gives the
  status code libtheora returns, and [transport] the error googg returns,
  for the last call of a history. *)
Record Environment : Type := mkEnvironment {
  engine : list Call -> Z;
  transport : list Call -> option error
}.

Section Session.
Variable env : Environment.

Definition call_engine (c : Call) : M State Z :=
  fun s => let log := calls s ++ [c] in
           Ok (engine env log) (mkState (enc s) (packets s) log).

Definition call_transport (c : Call) : M State (option error) :=
  fun s => let log := calls s ++ [c] in
           Ok (transport env log) (mkState (enc s) (packets s) log).

(** A method call through a nil interface value panics. *)
Definition deref_fState : M State unit :=
  fun s => match fState (enc s) with Some _ => Ok tt s | None => Panic end.

Definition deref_foggs : M State unit :=
  fun s => match foggs (enc s) with Some _ => Ok tt s | None => Panic end.

Definition content (op : nat) : M State (option PacketKind) :=
  fun s => Ok (mjoin (packets s !! op)) s.

(** The engine fills [op] when it reports success. *)
Definition fill (op : nat) (k : PacketKind) : M State unit :=
  fun s => Ok tt (mkState (enc s) (<[op := Some k]> (packets s)) (calls s)).

(** [OGG.NewPacket()]. *)
Definition NewPacket : M State (nat * option error) :=
  err <- call_transport OGG_NewPacket ;;
  fun s => Ok (length (packets s), err)
              (mkState (enc s) (packets s ++ [None]) (calls s)).

Definition stream_SavePacketToStream (op : nat) : M State (option error) :=
  deref_foggs ;; k <- content op ;; call_transport (SavePacketToStream k).

Definition stream_PacketIn (op : nat) : M State (option error) :=
  deref_foggs ;; k <- content op ;; call_transport (PacketIn k).

Definition Header (op : nat) : M State (option error) :=
  deref_fState ;;
  R <- call_engine theora_encode_header ;;
  if negb (R =? 0) then ret (Some (errTheoraException R))
  else (fill op Identification ;; ret None).

Definition PacketOut (last_p : bool) (op : nat) : M State (option error) :=
  let lp := if last_p then 1 else 0 in
  deref_fState ;;
  R <- call_engine (theora_encode_packetout lp) ;;
  if R =? 1 then (fill op Data ;; ret None)
  else if R =? -1 then ret (Some ETheoraEncCompletedException)
  else if R =? 0 then ret (Some ETheoraEncNotReadyException)
  else ret (Some (errTheoraException R)).

Definition DoPacketOut (last_p : bool) : M State (nat * option error) :=
  pe <- NewPacket ;;
  match snd pe with
  | Some err => ret (fst pe, Some err)
  | None => err <- PacketOut last_p (fst pe) ;; ret (fst pe, err)
  end.

Definition YUVin : M State (option error) :=
  deref_fState ;;
  R <- call_engine theora_encode_YUVin ;;
  if R =? 0 then ret None
  else if R =? -1 then ret (Some ETheoraEncDifferException)
  else if R =? OC_EINVAL then ret (Some ETheoraEncNotReadyException)
  else ret (Some (errTheoraException R)).

Definition Comment (tc : TheoraComment) (op : nat) : M State (option error) :=
  R <- call_engine (theora_encode_comment tc) ;;
  if negb (R =? 0) then ret (Some (errTheoraException R))
  else (fill op CommentPacket ;; ret None).

Definition Tables (op : nat) : M State (option error) :=
  deref_fState ;;
  R <- call_engine theora_encode_tables ;;
  if negb (R =? 0) then ret (Some (errTheoraException R))
  else (fill op Setup ;; ret None).

(** [err = f(); if err != nil { return err }] followed by [k]. *)
Definition try (m : M State (option error)) (k : M State (option error))
  : M State (option error) :=
  err <- m ;;
  match err with
  | Some e => ret (Some e)
  | None => k
  end.

Definition SaveCustomHeadersToStream (tc : TheoraComment)
  : M State (option error) :=
  pe <- NewPacket ;;
  let op := fst pe in
  try (ret (snd pe))
 (try (Header op)
 (try (stream_SavePacketToStream op)
 (try (Comment tc op)
 (try (stream_PacketIn op)
 (try (Tables op)
 (try (stream_PacketIn op)
 (try (stream_SavePacketToStream op)
 (ret None)))))))).

Definition SaveYUVBufferToStream (is_last : bool) : M State (option error) :=
  try YUVin
 (pe <- DoPacketOut is_last ;;
  try (ret (snd pe))
 (try (stream_SavePacketToStream (fst pe))
 (ret None))).

Definition Flush : M State (option error) :=
  deref_foggs ;; call_transport PagesFlushToStream.

Definition Close : M State (option error) :=
  try Flush
 (fun s =>
    match foggs (enc s) with
    | Some _ =>
        let log := calls s ++ [StreamDone] in
        Ok None (mkState (mkTheoraEncoder (fState (enc s)) None) (packets s) log)
    | None => Ok None s
    end).

End Session.

(** What [NewTheoraEncoder] returns on success: both handles are set. *)
Definition NewTheoraEncoder : State :=
  mkState (mkTheoraEncoder (Some tt) (Some tt)) [] [].

(** The calls that produce a header packet. *)
Definition produces_header (c : Call) : bool :=
  match c with
  | theora_encode_header | theora_encode_comment _ | theora_encode_tables => true
  | _ => false
  end.

(** Modelled on the spec's wording of [drainPacket]: the outcome the caller
  sees for each engine status. *)
Inductive drain_outcome : Z -> option error -> Prop :=
| drain_packet : drain_outcome 1 None
| drain_not_ready : drain_outcome 0 (Some ETheoraEncNotReadyException)
| drain_completed : drain_outcome (-1) (Some ETheoraEncCompletedException)
| drain_other R : R <> 1 -> R <> 0 -> R <> -1 ->
    drain_outcome R (Some (errTheoraException R)).

(** The exported value [ETheoraException], [errTheoraException{0}]. *)
Definition ETheoraException : error := errTheoraException 0.

End Enc.

(** ** [TheoraDecoder] *)

Module Dec.

(** The Go [error] values a decoder method can return; [None] is [nil]. *)
Inductive error : Type :=
| errTheoraException (r : Z)
| ETheoraDecBadPacketException.

(** libtheora's [OC_BADPACKET]. *)
Definition OC_BADPACKET : Z := -24.

(** The calls into libtheora. *)
Inductive Call : Type :=
| theora_decode_header
| theora_decode_packetin
| theora_decode_YUVout.

(** [TheoraState]: [info] is the interface value [Init] stored, nil before. *)
Record TheoraState : Type := mkTheoraState { info : option unit }.

(** [fState] is an interface value, nil ([None]) or not. *)
Record TheoraDecoder : Type := mkTheoraDecoder { fState : option TheoraState }.

Record State : Type := mkState {
  dec : TheoraDecoder;
  calls : list Call
}.

Section Session.
(** The status code libtheora returns for the last call of a history. *)
Variable engine : list Call -> Z.

Definition call_engine (c : Call) : M State Z :=
  fun s => let log := calls s ++ [c] in
           Ok (engine log) (mkState (dec s) log).

(** [v.fState.Ref()]: a method call through a nil interface panics. *)
Definition deref_fState : M State TheoraState :=
  fun s => match fState (dec s) with Some st => Ok st s | None => Panic end.

(** [v.fState.Info().Ref()]. *)
Definition deref_info : M State unit :=
  st <- deref_fState ;;
  match info st with Some _ => ret tt | None => panic end.

Definition Header : M State (option error) :=
  deref_info ;;
  R <- call_engine theora_decode_header ;;
  if negb (R =? 0) then ret (Some (errTheoraException R))
  else ret None.

Definition PacketIn : M State (option error) :=
  deref_fState ;;
  R <- call_engine theora_decode_packetin ;;
  if R =? 0 then ret None
  else if R =? OC_BADPACKET then ret (Some ETheoraDecBadPacketException)
  else ret (Some (errTheoraException R)).

Definition YUVout : M State (option error) :=
  deref_fState ;;
  R <- call_engine theora_decode_YUVout ;;
  if negb (R =? 0) then ret (Some (errTheoraException R))
  else ret None.

End Session.

(** What [NewTheoraDecoder] returns on success. *)
Definition NewTheoraDecoder : State :=
  mkState (mkTheoraDecoder (Some (mkTheoraState (Some tt)))) [].

End Dec.

(** ** The example encoder, [test/encoder/main.go] *)

(** The files, the PNG decoder and the terminal are outside the model: the
  frame size and the decoded images are parameters.  The sending goroutine
  and the channel are represented by the sequence of values the channel
  delivers, which the receiving loop takes in the order they were sent. *)

Module Example.

Definition CFG_CHROMA : YCbCrSubsampleRatio := YCbCrSubsampleRatio444.
Definition CFG_QUALITY : Z := 5.
Definition CFG_BITRATE : Z := 45.
Definition CFG_DELTATIME : Z := 250.

(** Go's [float64(n)] of an [int] (of magnitude below 2^63). *)
Definition float64 (z : Z) : float :=
  if z <? 0 then PrimFloat.opp (PrimFloat.of_uint63 (Uint63.of_Z (- z)))
  else PrimFloat.of_uint63 (Uint63.of_Z z).

(** Go's [int(f)] of a [float64]: the fraction is discarded.  For a value
  that is not finite Go leaves the result to the implementation. *)
Definition int_of_float64 (f : float) : Z :=
  match Prim2SF f with
  | S754_finite s m e =>
      let v := if 0 <=? e then Z.pos m * 2 ^ e else Z.pos m / 2 ^ (- e) in
      int (if s then - v else v)
  | _ => 0
  end.

(** [((v + 15) >> 4) << 4] on Go [int]s. *)
Definition coded_size (v : Z) : Z :=
  int (Z.shiftl (Z.shiftr (v + 15)%int 4) 4).

(** The configuration [main] gives the codec for frames of [w] by [h]
  pixels, from [info.SetWidth] to [info.SetNoiseSensitivity]. *)
Definition configure (w h : Z) (info : Info.TheoraInfo) : option Info.TheoraInfo :=
  info ← Info.SetWidth (coded_size w) info;
  info ← Info.SetHeight (coded_size h) info;
  info ← Info.SetFrameWidth w info;
  info ← Info.SetFrameHeight h info;
  info ← Info.SetOffsetX 0 info;
  info ← Info.SetOffsetY 0 info;
  let video_fps_denominator := 1 in
  let video_aspect_numerator := 0 in
  let video_aspect_denominator := 0 in
  let video_quality := CFG_QUALITY * 63 / 10 in
  let video_fps_numerator := 1000 / CFG_DELTATIME in
  let video_rate := CFG_BITRATE * 1000 in
  info ← Info.SetFPSNumerator video_fps_numerator info;
  info ← Info.SetFPSDenominator video_fps_denominator info;
  info ← Info.SetAspectNumerator video_aspect_numerator info;
  info ← Info.SetAspectDenominator video_aspect_denominator info;
  info ← Info.SetColorspace Info.Unspec info;
  info ← Info.SetPixelFormat CFG_CHROMA info;
  info ← Info.SetTargetBitrate video_rate info;
  info ← Info.SetQuality video_quality info;
  info ← Info.SetDropFrames false info;
  info ← Info.SetQuick true info;
  info ← Info.SetKeyframeAuto true info;
  info ← Info.SetKeyframeFrequency 32768 info;
  info ← Info.SetKeyframeFrequencyForce 32768 info;
  info ← Info.SetKeyframeDataTargetBitrate
           (int_of_float64 (PrimFloat.mul (float64 video_rate) 1.5%float)) info;
  info ← Info.SetKeyframeAutoThreshold 80 info;
  info ← Info.SetKeyframeMindistance 8 info;
  Info.SetNoiseSensitivity 1 info.

Section Run.
Context {C : Type} `{Color C}.
Variable env : Enc.Environment.
Variable host : Yuv.Host.

(** [check(e)]: a panic when [e] is not nil. *)
Definition check (e : option Enc.error) : M Enc.State unit :=
  match e with
  | Some _ => panic
  | None => ret tt
  end.

(** What [main] does with one value received from the channel [to_enc]:
  the frame numbered [total] closes the encoder and ends the loop, any
  other is converted into a new buffer and handed to the encoder.  The
  result is the loop variable [next]. *)
Definition receive (total loc : Z) (img : option (Image C)) : M Enc.State bool :=
  if loc =? total then
    Enc.Close env ;; ret false
  else
    match img with
    | None => panic
    | Some aData =>
        match Yuv.ConvertFromRasterImage host CFG_CHROMA aData
                (Yuv.mkWorld Yuv.NewTheoraYUVbuffer []) with
        | Ok true _ =>
            e <- Enc.SaveYUVBufferToStream env (loc =? (total - 1)%int) ;;
            check e ;; ret true
        | Ok false _ => ret true
        | Panic => panic
        | OutOfFuel => fun _ => OutOfFuel
        end
    end.

(** The receiving loop over the values the channel delivers, in order; when
  nothing more arrives the loop sleeps and polls for ever. *)
Fixpoint consume (total : Z) (delivered : list (Z * option (Image C)))
  : M Enc.State unit :=
  match delivered with
  | [] => fun _ => OutOfFuel
  | (loc, img) :: rest =>
      next <- receive total loc img ;;
      if next then consume total rest else ret tt
  end.

(** What the sending goroutine puts on the channel for the decoded images
  [imgs], numbered from [i]: each image with its number. *)
Fixpoint frames_from (i : Z) (imgs : list (Image C)) : list (Z * option (Image C)) :=
  match imgs with
  | [] => []
  | img :: rest => (i, Some img) :: frames_from (i + 1)%int rest
  end.

(** [main] from the headers on, for the decoded images [imgs] and the
  comment [tc] it built: no frame is a panic; the images are sent in order
  and followed by the frame numbered [total], which carries no image. *)
Definition encode (tc : Enc.TheoraComment) (imgs : list (Image C))
  : M Enc.State unit :=
  let total := Z.of_nat (length imgs) in
  if total =? 0 then panic
  else
    e <- Enc.SaveCustomHeadersToStream env tc ;;
    check e ;;
    consume total (frames_from 0 imgs ++ [(total, None)]).

End Run.

End Example.

(** * Specification vocabulary *)

(** ** Total correctness of a computation *)

(** [wp m Q s]: run from [s], [m] returns normally (no panic, enough fuel)
    with a result and a final state that satisfy [Q]. *)
Definition wp {S A} (m : M S A) (Q : A -> S -> Prop) (s : S) : Prop :=
  exists a s', m s = Ok a s' /\ Q a s'.

(** ** Plane geometry and colour arithmetic of the converter *)

Import Yuv.

(** The spec's rounding formula, [(v + 15) & ~15]. *)
Definition padded (v : Z) : Z := Z.land (v + 15) (Z.lnot 15).

(** The largest width or height whose padded value still fits the C [int]
    fields of [yuv_buffer]. *)
Definition max_dim : Z := 2147483632.

(** A valid input image: it has a pixel, and its dimensions can be stored
    in a [yuv_buffer]. *)
Definition valid_image {C} (aData : Image C) : Prop :=
  1 <= Dx (Bounds aData) <= max_dim /\ 1 <= Dy (Bounds aData) <= max_dim.

(** The host grants the planes of an image: the luma plane, which is the
    longest of the three, is within what [make] obtains. *)
Definition grants {C} (host : Host) (aData : Image C) : Prop :=
  padded (Dx (Bounds aData)) * padded (Dy (Bounds aData)) <= maxAlloc host.

(** The second sample of a 2-wide or 2-tall block: the next column (row),
    or the same one at the image's last column (row). *)
Definition edge (x n : Z) : Z := if x + 1 <? n then x + 1 else x.

(** The colour triples [nrgb] produces. *)
Definition rgb_ok (c : Z * Z * Z) : Prop :=
  let '(r, g, b) := c in 0 <= r <= 255 /\ 0 <= g <= 255 /\ 0 <= b <= 255.

(** The two chroma rows of the matrix over the integers, before the final
    division: the chroma contributions of one sample. *)
Definition contrib_u (c : Z * Z * Z) : Z :=
  let '(r, g, b) := c in 29032005 - 33488 * r - 65744 * g + 99232 * b.
Definition contrib_v (c : Z * Z * Z) : Z :=
  let '(r, g, b) := c in 157024 * r - 131488 * g - 25536 * b + 45940035.

(** The spec's wording of the averaging: the contributions are summed, the
    sum is divided by the number of samples, then by the matrix constant. *)
Definition average4 (K a b c d : Z) : Z := clamp ((a + b + c + d) / 4 / K).
Definition average2 (K a b : Z) : Z := clamp ((a + b) / 2 / K).

(** The code's order: each contribution is divided by 4, the four quotients
    are summed, the sum is divided by the matrix constant. *)
Definition quarters4 (K a b c d : Z) : Z :=
  clamp ((a / 4 + b / 4 + c / 4 + d / 4) / K).

(** The chroma bytes the three loops store for the block that starts at
    pixel [(x, y)], as the source computes them. *)
Section ChromaValues.
Context {C : Type} `{Color C} (aData : Image C).
Variables (w h : Z).

Definition u444 (x y : Z) : Z :=
  clamp (chroma_u (nrgb (At aData x y)) / 225930)%u32.

Definition v444 (x y : Z) : Z :=
  clamp (chroma_v (nrgb (At aData x y)) / 357510)%u32.

Definition u420 (x y : Z) : Z :=
  clamp ((chroma_u (nrgb (At aData x y)) / 4 +
          chroma_u (nrgb (At aData (edge x w) y)) / 4 +
          chroma_u (nrgb (At aData x (edge y h))) / 4 +
          chroma_u (nrgb (At aData (edge x w) (edge y h))) / 4) / 225930)%u32.

Definition v420 (x y : Z) : Z :=
  clamp ((chroma_v (nrgb (At aData x y)) / 4 +
          chroma_v (nrgb (At aData (edge x w) y)) / 4 +
          chroma_v (nrgb (At aData x (edge y h))) / 4 +
          chroma_v (nrgb (At aData (edge x w) (edge y h))) / 4) / 357510)%u32.

Definition u422 (x y : Z) : Z :=
  clamp ((chroma_u (nrgb (At aData x y)) / 2 +
          chroma_u (nrgb (At aData (edge x w) y)) / 2) / 225930)%u32.

Definition v422 (x y : Z) : Z :=
  clamp ((chroma_v (nrgb (At aData x y)) / 2 +
          chroma_v (nrgb (At aData (edge x w) y)) / 2) / 357510)%u32.

End ChromaValues.

(** [l] holds [val x y] at index [idx x y] for every pixel in [P]. *)
Definition holds (idx val : Z -> Z -> Z) (P : Z -> Z -> Prop) (l : list Z) : Prop :=
  forall x y, P x y -> l !! Z.to_nat (idx x y) = Some (val x y).

(** ** The loop invariant of the conversion *)

Section Planes.
Context {C : Type} `{Color C} (aData : Image C).
Variables (w h sx sy : Z).
Variables (cu cv : Z -> Z -> Z).
Variables (own : bool) (tr0 : list Event).

(** Index of pixel [(x, y)] in the luma plane, and of its chroma sample in a
    chroma plane subsampled by [sx] horizontally and [sy] vertically. *)
Definition luma_index (x y : Z) : Z := x + y * padded w.
Definition chroma_index (x y : Z) : Z := x / sx + y / sy * (padded w / sx).

Definition luma_at (x y : Z) : Z := clamp (luma (nrgb (At aData x y))).
Definition chroma_u_at (x y : Z) : Z := cu (sx * (x / sx)) (sy * (y / sy)).
Definition chroma_v_at (x y : Z) : Z := cv (sx * (x / sx)) (sy * (y / sy)).

(** The C struct once the dimensions and the plane pointers are set. *)
Definition sized : yuv_buffer :=
  mk_yuv_buffer (padded w) (padded h) (padded w)
    (padded w / sx) (padded h / sy) (padded w / sx)
    (PtrTo PlaneY) (PtrTo PlaneU) (PtrTo PlaneV).

(** A read stays inside the image, a write inside its plane. *)
Definition ev_ok (e : Event) : Prop :=
  match e with
  | EvAt x y => 0 <= x < w /\ 0 <= y < h
  | EvStore PlaneY i => 0 <= i < padded w * padded h
  | EvStore _ i => 0 <= i < (padded w / sx) * (padded h / sy)
  end.

(** The pixels already converted when the loops stand at row [y], column [x]. *)
Definition done (y x x' y' : Z) : Prop :=
  0 <= x' < w /\ 0 <= y' < h /\ (y' < y \/ (y' < y + sy /\ x' < x)).

Record Inv (y x : Z) (s : World) : Prop := mkInv {
  inv_fValue : fValue (yuv s) = Some sized;
  inv_own : fOwnData (yuv s) = own;
  inv_ylen : Z.of_nat (length (fyData (yuv s))) = padded w * padded h;
  inv_ulen : Z.of_nat (length (fuData (yuv s))) = (padded w / sx) * (padded h / sy);
  inv_vlen : Z.of_nat (length (fvData (yuv s))) = (padded w / sx) * (padded h / sy);
  inv_trace : exists evs, trace s = tr0 ++ evs /\ Forall ev_ok evs;
  inv_y : holds luma_index luma_at (done y x) (fyData (yuv s));
  inv_u : holds chroma_index chroma_u_at (done y x) (fuData (yuv s));
  inv_v : holds chroma_index chroma_v_at (done y x) (fvData (yuv s))
}.

End Planes.


(** ** The window of a plane that the image covers *)

(** The samples a plane subsampled by [s] holds for [n] pixels. *)
Definition samples (n s : Z) : Z := (n + s - 1) / s.

(** Whether index [i] of a plane whose rows are [stride] bytes long lies in
    the first [cols] columns of one of the first [rows] rows. *)
Definition in_window (stride cols rows i : Z) : bool :=
  (i mod stride <? cols) && (i / stride <? rows).

(** Every byte of [l] outside the window is zero. *)
Definition zero_outside (stride cols rows : Z) (l : list Z) : Prop :=
  forall (n : nat) v,
    l !! n = Some v -> in_window stride cols rows (Z.of_nat n) = false -> v = 0.

Section Windows.
Variables (w h sx sy : Z).
Variable (tr0 : list Event).

(** A write lands inside the window of its plane. *)
Definition ev_window (e : Event) : Prop :=
  match e with
  | EvAt _ _ => True
  | EvStore PlaneY i => in_window (padded w) w h i = true
  | EvStore _ i =>
      in_window (padded w / sx) (samples w sx) (samples h sy) i = true
  end.

(** What the loops keep besides [Inv]: no write outside the windows, and
    the bytes outside them still zero. *)
Record Clean (s : World) : Prop := mkClean {
  clean_trace : exists evs, trace s = tr0 ++ evs /\ Forall ev_window evs;
  clean_y : zero_outside (padded w) w h (fyData (yuv s));
  clean_u : zero_outside (padded w / sx) (samples w sx) (samples h sy)
              (fuData (yuv s));
  clean_v : zero_outside (padded w / sx) (samples w sx) (samples h sy)
              (fvData (yuv s))
}.

End Windows.

(** The pixels one chroma sample covers, across and down, at each format. *)
Definition chroma_sx (f : YCbCrSubsampleRatio) : Z :=
  if f =? YCbCrSubsampleRatio444 then 1 else 2.
Definition chroma_sy (f : YCbCrSubsampleRatio) : Z :=
  if f =? YCbCrSubsampleRatio420 then 2 else 1.

(** The chroma bytes of the block that starts at pixel [(x, y)], at each
    supported format. *)
Definition chroma_u_of {C} `{Color C} (f : YCbCrSubsampleRatio) (aData : Image C)
  : Z -> Z -> Z :=
  if f =? YCbCrSubsampleRatio444 then u444 aData
  else if f =? YCbCrSubsampleRatio420
       then u420 aData (Dx (Bounds aData)) (Dy (Bounds aData))
       else u422 aData (Dx (Bounds aData)).

Definition chroma_v_of {C} `{Color C} (f : YCbCrSubsampleRatio) (aData : Image C)
  : Z -> Z -> Z :=
  if f =? YCbCrSubsampleRatio444 then v444 aData
  else if f =? YCbCrSubsampleRatio420
       then v420 aData (Dx (Bounds aData)) (Dy (Bounds aData))
       else v422 aData (Dx (Bounds aData)).

(** The luma row of the matrix over the integers. *)
Definition contrib_y (c : Z * Z * Z) : Z :=
  let '(r, g, b) := c in 65481 * r + 128553 * g + 24966 * b + 4207500.

(** A colour without hue: red, green and blue are equal. *)
Definition grey (c : Z * Z * Z) : Prop :=
  let '(r, g, b) := c in r = g /\ g = b.

(** The six dimensions of a buffer, read through its getters. *)
Definition dimensions : M World (list Z) :=
  yw <- GetYWidth ;; yh <- GetYHeight ;; ys <- GetYStride ;;
  uw <- GetUVWidth ;; uh <- GetUVHeight ;; us <- GetUVStride ;;
  ret [yw; yh; ys; uw; uh; us].

(** A buffer after [Done]: the struct is gone, the Go slices are not. *)
Definition released (ly lu lv : list Z) (own : bool) (tr : list Event) : World :=
  mkWorld (mkTheoraYUVbuffer None ly lu lv own) tr.

(** ** Concrete inputs *)

Definition rgba (r g b a : Z) : RGBA :=
  mkRGBA (to_uint8 r) (to_uint8 g) (to_uint8 b) (to_uint8 a).

Definition nrgba (r g b a : Z) : NRGBA :=
  mkNRGBA (to_uint8 r) (to_uint8 g) (to_uint8 b) (to_uint8 a).

(** An [*image.RGBA] of one colour; outside its rectangle [At] returns the
    zero colour, as Go's does. *)
Definition solid_RGBA (w h : Z) (c : RGBA) : Image RGBA :=
  mkImage RGBA (Rect (Pt 0 0) (Pt w h))
    (fun x y => if (0 <=? x) && (x <? w) && (0 <=? y) && (y <? h)
                then c else rgba 0 0 0 0).

(** The spec's scenario: 17x15, solid (255, 0, 0). *)
Definition red_17x15 : Image RGBA := solid_RGBA 17 15 (rgba 255 0 0 255).

(** A 2x2 [*image.NRGBA]: green 255 except 161 at (1, 1), blue 117, no red. *)
Definition green_2x2 : Image NRGBA :=
  mkImage NRGBA (Rect (Pt 0 0) (Pt 2 2))
    (fun x y => nrgba 0 (if (x =? 1) && (y =? 1) then 161 else 255) 117 255).

(** A 3x3 image that answers one grey at every coordinate, as an
    [image.Uniform] does. *)
Definition grey_3x3 : Image RGBA :=
  mkImage RGBA (Rect (Pt 0 0) (Pt 3 3)) (fun _ _ => rgba 128 128 128 255).

(** An image without pixels, and one a pixel wider than a C [int] holds. *)
Definition no_pixels : Image RGBA := solid_RGBA 0 5 (rgba 255 0 0 255).
Definition too_wide : Image RGBA := solid_RGBA 2147483648 1 (rgba 255 0 0 255).

(** An [*image.Uniform]: one colour at every coordinate, and the bounds Go
    gives it, from -1e9 to 1e9 both ways. *)
Definition Uniform (c : RGBA) : Image RGBA :=
  mkImage RGBA (Rect (Pt (-1000000000) (-1000000000)) (Pt 1000000000 1000000000))
    (fun _ _ => c).

(** A host for the concrete runs: [make] obtains up to the limit of the Go
    runtime on linux/amd64, 2^48 bytes.  For [Ptr] on an empty slice, which
    no conversion of an image with a pixel reaches, it takes the panic. *)
Definition linux_amd64 : Host := mkHost (2 ^ 48) None.

(** A buffer as [NewTheoraYUVbuffer] returns it, and no call observed yet. *)
Definition fresh : World := mkWorld NewTheoraYUVbuffer [].

(** The luma plane the spec's scenario expects, 32 bytes a row and 16 rows:
    the red luma value inside the visible 17x15 window, zero outside. *)
Definition red_17x15_luma : list Z :=
  map (fun i => if (i mod 32 <? 17) && (i / 32 <? 15)
                then clamp ((65481 * 255 + 4207500) / 255000)
                else 0)
      (seqZ 0 512).

(** A luma write that lands inside the visible 17x15 window of a plane of
    stride 32. *)
Definition visible_17x15 (e : Event) : bool :=
  match e with
  | EvStore PlaneY i => (i mod 32 <? 17) && (i / 32 <? 15)
  | _ => true
  end.

(** ** Stream parameters *)

(** A setter and its getter on an allocated [TheoraInfo]: what is read back
    is the argument after the conversion [conv] to the field's C type, and
    both panic once the struct is released. *)
Definition reads_back (conv : Z -> Z) (n : Z) (c : Info.theora_info)
    (sg : (Z -> Info.TheoraInfo -> option Info.TheoraInfo) *
          (Info.TheoraInfo -> option Z)) : Prop :=
  exists c',
    fst sg n (Info.live c) = Some (Info.live c') /\
    snd sg (Info.live c') = Some (conv n) /\
    fst sg n (Info.Done (Info.live c)) = None /\
    snd sg (Info.Done (Info.live c)) = None.

(** The value [SetPixelFormat] stores for a format it knows. *)
Definition pixelformat_of (f : YCbCrSubsampleRatio) : Z :=
  if f =? YCbCrSubsampleRatio420 then Info.OC_PF_420
  else if f =? YCbCrSubsampleRatio422 then Info.OC_PF_422
  else Info.OC_PF_444.

(** ** The encoder session *)

Import Enc.

(** Whether the environment reports a failure for call [c] made after the
    history [hist]. *)
Definition failed (env : Environment) (hist : list Call) (c : Call) : bool :=
  match c with
  | theora_encode_header | theora_encode_comment _ | theora_encode_tables
  | theora_encode_YUVin =>
      negb (engine env (hist ++ [c]) =? 0)
  | theora_encode_packetout _ => negb (engine env (hist ++ [c]) =? 1)
  | _ => match transport env (hist ++ [c]) with Some _ => true | None => false end
  end.

(** Every call of [new] but the last one succeeded. *)
Fixpoint stops_at_first_failure (env : Environment) (hist new : list Call) : bool :=
  match new with
  | [] => true
  | c :: rest =>
      match rest with
      | [] => true
      | _ => negb (failed env hist c) &&
             stops_at_first_failure env (hist ++ [c]) rest
      end
  end.

(** An environment in which every call succeeds. *)
Definition env_ok : Environment :=
  mkEnvironment
    (fun log => match last log with
                | Some (theora_encode_packetout _) => 1
                | _ => 0
                end)
    (fun _ => None).

(** A configured session: both handles are set. *)
Definition session (pk : list (option PacketKind)) (cl : list Call) : State :=
  mkState (mkTheoraEncoder (Some tt) (Some tt)) pk cl.

(** The calls of a [SaveCustomHeadersToStream] in which nothing fails. *)
Definition header_script (tc : TheoraComment) : list Call :=
  [OGG_NewPacket; theora_encode_header; SavePacketToStream (Some Identification);
   theora_encode_comment tc; PacketIn (Some CommentPacket);
   theora_encode_tables; PacketIn (Some Setup); SavePacketToStream (Some Setup)].

(** The calls of a [SaveYUVBufferToStream] in which nothing fails. *)
Definition frame_script (is_last : bool) : list Call :=
  [theora_encode_YUVin; OGG_NewPacket;
   theora_encode_packetout (if is_last then 1 else 0);
   SavePacketToStream (Some Data)].

(** An environment in which no call fails. *)
Definition never_fails (env : Environment) : Prop :=
  forall hist c, failed env hist c = false.

(** The calls of the frames of a sequence of [n] frames numbered from [i]:
    only the frame numbered [total - 1] is submitted as the last one. *)
Fixpoint frame_scripts (total i : Z) (n : nat) : list Call :=
  match n with
  | O => []
  | S n' => frame_script (i =? total - 1) ++ frame_scripts total (i + 1) n'
  end.

(** The [last_p] arguments of the packet requests of a call history. *)
Definition packetout_flags (l : list Call) : list Z :=
  omap (fun c => match c with
                 | theora_encode_packetout lp => Some lp
                 | _ => None
                 end) l.

(** A session after a [Close] that returned nil: the stream is released,
    the codec state is still held. *)
Definition closed_session (pk : list (option PacketKind)) (cl : list Call) : State :=
  mkState (mkTheoraEncoder (Some tt) None) pk cl.

(** * Verification *)

Ltac zlia := Z.div_mod_to_equations; lia.

(** ** Machine integers in range *)

Lemma int_small (z : Z) :
  -9223372036854775808 <= z < 9223372036854775808 -> int z = z.
Proof.
  intros Hz. unfold int, wrapS.
  change (2 ^ (64 - 1)) with 9223372036854775808.
  change (2 ^ 64) with 18446744073709551616.
  rewrite Z.mod_small by lia. lia.
Qed.

Lemma C_int_small (z : Z) : -2147483648 <= z < 2147483648 -> C_int z = z.
Proof.
  intros Hz. unfold C_int, wrapS.
  change (2 ^ (32 - 1)) with 2147483648. change (2 ^ 32) with 4294967296.
  rewrite Z.mod_small by lia. lia.
Qed.

Lemma uint32_small (z : Z) : 0 <= z < 4294967296 -> uint32 z = z.
Proof. intros Hz. unfold uint32, wrapU. apply Z.mod_small. exact Hz. Qed.

(* Removes the innermost wraps first, each justified by [tac]. *)
Ltac u32_simpl_with tac :=
  repeat match goal with
         | |- context [uint32 ?z] =>
             lazymatch z with
             | context [uint32 _] => fail
             | _ => rewrite (uint32_small z) by tac
             end
         end.
Ltac u32_simpl := u32_simpl_with lia.

Lemma u8_range (b : uint8) : 0 <= u8 b <= 255.
Proof.
  destruct b as [z Hz]. cbn. apply andb_true_iff in Hz as [H1 H2].
  apply Z.leb_le in H1, H2. lia.
Qed.

Lemma padded_eq (v : Z) : padded v = 16 * ((v + 15) / 16).
Proof.
  unfold padded. rewrite <- Z.ldiff_land.
  change 15 with (Z.ones 4) at 2.
  rewrite Z.ldiff_ones_r by lia.
  rewrite Z.shiftr_div_pow2, Z.shiftl_mul_pow2 by lia.
  change (2 ^ 4) with 16. lia.
Qed.

Lemma padded_bounds (v : Z) : v <= padded v < v + 16 /\ padded v mod 16 = 0.
Proof.
  rewrite padded_eq.
  pose proof (Z.div_mod (v + 15) 16 ltac:(lia)).
  pose proof (Z.mod_pos_bound (v + 15) 16 ltac:(lia)).
  split; [lia|].
  rewrite Z.mul_comm. apply Z.mod_mul. lia.
Qed.

Lemma padded_le (v : Z) :
  0 <= v <= max_dim -> v <= padded v <= max_dim /\ padded v mod 16 = 0.
Proof. unfold max_dim. intros Hv. pose proof (padded_bounds v) as [? ?]. zlia. Qed.

(** The source's [int(uint32(v+15) & ^uint32(0xf))] is the spec's formula on
    every dimension up to [max_dim]. *)
Lemma yuv_dim (v : Z) : 0 <= v <= max_dim ->
  Z.land (uint32 (v + 15)%int) (uint32 (Z.lnot 15)) = padded v.
Proof.
  unfold max_dim. intros Hv. unfold int_add.
  rewrite int_small by lia. rewrite uint32_small by lia.
  unfold padded.
  change (uint32 (Z.lnot 15)) with (Z.land (Z.lnot 15) (Z.ones 32)).
  rewrite (Z.land_comm (Z.lnot 15)), Z.land_assoc.
  rewrite (Z.land_ones (v + 15)) by lia.
  rewrite Z.mod_small by (change (2 ^ 32) with 4294967296; lia).
  reflexivity.
Qed.

Lemma next_or_last_edge (x n : Z) :
  0 <= x < n -> n <= max_dim -> Yuv.next_or_last x n = edge x n.
Proof.
  unfold max_dim. intros Hx Hn. unfold Yuv.next_or_last, edge, int_add.
  rewrite (int_small (x + 1)) by lia.
  destruct (x + 1 <? n); cbn [Yuv.booltoint]; rewrite int_small by lia; lia.
Qed.

Lemma edge_spec (x n : Z) :
  0 <= x < n -> (x + 1 < n /\ edge x n = x + 1) \/ (n <= x + 1 /\ edge x n = x).
Proof.
  intros Hx. unfold edge. destruct (x + 1 <? n) eqn:E.
  - apply Z.ltb_lt in E. left. lia.
  - apply Z.ltb_ge in E. right. lia.
Qed.

Lemma mul_bounds (a b A B : Z) :
  0 <= a <= A -> 0 <= b <= B -> 0 <= a * b <= A * B.
Proof.
  intros. split; [apply Z.mul_nonneg_nonneg; lia|].
  apply Z.mul_le_mono_nonneg; lia.
Qed.

Lemma idx_bounds (x y W H : Z) :
  0 <= x < W -> 0 <= y < H -> 0 <= x + y * W < W * H.
Proof.
  intros Hx Hy. pose proof (mul_bounds y W (H - 1) W ltac:(lia) ltac:(lia)). lia.
Qed.

Lemma idx_inj (x y x' y' W : Z) :
  0 <= x < W -> 0 <= x' < W -> x + y * W = x' + y' * W -> x = x' /\ y = y'.
Proof.
  intros Hx Hx' E.
  assert (y = y') by nia. subst. lia.
Qed.

(** ** The weakest-precondition rules *)

Lemma wp_ret {S A} (a : A) (Q : A -> S -> Prop) s : Q a s -> wp (ret a) Q s.
Proof. intros HQ. exists a, s. split; [reflexivity | exact HQ]. Qed.

Lemma wp_bind {S A B} (m : M S A) (f : A -> M S B) (Q : B -> S -> Prop) s :
  wp m (fun a s' => wp (f a) Q s') s -> wp (bind m f) Q s.
Proof.
  intros (a & s' & Hm & b & s'' & Hf & HQ).
  exists b, s''. split; [|exact HQ]. unfold bind. rewrite Hm. exact Hf.
Qed.

Lemma wp_mono {S A} (m : M S A) (Q Q' : A -> S -> Prop) s :
  (forall a s', Q a s' -> Q' a s') -> wp m Q s -> wp m Q' s.
Proof. intros HQ (a & s' & Hm & Ha). exists a, s'. split; auto. Qed.

(** The loop rule: an invariant [I] on the counter and the state, and a
    bound the counter strictly approaches; the fuel must cover the distance. *)
Lemma wp_while {S} (I : Z -> S -> Prop) (bound : Z) (body : Z -> M S Z) :
  (forall i s, I i s -> i < bound ->
     wp (body i) (fun i' s' => i < i' /\ I i' s') s) ->
  forall fuel i s,
    (Z.to_nat (bound - i) < fuel)%nat -> I i s ->
    wp (while fuel (fun i => i <? bound) body i)
       (fun i' s' => bound <= i' /\ I i' s') s.
Proof.
  intros Hbody fuel. induction fuel as [|fuel IH]; intros i s Hfuel HI; [lia|].
  cbn [while]. destruct (i <? bound) eqn:E.
  - apply Z.ltb_lt in E. apply wp_bind.
    eapply wp_mono; [|apply Hbody; assumption].
    cbn beta. intros i' s' [Hlt HI']. apply IH; [lia | exact HI'].
  - apply Z.ltb_ge in E. apply wp_ret. split; assumption.
Qed.

Section ConverterRules.
Import Yuv.

Lemma wp_sample {C} (aData : Image C) x y (Q : C -> World -> Prop) s :
  Q (At aData x y) (mkWorld (yuv s) (trace s ++ [EvAt x y])) ->
  wp (sample aData x y) Q s.
Proof. intros HQ. eexists _, _. split; [reflexivity | exact HQ]. Qed.

Lemma wp_store p i val (Q : unit -> World -> Prop) s :
  0 <= i < Z.of_nat (length (plane_data p (yuv s))) ->
  Q tt (mkWorld (set_plane_data p (<[Z.to_nat i := val]> (plane_data p (yuv s))) (yuv s))
               (trace s ++ [EvStore p i])) ->
  wp (store p i val) Q s.
Proof.
  intros Hi HQ. eexists _, _. split; [|exact HQ].
  unfold store.
  replace ((0 <=? i) && (i <? Z.of_nat (length (plane_data p (yuv s))))) with true;
    [reflexivity|].
  symmetry. apply andb_true_iff. split; [apply Z.leb_le | apply Z.ltb_lt]; lia.
Qed.

Lemma wp_GetUVStride c (Q : Z -> World -> Prop) s :
  fValue (yuv s) = Some c -> Q (uv_stride c) s -> wp GetUVStride Q s.
Proof.
  intros Hc HQ. eexists _, _. split; [|exact HQ].
  unfold GetUVStride, bind, Ref. rewrite Hc. reflexivity.
Qed.

Lemma wp_assign (f : yuv_buffer -> yuv_buffer) c (Q : unit -> World -> Prop) s :
  fValue (yuv s) = Some c ->
  Q tt (mkWorld (set_fValue (Some (f c)) (yuv s)) (trace s)) ->
  wp (assign f) Q s.
Proof.
  intros Hc HQ. eexists _, _. split; [|exact HQ]. unfold assign. rewrite Hc. reflexivity.
Qed.

Lemma wp_get (proj : yuv_buffer -> Z) c (Q : Z -> World -> Prop) s :
  fValue (yuv s) = Some c -> Q (proj c) s ->
  wp (c <- Ref ;; ret (proj c)) Q s.
Proof.
  intros Hc HQ. eexists _, _. split; [|exact HQ]. unfold bind, Ref. rewrite Hc. reflexivity.
Qed.

(** A length the host grants. *)
Lemma make_granted host n :
  0 <= n <= maxAlloc host -> make host n = ret (replicate (Z.to_nat n) 0).
Proof.
  intros Hn. unfold make.
  replace (n <? 0) with false by (symmetry; apply Z.ltb_ge; lia).
  replace (maxAlloc host <? n) with false by (symmetry; apply Z.ltb_ge; lia).
  reflexivity.
Qed.

Lemma wp_make host n (Q : list Z -> World -> Prop) s :
  0 <= n <= maxAlloc host ->
  Q (replicate (Z.to_nat n) 0) s -> wp (make host n) Q s.
Proof.
  intros Hn HQ. eexists _, _. split; [|exact HQ].
  rewrite make_granted by exact Hn. reflexivity.
Qed.

Lemma replicate_nonempty (n v : Z) : 0 < n -> replicate (Z.to_nat n) v <> [].
Proof.
  intros Hn. destruct (Z.to_nat n) eqn:E; [lia | discriminate].
Qed.

(** A slice with an element: [Ptr] is its address, whatever the host. *)
Lemma wp_set_data host p value (Q : unit -> World -> Prop) s c :
  fValue (yuv s) = Some c ->
  value <> [] ->
  Q tt (mkWorld (set_fValue (Some (set_ptr p (PtrTo p) c))
                   (set_plane_data p value (yuv s)))
               (trace s)) ->
  wp (set_slice p value ;; q <- OGG_Ptr host p ;; assign (set_ptr p q)) Q s.
Proof.
  intros Hc Hne HQ. eexists _, _. split; [|exact HQ].
  destruct value as [|v0 value]; [contradiction|].
  unfold bind, set_slice, OGG_Ptr, assign. cbn [yuv trace].
  destruct p; cbn [set_plane_data plane_data fValue fyData fuData fvData];
    rewrite Hc; reflexivity.
Qed.

End ConverterRules.

(** ** Planes addressed by pixel coordinates *)

Lemma holds_store idx val (P Q : Z -> Z -> Prop) l i v :
  (forall x y, Q x y -> idx x y = i /\ val x y = v) ->
  (forall x y, P x y -> idx x y = i -> val x y = v) ->
  (forall x y, P x y -> 0 <= idx x y) ->
  0 <= i < Z.of_nat (length l) ->
  holds idx val P l ->
  holds idx val (fun x y => P x y \/ Q x y) (<[Z.to_nat i := v]> l).
Proof.
  intros HQ Hcompat Hnn Hlt Hold x y [HP | Hq].
  - destruct (Z.eq_dec (idx x y) i) as [E | E].
    + rewrite E, (Hcompat x y HP E). apply list_lookup_insert_eq. lia.
    + rewrite list_lookup_insert_ne; [apply Hold; exact HP|].
      specialize (Hnn x y HP). lia.
  - destruct (HQ x y Hq) as [-> ->]. apply list_lookup_insert_eq. lia.
Qed.

Lemma holds_weaken idx val (P Q : Z -> Z -> Prop) l :
  (forall x y, Q x y -> P x y) -> holds idx val P l -> holds idx val Q l.
Proof. intros HQP Hold x y HQ. apply Hold, HQP, HQ. Qed.

Lemma holds_nothing idx val (P : Z -> Z -> Prop) l :
  (forall x y, ~ P x y) -> holds idx val P l.
Proof. intros HP x y Hxy. destruct (HP x y Hxy). Qed.

(** ** The loops preserve the invariant *)

Section PlanesFacts.
Context {C : Type} `{Color C} (aData : Image C).
Variables (w h sx sy : Z).
Variables (cu cv : Z -> Z -> Z).
Variables (own : bool) (tr0 : list Event).
Hypothesis Hsx : sx = 1 \/ sx = 2.
Hypothesis Hsy : sy = 1 \/ sy = 2.

Local Abbreviation Inv' := (Inv aData w h sx sy cu cv own tr0).

Lemma Inv_weaken y1 x1 y2 x2 s :
  (forall x' y', done w h sy y2 x2 x' y' -> done w h sy y1 x1 x' y') ->
  Inv' y1 x1 s -> Inv' y2 x2 s.
Proof.
  intros Hsub [? ? ? ? ? ? Hy Hu Hv].
  constructor; try assumption; eapply holds_weaken; eauto.
Qed.

Lemma traced_snoc (tr : list Event) (e : Event) :
  (exists evs, tr = tr0 ++ evs /\ Forall (ev_ok w h sx sy) evs) ->
  ev_ok w h sx sy e ->
  exists evs, tr ++ [e] = tr0 ++ evs /\ Forall (ev_ok w h sx sy) evs.
Proof.
  intros (evs & -> & Hall) He. exists (evs ++ [e]). split.
  - symmetry. apply app_assoc.
  - apply Forall_app. split; [exact Hall|]. constructor; [exact He | constructor].
Qed.

(** The column loop of one row (or row pair), for any body that converts the
    block at column [x] and steps by [sx]. *)
Lemma cols_loop (body : Z -> M World Z) (y : Z) :
  (forall x s, 0 <= x < w -> x mod sx = 0 -> Inv' y x s ->
     wp (body x) (fun x' s' => x' = x + sx /\ Inv' y (x + sx) s') s) ->
  forall s, Inv' y 0 s ->
    wp (while (S (Z.to_nat w)) (fun x => x <? w) body 0)
       (fun _ s' => Inv' (y + sy) 0 s') s.
Proof.
  intros Hbody s HI.
  eapply wp_mono;
    [| apply (wp_while (fun x s => 0 <= x /\ x mod sx = 0 /\ Inv' y x s) w body)].
  - cbn beta. intros xf s' (Hge & Hnn & _ & HI').
    eapply Inv_weaken; [|exact HI']. unfold done. intros; lia.
  - intros x s1 (Hnn & Hmod & HI1) Hlt.
    eapply wp_mono; [|apply Hbody; [lia | exact Hmod | exact HI1]].
    cbn beta. intros x' s' [-> HI'].
    split; [|split; [|split; [|exact HI']]]; [destruct Hsx; lia | lia |].
    destruct Hsx as [E | E]; rewrite E in Hmod |- *; zlia.
  - lia.
  - split; [lia|split; [|exact HI]]. destruct Hsx as [E | E]; rewrite E; reflexivity.
Qed.

(** The row loop, for any row body that converts rows [y .. y + sy - 1]. *)
Lemma rows_loop (row : Z -> M World Z) :
  (forall y s, 0 <= y < h -> y mod sy = 0 -> Inv' y 0 s ->
     wp (row y) (fun y' s' => y' = y + sy /\ Inv' (y + sy) 0 s') s) ->
  forall s, Inv' 0 0 s ->
    wp (while (S (Z.to_nat h)) (fun y => y <? h) row 0)
       (fun _ s' => Inv' h 0 s') s.
Proof.
  intros Hrow s HI.
  eapply wp_mono;
    [| apply (wp_while (fun y s => 0 <= y /\ y mod sy = 0 /\ Inv' y 0 s) h row)].
  - cbn beta. intros yf s' (Hge & Hnn & _ & HI').
    eapply Inv_weaken; [|exact HI']. unfold done. intros; lia.
  - intros y s1 (Hnn & Hmod & HI1) Hlt.
    eapply wp_mono; [|apply Hrow; [lia | exact Hmod | exact HI1]].
    cbn beta. intros y' s' [-> HI'].
    split; [|split; [|split; [|exact HI']]]; [destruct Hsy; lia | lia |].
    destruct Hsy as [E | E]; rewrite E in Hmod |- *; zlia.
  - lia.
  - split; [lia|split; [|exact HI]]. destruct Hsy as [E | E]; rewrite E; reflexivity.
Qed.

End PlanesFacts.

(** ** One block of each loop *)

Ltac simpl_world :=
  cbn [yuv trace plane_data set_plane_data fValue fyData fuData fvData fOwnData
       uv_stride sized].

Section Blocks.
Context {C : Type} `{Color C} (aData : Image C).
Variables (w h : Z).
Hypothesis Hw : 0 <= w <= max_dim.
Hypothesis Hh : 0 <= h <= max_dim.
Variables (own : bool) (tr0 : list Event).

(* One luma store at pixel [(px, py)]; [k] proves the plane before it. *)
Ltac luma_store px py k :=
  eapply holds_store with (Q := fun x' y' => x' = px /\ y' = py);
  [ | | | | k ];
  [ intros ? ? [-> ->]; split; reflexivity
  | unfold done, luma_index; cbn beta; intros x' y' HP E;
    apply idx_inj in E; [destruct E as [-> ->]; reflexivity | lia | lia]
  | unfold done, luma_index; cbn beta; intros x' y' HP;
    pose proof (Z.mul_nonneg_nonneg y' (padded w)); lia
  | rewrite ?length_insert; lia ].

(* One chroma store for the block at [(bx, by_)]. *)
Ltac chroma_store sx sy bx by_ val k :=
  eapply holds_store with
    (Q := fun x' y' => 0 <= x' < w /\ 0 <= y' < h /\
                       x' / sx = bx / sx /\ y' / sy = by_ / sy);
  [ | | | | k ];
  [ intros x' y' (Hx' & Hy' & Ex & Ey); unfold chroma_index, val;
    rewrite Ex, Ey; rewrite ?Z.div_1_r, ?Z.mul_1_l in *; split; [reflexivity|];
    try (replace (2 * (bx / 2)) with bx by zlia);
    try (replace (2 * (by_ / 2)) with by_ by zlia); reflexivity
  | unfold done, chroma_index, val; cbn beta; intros x' y' HP E;
    rewrite ?Z.div_1_r, ?Z.mul_1_l in *;
    apply idx_inj in E; [|zlia|zlia]; destruct E as [Ex Ey];
    rewrite Ex, Ey;
    try (replace (2 * (bx / 2)) with bx by zlia);
    try (replace (2 * (by_ / 2)) with by_ by zlia); reflexivity
  | unfold done, chroma_index; cbn beta; intros x' y' HP;
    pose proof (Z.mul_nonneg_nonneg (y' / sy) (padded w / sx)); zlia
  | rewrite ?length_insert; rewrite ?Z.div_1_r in *; lia ].

Lemma pixel444_spec y x s :
  0 <= y < h -> 0 <= x < w ->
  Inv aData w h 1 1 (u444 aData) (v444 aData) own tr0 y x s ->
  wp (pixel444 aData (padded w) y x)
     (fun x' s' => x' = x + 1 /\
        Inv aData w h 1 1 (u444 aData) (v444 aData) own tr0 y (x + 1) s') s.
Proof.
  intros Hy Hx [HfV Hown Hyl Hul Hvl Htr HY HU HV].
  destruct s as [[fv ly lu lv ow] tr].
  cbn [yuv trace fValue fOwnData fyData fuData fvData] in *.
  pose proof (padded_le w Hw) as [HW HW16]. pose proof (padded_le h Hh) as [HH HH16].
  unfold max_dim in *.
  pose proof (idx_bounds x y (padded w) (padded h) ltac:(lia) ltac:(lia)) as Hib.
  rewrite !Z.div_1_r in Hul, Hvl.
  unfold pixel444, int_add, int_mul.
  pose proof (mul_bounds y (padded w) 2147483632 2147483632 ltac:(lia) ltac:(lia)).
  rewrite (int_small (y * padded w)) by lia.
  rewrite (int_small (x + y * padded w)) by lia.
  rewrite (int_small (x + 1)) by lia.
  apply wp_bind, wp_sample. simpl_world.
  apply wp_bind, wp_store; simpl_world; [lia|].
  apply wp_bind, wp_store; simpl_world; [lia|].
  apply wp_bind, wp_store; simpl_world; [lia|].
  apply wp_ret. split; [reflexivity|].
  constructor; simpl_world; rewrite ?length_insert, ?Z.div_1_r; try assumption.
  - repeat (apply traced_snoc; [|cbn [ev_ok]; rewrite ?Z.div_1_r; lia]). exact Htr.
  - eapply holds_weaken; [|luma_store x y ltac:(exact HY)].
    unfold done. cbn beta. intros x' y' Hd. lia.
  - eapply holds_weaken; [|chroma_store 1 1 x y chroma_u_at ltac:(exact HU)].
    unfold done. cbn beta. intros x' y' Hd. rewrite !Z.div_1_r. lia.
  - eapply holds_weaken; [|chroma_store 1 1 x y chroma_v_at ltac:(exact HV)].
    unfold done. cbn beta. intros x' y' Hd. rewrite !Z.div_1_r. lia.
Qed.

Lemma block420_spec y x s :
  0 <= y < h -> 0 <= x < w -> y mod 2 = 0 -> x mod 2 = 0 ->
  Inv aData w h 2 2 (u420 aData w h) (v420 aData w h) own tr0 y x s ->
  wp (block420 aData w (padded w) y (edge y h) x)
     (fun x' s' => x' = x + 2 /\
        Inv aData w h 2 2 (u420 aData w h) (v420 aData w h) own tr0 y (x + 2) s') s.
Proof.
  intros Hy Hx Hym Hxm [HfV Hown Hyl Hul Hvl Htr HY HU HV].
  destruct s as [[fv ly lu lv ow] tr].
  cbn [yuv trace fValue fOwnData fyData fuData fvData] in *.
  subst fv.
  pose proof (padded_le w Hw) as [HW HW16]. pose proof (padded_le h Hh) as [HH HH16].
  unfold block420. rewrite (next_or_last_edge x w) by lia. cbn zeta.
  unfold max_dim in *. unfold int_add, int_mul.
  pose proof (edge_spec x w Hx) as Hx1. pose proof (edge_spec y h Hy) as Hy1.
  set (x1 := edge x w) in *. set (y1 := edge y h) in *.
  pose proof (idx_bounds x y (padded w) (padded h) ltac:(lia) ltac:(lia)) as Hib0.
  pose proof (idx_bounds x1 y (padded w) (padded h) ltac:(lia) ltac:(lia)) as Hib1.
  pose proof (idx_bounds x y1 (padded w) (padded h) ltac:(lia) ltac:(lia)) as Hib2.
  pose proof (idx_bounds x1 y1 (padded w) (padded h) ltac:(lia) ltac:(lia)) as Hib3.
  pose proof (idx_bounds (x / 2) (y / 2) (padded w / 2) (padded h / 2)
                ltac:(zlia) ltac:(zlia)) as Hic.
  pose proof (mul_bounds y (padded w) 2147483632 2147483632 ltac:(lia) ltac:(lia)).
  pose proof (mul_bounds y1 (padded w) 2147483632 2147483632 ltac:(lia) ltac:(lia)).
  pose proof (mul_bounds (y / 2) (padded w / 2) 2147483632 2147483632
                ltac:(zlia) ltac:(zlia)).
  rewrite !Z.shiftr_div_pow2 by lia. change (2 ^ 1) with 2.
  apply wp_bind, wp_sample; simpl_world.
  apply wp_bind, wp_sample; simpl_world.
  apply wp_bind, wp_sample; simpl_world.
  apply wp_bind, wp_sample; simpl_world.
  rewrite (int_small (y * padded w)), (int_small (y1 * padded w)) by lia.
  rewrite (int_small (x + y * padded w)), (int_small (x1 + y * padded w)),
    (int_small (x + y1 * padded w)), (int_small (x1 + y1 * padded w)) by lia.
  apply wp_bind, wp_store; simpl_world; rewrite ?length_insert; [lia|].
  apply wp_bind, wp_store; simpl_world; rewrite ?length_insert; [lia|].
  apply wp_bind, wp_store; simpl_world; rewrite ?length_insert; [lia|].
  apply wp_bind, wp_store; simpl_world; rewrite ?length_insert; [lia|].
  apply wp_bind. eapply wp_GetUVStride; [reflexivity|]. simpl_world.
  rewrite (int_small (y / 2 * (padded w / 2))) by lia.
  rewrite (int_small (x / 2 + y / 2 * (padded w / 2))) by zlia.
  apply wp_bind, wp_store; simpl_world; rewrite ?length_insert; [lia|].
  apply wp_bind. eapply wp_GetUVStride; [reflexivity|]. simpl_world.
  rewrite (int_small (y / 2 * (padded w / 2))) by lia.
  rewrite (int_small (x / 2 + y / 2 * (padded w / 2))) by zlia.
  apply wp_bind, wp_store; simpl_world; rewrite ?length_insert; [lia|].
  rewrite (int_small (x + 2)) by lia.
  apply wp_ret. split; [reflexivity|].
  constructor; simpl_world; rewrite ?length_insert; try assumption; try reflexivity.
  - repeat (apply traced_snoc; [|cbn [ev_ok]; lia]). exact Htr.
  - eapply holds_weaken;
      [|luma_store x1 y1 ltac:(luma_store x y1 ltac:(luma_store x1 y
          ltac:(luma_store x y ltac:(exact HY))))].
    unfold done. cbn beta. intros x' y' Hd. lia.
  - eapply holds_weaken; [|chroma_store 2 2 x y chroma_u_at ltac:(exact HU)].
    unfold done. cbn beta. intros x' y' Hd. zlia.
  - eapply holds_weaken; [|chroma_store 2 2 x y chroma_v_at ltac:(exact HV)].
    unfold done. cbn beta. intros x' y' Hd. zlia.
Qed.

Lemma block422_spec y x s :
  0 <= y < h -> 0 <= x < w -> x mod 2 = 0 ->
  Inv aData w h 2 1 (u422 aData w) (v422 aData w) own tr0 y x s ->
  wp (block422 aData w (padded w) y x)
     (fun x' s' => x' = x + 2 /\
        Inv aData w h 2 1 (u422 aData w) (v422 aData w) own tr0 y (x + 2) s') s.
Proof.
  intros Hy Hx Hxm [HfV Hown Hyl Hul Hvl Htr HY HU HV].
  destruct s as [[fv ly lu lv ow] tr].
  cbn [yuv trace fValue fOwnData fyData fuData fvData] in *.
  subst fv.
  pose proof (padded_le w Hw) as [HW HW16]. pose proof (padded_le h Hh) as [HH HH16].
  unfold block422. rewrite (next_or_last_edge x w) by lia. cbn zeta.
  unfold max_dim in *. unfold int_add, int_mul.
  pose proof (edge_spec x w Hx) as Hx1.
  set (x1 := edge x w) in *.
  pose proof (idx_bounds x y (padded w) (padded h) ltac:(lia) ltac:(lia)) as Hib0.
  pose proof (idx_bounds x1 y (padded w) (padded h) ltac:(lia) ltac:(lia)) as Hib1.
  pose proof (idx_bounds (x / 2) y (padded w / 2) (padded h)
                ltac:(zlia) ltac:(zlia)) as Hic.
  pose proof (mul_bounds y (padded w) 2147483632 2147483632 ltac:(lia) ltac:(lia)).
  pose proof (mul_bounds y (padded w / 2) 2147483632 2147483632
                ltac:(zlia) ltac:(zlia)).
  rewrite !Z.shiftr_div_pow2 by lia. change (2 ^ 1) with 2.
  rewrite !Z.div_1_r in Hul, Hvl.
  apply wp_bind, wp_sample; simpl_world.
  apply wp_bind, wp_sample; simpl_world.
  rewrite (int_small (y * padded w)) by lia.
  rewrite (int_small (x + y * padded w)), (int_small (x1 + y * padded w)) by lia.
  apply wp_bind, wp_store; simpl_world; rewrite ?length_insert; [lia|].
  apply wp_bind, wp_store; simpl_world; rewrite ?length_insert; [lia|].
  apply wp_bind. eapply wp_GetUVStride; [reflexivity|]. simpl_world.
  rewrite (int_small (y * (padded w / 2))) by lia.
  rewrite (int_small (x / 2 + y * (padded w / 2))) by zlia.
  apply wp_bind, wp_store; simpl_world; rewrite ?length_insert; [lia|].
  apply wp_bind. eapply wp_GetUVStride; [reflexivity|]. simpl_world.
  rewrite (int_small (y * (padded w / 2))) by lia.
  rewrite (int_small (x / 2 + y * (padded w / 2))) by zlia.
  apply wp_bind, wp_store; simpl_world; rewrite ?length_insert; [lia|].
  rewrite (int_small (x + 2)) by lia.
  apply wp_ret. split; [reflexivity|].
  constructor; simpl_world; rewrite ?length_insert, ?Z.div_1_r;
    try assumption; try reflexivity.
  - repeat (apply traced_snoc; [|cbn [ev_ok]; rewrite ?Z.div_1_r; lia]). exact Htr.
  - eapply holds_weaken; [|luma_store x1 y ltac:(luma_store x y ltac:(exact HY))].
    unfold done. cbn beta. intros x' y' Hd. lia.
  - eapply holds_weaken; [|chroma_store 2 1 x y chroma_u_at ltac:(exact HU)].
    unfold done. cbn beta. intros x' y' Hd. rewrite !Z.div_1_r. zlia.
  - eapply holds_weaken; [|chroma_store 2 1 x y chroma_v_at ltac:(exact HV)].
    unfold done. cbn beta. intros x' y' Hd. rewrite !Z.div_1_r. zlia.
Qed.

(** ** One row of each loop *)

Lemma row420_spec y s :
  0 <= y < h -> y mod 2 = 0 ->
  Inv aData w h 2 2 (u420 aData w h) (v420 aData w h) own tr0 y 0 s ->
  wp (row420 aData w h (padded w) y)
     (fun y' s' => y' = y + 2 /\
        Inv aData w h 2 2 (u420 aData w h) (v420 aData w h) own tr0 (y + 2) 0 s') s.
Proof.
  intros Hy Hym HI. unfold row420. rewrite (next_or_last_edge y h) by lia. cbn zeta.
  apply wp_bind.
  eapply wp_mono;
    [|apply (cols_loop aData w h 2 2 (u420 aData w h) (v420 aData w h) own tr0
               (or_intror eq_refl)); [|exact HI]].
  - cbn beta. intros _ s' HI'. apply wp_ret. split; [|exact HI'].
    unfold int_add. apply int_small. unfold max_dim in *. lia.
  - intros x s1 Hx Hxm HI1. apply block420_spec; assumption.
Qed.

Lemma row444_spec y s :
  0 <= y < h ->
  Inv aData w h 1 1 (u444 aData) (v444 aData) own tr0 y 0 s ->
  wp (row444 aData w (padded w) y)
     (fun y' s' => y' = y + 1 /\
        Inv aData w h 1 1 (u444 aData) (v444 aData) own tr0 (y + 1) 0 s') s.
Proof.
  intros Hy HI. unfold row444.
  apply wp_bind.
  eapply wp_mono;
    [|apply (cols_loop aData w h 1 1 (u444 aData) (v444 aData) own tr0
               (or_introl eq_refl)); [|exact HI]].
  - cbn beta. intros _ s' HI'. apply wp_ret. split; [|exact HI'].
    unfold int_add. apply int_small. unfold max_dim in *. lia.
  - intros x s1 Hx Hxm HI1. apply pixel444_spec; assumption.
Qed.

Lemma row422_spec y s :
  0 <= y < h ->
  Inv aData w h 2 1 (u422 aData w) (v422 aData w) own tr0 y 0 s ->
  wp (row422 aData w (padded w) y)
     (fun y' s' => y' = y + 1 /\
        Inv aData w h 2 1 (u422 aData w) (v422 aData w) own tr0 (y + 1) 0 s') s.
Proof.
  intros Hy HI. unfold row422.
  apply wp_bind.
  eapply wp_mono;
    [|apply (cols_loop aData w h 2 1 (u422 aData w) (v422 aData w) own tr0
               (or_intror eq_refl)); [|exact HI]].
  - cbn beta. intros _ s' HI'. apply wp_ret. split; [|exact HI'].
    unfold int_add. apply int_small. unfold max_dim in *. lia.
  - intros x s1 Hx Hxm HI1. apply block422_spec; assumption.
Qed.

End Blocks.

(** ** The whole conversion, one supported format at a time *)

Section Whole.
Context {C : Type} `{Color C} (aData : Image C).
Variable host : Host.
Hypothesis Hvalid : valid_image aData.
Hypothesis Hgrants : grants host aData.
Variables (c0 : yuv_buffer) (ly0 lu0 lv0 : list Z) (own : bool) (tr0 : list Event).

Local Abbreviation w := (Dx (Bounds aData)).
Local Abbreviation h := (Dy (Bounds aData)).
Local Abbreviation s0 :=
  (mkWorld (mkTheoraYUVbuffer (Some c0) ly0 lu0 lv0 own) tr0).

Ltac setup_step :=
  first
    [ apply wp_bind; eapply wp_assign; [reflexivity|]
    | apply wp_bind; eapply wp_get; [reflexivity|]
    | apply wp_bind; eapply wp_set_data;
        [reflexivity | apply replicate_nonempty, Z.mul_pos_pos; lia |] ];
  unfold set_fValue;
  cbn [yuv trace fValue fyData fuData fvData fOwnData set_plane_data set_ptr
       y_width y_height y_stride uv_width uv_height uv_stride c_y c_u c_v].

Ltac unfold_accessors :=
  unfold SetYWidth, SetYHeight, SetYStride, SetUVWidth, SetUVStride, SetUVHeight,
    GetUVWidth, GetYStride, GetYHeight, GetUVStride, GetUVHeight,
    SetYData, SetUData, SetVData.

Ltac start_convert :=
  unfold ConvertFromRasterImage;
  cbn [supported negb orb Z.eqb Pos.eqb YCbCrSubsampleRatio420
       YCbCrSubsampleRatio444 YCbCrSubsampleRatio422];
  rewrite !yuv_dim by assumption;
  rewrite ?Z.shiftr_div_pow2 by lia; change (2 ^ 1) with 2;
  unfold_accessors.

(** The dimensions, the padded ones and the lengths of the planes. *)
Ltac dimensions :=
  destruct Hvalid as [Hw1 Hh1];
  assert (Hw : 0 <= w <= max_dim) by lia;
  assert (Hh : 0 <= h <= max_dim) by lia;
  pose proof (padded_le w Hw) as [HW HW16];
  pose proof (padded_le h Hh) as [HH HH16];
  assert (HW2 : 0 < padded w / 2 <= padded w) by zlia;
  assert (HH2 : 0 < padded h / 2 <= padded h) by zlia;
  pose proof Hgrants as Hg; unfold grants in Hg;
  assert (Hg420 : padded w / 2 * (padded h / 2) <= maxAlloc host)
    by (apply Z.le_trans with (padded w * padded h);
        [apply Z.mul_le_mono_nonneg; lia | exact Hg]);
  assert (Hg422 : padded w / 2 * padded h <= maxAlloc host)
    by (apply Z.le_trans with (padded w * padded h);
        [apply Z.mul_le_mono_nonneg; lia | exact Hg]).

Ltac initial_inv :=
  constructor; cbn [yuv trace fValue fyData fuData fvData fOwnData];
    unfold sized; rewrite ?length_replicate, ?Z.div_1_r; try reflexivity; try lia;
  [ exists []; split; [symmetry; apply app_nil_r | constructor]
  | apply holds_nothing; unfold done, not; intros; lia
  | apply holds_nothing; unfold done, not; intros; lia
  | apply holds_nothing; unfold done, not; intros; lia ].

Lemma convert420_ok :
  wp (ConvertFromRasterImage host YCbCrSubsampleRatio420 aData)
     (fun r s' => r = true /\
        Inv aData w h 2 2 (u420 aData w h) (v420 aData w h) own tr0 h 0 s') s0.
Proof.
  dimensions.
  start_convert. unfold max_dim in *.
  do 7 setup_step.
  rewrite !C_int_small by zlia.
  do 2 setup_step.
  pose proof (mul_bounds (padded w) (padded h) 2147483632 2147483632
                ltac:(lia) ltac:(lia)).
  pose proof (mul_bounds (padded w / 2) (padded h / 2) 2147483632 2147483632
                ltac:(zlia) ltac:(zlia)).
  unfold int_mul. rewrite int_small by lia.
  apply wp_bind, wp_make; [lia|].
  do 2 setup_step. rewrite int_small by lia. apply wp_bind, wp_make; [lia|].
  do 2 setup_step. rewrite int_small by lia. apply wp_bind, wp_make; [lia|].
  do 3 setup_step.
  apply wp_bind.
  eapply wp_mono;
    [|apply (rows_loop aData w h 2 2 (u420 aData w h) (v420 aData w h) own tr0
               (or_intror eq_refl))].
  - cbn beta. intros _ s' HI. apply wp_ret. split; [reflexivity | exact HI].
  - intros y s1 Hy Hym HI. apply row420_spec; assumption.
  - initial_inv.
Qed.

Lemma convert444_ok :
  wp (ConvertFromRasterImage host YCbCrSubsampleRatio444 aData)
     (fun r s' => r = true /\
        Inv aData w h 1 1 (u444 aData) (v444 aData) own tr0 h 0 s') s0.
Proof.
  dimensions.
  start_convert. unfold max_dim in *.
  do 7 setup_step.
  rewrite !C_int_small by zlia.
  do 2 setup_step.
  pose proof (mul_bounds (padded w) (padded h) 2147483632 2147483632
                ltac:(lia) ltac:(lia)).
  unfold int_mul. rewrite int_small by lia.
  apply wp_bind, wp_make; [lia|].
  do 2 setup_step. rewrite int_small by lia. apply wp_bind, wp_make; [lia|].
  do 2 setup_step. rewrite int_small by lia. apply wp_bind, wp_make; [lia|].
  do 3 setup_step.
  apply wp_bind.
  eapply wp_mono;
    [|apply (rows_loop aData w h 1 1 (u444 aData) (v444 aData) own tr0
               (or_introl eq_refl))].
  - cbn beta. intros _ s' HI. apply wp_ret. split; [reflexivity | exact HI].
  - intros y s1 Hy Hym HI. apply row444_spec; assumption.
  - initial_inv.
Qed.

Lemma convert422_ok :
  wp (ConvertFromRasterImage host YCbCrSubsampleRatio422 aData)
     (fun r s' => r = true /\
        Inv aData w h 2 1 (u422 aData w) (v422 aData w) own tr0 h 0 s') s0.
Proof.
  dimensions.
  start_convert. unfold max_dim in *.
  do 7 setup_step.
  rewrite !C_int_small by zlia.
  do 2 setup_step.
  pose proof (mul_bounds (padded w) (padded h) 2147483632 2147483632
                ltac:(lia) ltac:(lia)).
  pose proof (mul_bounds (padded w / 2) (padded h) 2147483632 2147483632
                ltac:(zlia) ltac:(zlia)).
  unfold int_mul. rewrite int_small by lia.
  apply wp_bind, wp_make; [lia|].
  do 2 setup_step. rewrite int_small by lia. apply wp_bind, wp_make; [lia|].
  do 2 setup_step. rewrite int_small by lia. apply wp_bind, wp_make; [lia|].
  do 3 setup_step.
  apply wp_bind.
  eapply wp_mono;
    [|apply (rows_loop aData w h 2 1 (u422 aData w) (v422 aData w) own tr0
               (or_introl eq_refl))].
  - cbn beta. intros _ s' HI. apply wp_ret. split; [reflexivity | exact HI].
  - intros y s1 Hy Hym HI. apply row422_spec; assumption.
  - initial_inv.
Qed.

End Whole.

Lemma supported_cases (f : YCbCrSubsampleRatio) :
  supported f = true ->
  f = YCbCrSubsampleRatio444 \/ f = YCbCrSubsampleRatio422 \/
  f = YCbCrSubsampleRatio420.
Proof.
  unfold supported. intros Hf.
  apply orb_true_iff in Hf as [Hf | Hf]; [apply orb_true_iff in Hf as [Hf | Hf]|];
    apply Z.eqb_eq in Hf; auto.
Qed.

(** ** The fixed-point colour arithmetic never wraps *)

Lemma nrgb_ok {C} `{Color C} (v : C) : rgb_ok (nrgb v).
Proof.
  unfold nrgb, rgb_ok.
  pose proof (u8_range (NR (NRGBAModel_Convert v))).
  pose proof (u8_range (NG (NRGBAModel_Convert v))).
  pose proof (u8_range (NB (NRGBAModel_Convert v))). lia.
Qed.

Lemma chroma_u_exact c : rgb_ok c ->
  chroma_u c = contrib_u c /\ 3727845 <= contrib_u c <= 54336165.
Proof.
  destruct c as [[r g] b]. intros (Hr & Hg & Hb).
  unfold chroma_u, contrib_u, u32_add, u32_sub, u32_mul.
  u32_simpl. split; [reflexivity|]. lia.
Qed.

(** In [chroma_v] the difference [157024*r - 131488*g] can be negative and
    wrap; the final sum is back in range. *)
Lemma chroma_v_exact c : rgb_ok c ->
  chroma_v c = contrib_v c /\ 5898915 <= contrib_v c <= 85981155.
Proof.
  destruct c as [[r g] b]. intros (Hr & Hg & Hb).
  unfold chroma_v, contrib_v, u32_add, u32_sub, u32_mul.
  rewrite !(uint32_small (_ * _)) by lia.
  unfold uint32, wrapU. change (2 ^ 32) with 4294967296.
  rewrite !Zminus_mod_idemp_l, Zplus_mod_idemp_l.
  split; [apply Z.mod_small; lia | lia].
Qed.

Lemma quarters4_u p0 p1 p2 p3 :
  rgb_ok p0 -> rgb_ok p1 -> rgb_ok p2 -> rgb_ok p3 ->
  clamp ((chroma_u p0 / 4 + chroma_u p1 / 4 + chroma_u p2 / 4 + chroma_u p3 / 4)
         / 225930)%u32
  = quarters4 225930 (contrib_u p0) (contrib_u p1) (contrib_u p2) (contrib_u p3).
Proof.
  intros H0 H1 H2 H3.
  destruct (chroma_u_exact p0 H0) as [-> ?], (chroma_u_exact p1 H1) as [-> ?],
    (chroma_u_exact p2 H2) as [-> ?], (chroma_u_exact p3 H3) as [-> ?].
  unfold quarters4, u32_div, u32_add. f_equal. f_equal.
  u32_simpl_with zlia. reflexivity.
Qed.

Lemma quarters4_v p0 p1 p2 p3 :
  rgb_ok p0 -> rgb_ok p1 -> rgb_ok p2 -> rgb_ok p3 ->
  clamp ((chroma_v p0 / 4 + chroma_v p1 / 4 + chroma_v p2 / 4 + chroma_v p3 / 4)
         / 357510)%u32
  = quarters4 357510 (contrib_v p0) (contrib_v p1) (contrib_v p2) (contrib_v p3).
Proof.
  intros H0 H1 H2 H3.
  destruct (chroma_v_exact p0 H0) as [-> ?], (chroma_v_exact p1 H1) as [-> ?],
    (chroma_v_exact p2 H2) as [-> ?], (chroma_v_exact p3 H3) as [-> ?].
  unfold quarters4, u32_div, u32_add. f_equal. f_equal.
  u32_simpl_with zlia. reflexivity.
Qed.

(** For U every contribution is 1 modulo 4 and the constant is even, so the
    order of the divisions cannot be seen in the result. *)
Lemma quarters4_average4_u p0 p1 p2 p3 :
  rgb_ok p0 -> rgb_ok p1 -> rgb_ok p2 -> rgb_ok p3 ->
  quarters4 225930 (contrib_u p0) (contrib_u p1) (contrib_u p2) (contrib_u p3) =
  average4 225930 (contrib_u p0) (contrib_u p1) (contrib_u p2) (contrib_u p3).
Proof.
  destruct p0 as [[r0 g0] b0], p1 as [[r1 g1] b1], p2 as [[r2 g2] b2],
    p3 as [[r3 g3] b3].
  unfold rgb_ok, contrib_u, quarters4, average4. intros H0 H1 H2 H3. f_equal.
  zlia.
Qed.

Lemma halves2_u p0 p1 :
  rgb_ok p0 -> rgb_ok p1 ->
  clamp ((chroma_u p0 / 2 + chroma_u p1 / 2) / 225930)%u32
  = average2 225930 (contrib_u p0) (contrib_u p1).
Proof.
  intros H0 H1.
  destruct (chroma_u_exact p0 H0) as [-> ?], (chroma_u_exact p1 H1) as [-> ?].
  unfold average2, u32_div, u32_add. f_equal.
  u32_simpl_with zlia.
  destruct p0 as [[r0 g0] b0], p1 as [[r1 g1] b1]. unfold contrib_u in *. zlia.
Qed.

Lemma halves2_v p0 p1 :
  rgb_ok p0 -> rgb_ok p1 ->
  clamp ((chroma_v p0 / 2 + chroma_v p1 / 2) / 357510)%u32
  = average2 357510 (contrib_v p0) (contrib_v p1).
Proof.
  intros H0 H1.
  destruct (chroma_v_exact p0 H0) as [-> ?], (chroma_v_exact p1 H1) as [-> ?].
  unfold average2, u32_div, u32_add. f_equal.
  u32_simpl_with zlia.
  destruct p0 as [[r0 g0] b0], p1 as [[r1 g1] b1]. unfold contrib_v in *. zlia.
Qed.

(** ** The converter's claims *)

Section ConverterClaims.
Context {C : Type} `{Color C}.
Variable host : Host.

(** Every supported format on a valid image whose planes the host grants
    and an allocated buffer: the call returns [true] and ends in the
    invariant with every pixel done. *)
Lemma convert_supported (chroma_format : YCbCrSubsampleRatio) (aData : Image C)
    (b : TheoraYUVbuffer) (c0 : yuv_buffer) (tr : list Event) :
  supported chroma_format = true ->
  valid_image aData ->
  grants host aData ->
  fValue b = Some c0 ->
  exists s' cu cv,
    ConvertFromRasterImage host chroma_format aData (mkWorld b tr) = Ok true s' /\
    Inv aData (Dx (Bounds aData)) (Dy (Bounds aData))
      (if chroma_format =? YCbCrSubsampleRatio444 then 1 else 2)
      (if chroma_format =? YCbCrSubsampleRatio420 then 2 else 1)
      cu cv (fOwnData b) tr (Dy (Bounds aData)) 0 s'.
Proof.
  intros Hf Hvalid Hgrants Hlive. destruct b as [fv ly lu lv own]. cbn in Hlive. subst fv.
  cbn [fOwnData].
  destruct (supported_cases _ Hf) as [-> | [-> | ->]].
  - destruct (convert444_ok aData host Hvalid Hgrants c0 ly lu lv own tr) as (r & s' & Hrun & -> & HI).
    exists s', (u444 aData), (v444 aData). split; [exact Hrun | exact HI].
  - destruct (convert422_ok aData host Hvalid Hgrants c0 ly lu lv own tr) as (r & s' & Hrun & -> & HI).
    exists s', (u422 aData (Dx (Bounds aData))), (v422 aData (Dx (Bounds aData))).
    split; [exact Hrun | exact HI].
  - destruct (convert420_ok aData host Hvalid Hgrants c0 ly lu lv own tr) as (r & s' & Hrun & -> & HI).
    exists s', (u420 aData (Dx (Bounds aData)) (Dy (Bounds aData))),
      (v420 aData (Dx (Bounds aData)) (Dy (Bounds aData))).
    split; [exact Hrun | exact HI].
Qed.


Lemma chroma_index_eq w sx sy x y :
  chroma_index w sx sy x y = x / sx + y / sy * (padded w / sx).
Proof. reflexivity. Qed.

Lemma chroma_u_at_eq sx sy cu x y :
  chroma_u_at sx sy cu x y = cu (sx * (x / sx)) (sy * (y / sy)).
Proof. reflexivity. Qed.

Lemma chroma_v_at_eq sx sy cv x y :
  chroma_v_at sx sy cv x y = cv (sx * (x / sx)) (sy * (y / sy)).
Proof. reflexivity. Qed.

Lemma u420_quarters (aData : Image C) w h x y :
  u420 aData w h x y =
  quarters4 225930 (contrib_u (nrgb (At aData x y)))
    (contrib_u (nrgb (At aData (edge x w) y)))
    (contrib_u (nrgb (At aData x (edge y h))))
    (contrib_u (nrgb (At aData (edge x w) (edge y h)))).
Proof. unfold u420. apply quarters4_u; apply nrgb_ok. Qed.

Lemma v420_quarters (aData : Image C) w h x y :
  v420 aData w h x y =
  quarters4 357510 (contrib_v (nrgb (At aData x y)))
    (contrib_v (nrgb (At aData (edge x w) y)))
    (contrib_v (nrgb (At aData x (edge y h))))
    (contrib_v (nrgb (At aData (edge x w) (edge y h)))).
Proof. unfold v420. apply quarters4_v; apply nrgb_ok. Qed.

Lemma u422_average (aData : Image C) w x y :
  u422 aData w x y =
  average2 225930 (contrib_u (nrgb (At aData x y)))
    (contrib_u (nrgb (At aData (edge x w) y))).
Proof. unfold u422. apply halves2_u; apply nrgb_ok. Qed.

Lemma v422_average (aData : Image C) w x y :
  v422 aData w x y =
  average2 357510 (contrib_v (nrgb (At aData x y)))
    (contrib_v (nrgb (At aData (edge x w) y))).
Proof. unfold v422. apply halves2_v; apply nrgb_ok. Qed.

Lemma u444_exact (aData : Image C) x y :
  u444 aData x y = clamp (contrib_u (nrgb (At aData x y)) / 225930).
Proof.
  unfold u444, u32_div.
  destruct (chroma_u_exact _ (nrgb_ok (At aData x y))) as [-> _]. reflexivity.
Qed.

Lemma v444_exact (aData : Image C) x y :
  v444 aData x y = clamp (contrib_v (nrgb (At aData x y)) / 357510).
Proof.
  unfold v444, u32_div.
  destruct (chroma_v_exact _ (nrgb_ok (At aData x y))) as [-> _]. reflexivity.
Qed.

(** C2, as the code has it.  On a valid image whose planes the host grants
    and an allocated buffer: at 4:2:0 the U and V bytes of each 2x2 block are the four samples'
    contributions, each divided by 4, the four quotients summed, the sum
    divided by the matrix constant (225930, 357510) and clamped, where at an
    odd right or bottom edge the last column or row is sampled twice; for U
    (not for V) this is also the sum divided by 4.  At 4:2:2 the bytes of
    each 2x1 block are the two contributions summed, divided by 2, divided
    by the constant and clamped.  At 4:4:4 each pixel has its own U and V
    byte, its contribution divided by the constant and clamped. *)
Theorem ConvertFromRasterImage_chroma (aData : Image C)
    (b : TheoraYUVbuffer) (c0 : yuv_buffer) (tr : list Event) :
  valid_image aData ->
  grants host aData ->
  fValue b = Some c0 ->
  let w := Dx (Bounds aData) in
  let h := Dy (Bounds aData) in
  let cu x y := contrib_u (nrgb (At aData x y)) in
  let cv x y := contrib_v (nrgb (At aData x y)) in
  (exists s',
     ConvertFromRasterImage host YCbCrSubsampleRatio420 aData (mkWorld b tr) = Ok true s' /\
     forall bx by_, 0 <= bx -> 0 <= by_ -> 2 * bx < w -> 2 * by_ < h ->
       let x := 2 * bx in let y := 2 * by_ in
       let x1 := edge x w in let y1 := edge y h in
       fuData (yuv s') !! Z.to_nat (bx + by_ * (padded w / 2)) =
         Some (quarters4 225930 (cu x y) (cu x1 y) (cu x y1) (cu x1 y1)) /\
       quarters4 225930 (cu x y) (cu x1 y) (cu x y1) (cu x1 y1) =
         average4 225930 (cu x y) (cu x1 y) (cu x y1) (cu x1 y1) /\
       fvData (yuv s') !! Z.to_nat (bx + by_ * (padded w / 2)) =
         Some (quarters4 357510 (cv x y) (cv x1 y) (cv x y1) (cv x1 y1))) /\
  (exists s',
     ConvertFromRasterImage host YCbCrSubsampleRatio422 aData (mkWorld b tr) = Ok true s' /\
     forall bx y, 0 <= bx -> 2 * bx < w -> 0 <= y < h ->
       let x := 2 * bx in let x1 := edge x w in
       fuData (yuv s') !! Z.to_nat (bx + y * (padded w / 2)) =
         Some (average2 225930 (cu x y) (cu x1 y)) /\
       fvData (yuv s') !! Z.to_nat (bx + y * (padded w / 2)) =
         Some (average2 357510 (cv x y) (cv x1 y))) /\
  (exists s',
     ConvertFromRasterImage host YCbCrSubsampleRatio444 aData (mkWorld b tr) = Ok true s' /\
     forall x y, 0 <= x < w -> 0 <= y < h ->
       fuData (yuv s') !! Z.to_nat (x + y * padded w) =
         Some (clamp (cu x y / 225930)) /\
       fvData (yuv s') !! Z.to_nat (x + y * padded w) =
         Some (clamp (cv x y / 357510))).
Proof.
  intros Hvalid Hgrants Hlive w h cu cv. subst w h cu cv. cbn beta.
  destruct b as [fv ly lu lv own]. cbn in Hlive. subst fv.
  split; [|split].
  - destruct (convert420_ok aData host Hvalid Hgrants c0 ly lu lv own tr) as (r & s' & Hrun & -> & HI).
    exists s'. split; [exact Hrun|].
    intros bx by_ Hbx Hby Hbxw Hbyh. cbn zeta.
    destruct HI as [_ _ _ _ _ _ _ HU HV].
    assert (Hd : done (Dx (Bounds aData)) (Dy (Bounds aData)) 2 (Dy (Bounds aData)) 0
                   (2 * bx) (2 * by_)) by (unfold done; lia).
    specialize (HU _ _ Hd). specialize (HV _ _ Hd).
    assert (E1 : 2 * bx / 2 = bx) by zlia.
    assert (E2 : 2 * by_ / 2 = by_) by zlia.
    rewrite chroma_index_eq, chroma_u_at_eq, E1, E2, u420_quarters in HU.
    rewrite chroma_index_eq, chroma_v_at_eq, E1, E2, v420_quarters in HV.
    split; [exact HU|]. split; [|exact HV].
    apply quarters4_average4_u; apply nrgb_ok.
  - destruct (convert422_ok aData host Hvalid Hgrants c0 ly lu lv own tr) as (r & s' & Hrun & -> & HI).
    exists s'. split; [exact Hrun|].
    intros bx y Hbx Hbxw Hy. cbn zeta.
    destruct HI as [_ _ _ _ _ _ _ HU HV].
    assert (Hd : done (Dx (Bounds aData)) (Dy (Bounds aData)) 1 (Dy (Bounds aData)) 0
                   (2 * bx) y) by (unfold done; lia).
    specialize (HU _ _ Hd). specialize (HV _ _ Hd).
    assert (E1 : 2 * bx / 2 = bx) by zlia.
    rewrite chroma_index_eq, chroma_u_at_eq, E1, !Z.div_1_r, !Z.mul_1_l,
      u422_average in HU.
    rewrite chroma_index_eq, chroma_v_at_eq, E1, !Z.div_1_r, !Z.mul_1_l,
      v422_average in HV.
    split; [exact HU | exact HV].
  - destruct (convert444_ok aData host Hvalid Hgrants c0 ly lu lv own tr) as (r & s' & Hrun & -> & HI).
    exists s'. split; [exact Hrun|].
    intros x y Hx Hy.
    destruct HI as [_ _ _ _ _ _ _ HU HV].
    assert (Hd : done (Dx (Bounds aData)) (Dy (Bounds aData)) 1 (Dy (Bounds aData)) 0
                   x y) by (unfold done; lia).
    specialize (HU _ _ Hd). specialize (HV _ _ Hd).
    rewrite chroma_index_eq, chroma_u_at_eq, !Z.div_1_r, !Z.mul_1_l, u444_exact in HU.
    rewrite chroma_index_eq, chroma_v_at_eq, !Z.div_1_r, !Z.mul_1_l, v444_exact in HV.
    split; [exact HU | exact HV].
Qed.


(** C5.  For a format outside {4:2:0, 4:2:2, 4:4:4} (4:4:0, 4:1:1 and 4:1:0
    among them) the call returns [false] on every image and every buffer and
    leaves the buffer and the observed calls as they were, so that a later
    conversion behaves as if the rejected one had not been made; for a format
    inside the set it returns [true] on a valid image whose planes the host
    grants and an allocated buffer. *)
Theorem ConvertFromRasterImage_format_check
    (chroma_format : YCbCrSubsampleRatio) (aData : Image C) :
  (supported chroma_format = false ->
     forall s, ConvertFromRasterImage host chroma_format aData s = Ok false s /\
       forall f' (aData' : Image C),
         (ConvertFromRasterImage host chroma_format aData ;;
          ConvertFromRasterImage host f' aData') s =
         ConvertFromRasterImage host f' aData' s) /\
  (supported chroma_format = true ->
     forall b c0 tr, valid_image aData -> grants host aData -> fValue b = Some c0 ->
       exists s', ConvertFromRasterImage host chroma_format aData (mkWorld b tr) = Ok true s') /\
  (supported YCbCrSubsampleRatio440 = false /\
   supported YCbCrSubsampleRatio411 = false /\
   supported YCbCrSubsampleRatio410 = false /\
   supported YCbCrSubsampleRatio444 = true /\
   supported YCbCrSubsampleRatio422 = true /\
   supported YCbCrSubsampleRatio420 = true).
Proof.
  split; [|split].
  - intros Hf s.
    assert (E : ConvertFromRasterImage host chroma_format aData s = Ok false s).
    { unfold ConvertFromRasterImage. rewrite Hf. reflexivity. }
    split; [exact E|]. intros f' aData'. unfold bind. rewrite E. reflexivity.
  - intros Hf b c0 tr Hvalid Hgrants Hlive.
    destruct (convert_supported chroma_format aData b c0 tr Hf Hvalid Hgrants Hlive)
      as (s' & _ & _ & Hrun & _).
    exists s'. exact Hrun.
  - repeat split; reflexivity.
Qed.

End ConverterClaims.

(** ** The converter on concrete images *)

Lemma run_bind {S A B} (m : M S A) (f : A -> M S B) s a s' :
  m s = Ok a s' -> bind m f s = f a s'.
Proof. intros E. unfold bind. rewrite E. reflexivity. Qed.

(** C3.  The 17x15 solid red RGBA image at 4:2:0, on a host that grants the
    512 bytes of the luma plane: the call returns [true], the luma plane is
    32 wide (stride 32) and 16 high, it holds
    [(65481*255 + 4207500) / 255000] clamped (which is 81) at every pixel
    of the visible 17x15 window and zero everywhere else, and no luma write
    was made outside the window. *)
Theorem red_17x15_at_420 (host : Host) :
  512 <= maxAlloc host ->
  exists s' c,
    ConvertFromRasterImage host YCbCrSubsampleRatio420 red_17x15 fresh = Ok true s' /\
    fValue (yuv s') = Some c /\
    y_width c = 32 /\ y_stride c = 32 /\ y_height c = 16 /\
    length (fyData (yuv s')) = 512%nat /\
    fyData (yuv s') = red_17x15_luma /\
    luma (nrgb (At red_17x15 0 0)) = (65481 * 255 + 4207500) / 255000 /\
    clamp ((65481 * 255 + 4207500) / 255000) = 81 /\
    forallb visible_17x15 (trace s') = true.
Proof.
  intros Hhost.
  assert (Hrun : ConvertFromRasterImage host YCbCrSubsampleRatio420 red_17x15 fresh =
                 ConvertFromRasterImage (mkHost 512 None) YCbCrSubsampleRatio420
                   red_17x15 fresh).
  { assert (Hgrant : forall n, 0 <= n <= 512 -> 0 <= n <= maxAlloc host) by (intros; lia).
    unfold ConvertFromRasterImage.
    cbn [supported negb orb Z.eqb Pos.eqb YCbCrSubsampleRatio420
         YCbCrSubsampleRatio444 YCbCrSubsampleRatio422].
    do 9 (erewrite (run_bind (S := World)) by (cbv; reflexivity)).
    rewrite make_granted by (apply Hgrant; vm_compute; split; discriminate).
    do 3 (erewrite (run_bind (S := World)) by (cbv; reflexivity)).
    rewrite make_granted by (apply Hgrant; vm_compute; split; discriminate).
    do 3 (erewrite (run_bind (S := World)) by (cbv; reflexivity)).
    rewrite make_granted by (apply Hgrant; vm_compute; split; discriminate).
    do 4 (erewrite (run_bind (S := World)) by (cbv; reflexivity)).
    vm_compute. reflexivity. }
  rewrite Hrun.
  eexists _, _. split; [vm_compute; reflexivity|].
  vm_compute. repeat split.
Qed.

(** C2 as stated fails: on the 2x2 image [green_2x2] at 4:2:0 the V byte of
    the only block is 34, while the sum of the four contributions divided by
    4 and then by 357510 gives 35. *)
Lemma green_2x2_V_is_not_the_average :
  let cv x y := contrib_v (nrgb (At green_2x2 x y)) in
  exists s',
    ConvertFromRasterImage linux_amd64 YCbCrSubsampleRatio420 green_2x2 fresh =
      Ok true s' /\
    fvData (yuv s') !! 0%nat = Some 34 /\
    average4 357510 (cv 0 0) (cv 1 0) (cv 0 1) (cv 1 1) = 35 /\
    fvData (yuv s') !! 0%nat <> Some (average4 357510 (cv 0 0) (cv 1 0) (cv 0 1) (cv 1 1)).
Proof.
  eexists. split; [vm_compute; reflexivity|].
  vm_compute. repeat split. discriminate.
Qed.

(** C5 as stated fails: a supported format does not make the call return
    [true] on every image.  On an image 2^31 pixels wide the padded width
    reads back negative from its C [int] field and [make] panics on the
    negative length; on an [*image.Uniform], whose bounds are 2*10^9 pixels
    each way, the luma plane would take 4*10^18 bytes, which [make] refuses
    on linux/amd64. *)
Lemma supported_format_can_panic :
  supported YCbCrSubsampleRatio420 = true /\
  ConvertFromRasterImage linux_amd64 YCbCrSubsampleRatio420 too_wide fresh = Panic /\
  ConvertFromRasterImage linux_amd64 YCbCrSubsampleRatio420
    (Uniform (rgba 128 128 128 255)) fresh = Panic.
Proof. split; [reflexivity|]. split; vm_compute; reflexivity. Qed.

Lemma valid_red_17x15 : valid_image red_17x15.
Proof. repeat split; vm_compute; discriminate. Defined.

Lemma valid_green_2x2 : valid_image green_2x2.
Proof. repeat split; vm_compute; discriminate. Defined.

Lemma grants_red_17x15 : grants linux_amd64 red_17x15.
Proof. vm_compute; discriminate. Defined.

Lemma grants_green_2x2 : grants linux_amd64 green_2x2.
Proof. vm_compute; discriminate. Defined.


Lemma red_17x15_at_420_witness :
  512 <= maxAlloc linux_amd64 /\
  exists s',
    ConvertFromRasterImage linux_amd64 YCbCrSubsampleRatio420 red_17x15 fresh =
      Ok true s' /\
    fyData (yuv s') = red_17x15_luma /\
    forallb visible_17x15 (trace s') = true.
Proof.
  assert (Hhost : 512 <= maxAlloc linux_amd64) by (vm_compute; discriminate).
  split; [exact Hhost|].
  destruct (red_17x15_at_420 linux_amd64 Hhost)
    as (s' & c & Hrun & _ & _ & _ & _ & _ & Hluma & _ & _ & Htrace).
  exists s'. repeat split; assumption.
Defined.

Lemma ConvertFromRasterImage_chroma_witness :
  valid_image green_2x2 /\
  grants linux_amd64 green_2x2 /\
  fValue NewTheoraYUVbuffer = Some yuv_buffer_zero /\
  exists s',
    ConvertFromRasterImage linux_amd64 YCbCrSubsampleRatio420 green_2x2 fresh =
      Ok true s' /\
    fvData (yuv s') !! 0%nat =
      Some (quarters4 357510 (contrib_v (0, 255, 117)) (contrib_v (0, 255, 117))
              (contrib_v (0, 255, 117)) (contrib_v (0, 161, 117))).
Proof.
  split; [exact valid_green_2x2|]. split; [exact grants_green_2x2|].
  split; [reflexivity|].
  destruct (ConvertFromRasterImage_chroma linux_amd64 green_2x2 NewTheoraYUVbuffer
              yuv_buffer_zero [] valid_green_2x2 grants_green_2x2 eq_refl)
    as [(s' & Hrun & Hblocks) _].
  exists s'. split; [exact Hrun|].
  destruct (Hblocks 0 0 ltac:(lia) ltac:(lia) ltac:(vm_compute; reflexivity)
              ltac:(vm_compute; reflexivity)) as (_ & _ & HV).
  exact HV.
Defined.


Lemma ConvertFromRasterImage_format_check_witness :
  supported YCbCrSubsampleRatio410 = false /\
  ConvertFromRasterImage linux_amd64 YCbCrSubsampleRatio410 red_17x15 fresh =
    Ok false fresh /\
  supported YCbCrSubsampleRatio422 = true /\
  valid_image red_17x15 /\
  grants linux_amd64 red_17x15 /\
  exists s',
    ConvertFromRasterImage linux_amd64 YCbCrSubsampleRatio422 red_17x15 fresh =
      Ok true s'.
Proof.
  split; [reflexivity|]. split.
  - exact (proj1 (proj1 (ConvertFromRasterImage_format_check linux_amd64
                           YCbCrSubsampleRatio410 red_17x15) eq_refl fresh)).
  - split; [reflexivity|]. split; [exact valid_red_17x15|].
    split; [exact grants_red_17x15|].
    exact (proj1 (proj2 (ConvertFromRasterImage_format_check linux_amd64
                           YCbCrSubsampleRatio422 red_17x15))
             eq_refl NewTheoraYUVbuffer yuv_buffer_zero [] valid_red_17x15
             grants_red_17x15 eq_refl).
Defined.

(** ** Stream parameters: the boolean setters *)

Section InfoClaims.
Import Info.

(** C9.  [SetDropFrames] stores the inverted flag: on every allocated
    [TheoraInfo], [SetDropFrames b] returns, leaves [dropframes_p] at 0 when
    [b] is true and at 1 when [b] is false, and [GetDropFrames] then answers
    the negation of [b], never [b]. *)
Theorem SetDropFrames_inverts (c : theora_info) (b : bool) :
  exists c',
    SetDropFrames b (live c) = Some (live c') /\
    dropframes_p c' = (if b then 0 else 1) /\
    GetDropFrames (live c') = Some (negb b) /\
    GetDropFrames (live c') <> Some b.
Proof.
  destruct b; cbn.
  - exists (set_dropframes_p 0 c). repeat split; try reflexivity. discriminate.
  - exists (set_dropframes_p 1 c). repeat split; try reflexivity. discriminate.
Qed.

(** C10.  [SetKeyframeAuto] stores the inverted flag exactly as
    [SetDropFrames] does, so that [GetKeyframeAuto] answers the negation of
    the argument, whereas [SetQuick] stores the flag as given and [GetQuick]
    answers the argument. *)
Theorem SetKeyframeAuto_inverts_SetQuick_does_not (c : theora_info) (b : bool) :
  (exists c',
     SetKeyframeAuto b (live c) = Some (live c') /\
     keyframe_auto_p c' = (if b then 0 else 1) /\
     GetKeyframeAuto (live c') = Some (negb b)) /\
  (exists c',
     SetQuick b (live c) = Some (live c') /\
     quick_p c' = (if b then 1 else 0) /\
     GetQuick (live c') = Some b).
Proof.
  split.
  - destruct b; cbn.
    + exists (set_keyframe_auto_p 0 c). repeat split; reflexivity.
    + exists (set_keyframe_auto_p 1 c). repeat split; reflexivity.
  - destruct b; cbn.
    + exists (set_quick_p 1 c). repeat split; reflexivity.
    + exists (set_quick_p 0 c). repeat split; reflexivity.
Qed.

End InfoClaims.

(** ** The encoder session *)

Lemma insert_snoc {A} (l : list A) (x y : A) :
  <[length l := x]> (l ++ [y]) = l ++ [x].
Proof. induction l; cbn; [reflexivity|]. f_equal. exact IHl. Qed.

Lemma lookup_snoc {A} (l : list A) (x : A) : (l ++ [x]) !! length l = Some x.
Proof. induction l; cbn; auto. Qed.



Lemma try_run (m k : M State (option error)) (s : State) :
  try m k s = match m s with
              | Ok (Some e) s' => Ok (Some e) s'
              | Ok None s' => k s'
              | Panic => Panic
              | OutOfFuel => OutOfFuel
              end.
Proof. unfold try, bind. destruct (m s) as [[e|] s'| |]; reflexivity. Qed.

Lemma run_NewPacket env pk cl :
  NewPacket env (session pk cl) =
  Ok (length pk, transport env (cl ++ [OGG_NewPacket]))
     (session (pk ++ [None]) (cl ++ [OGG_NewPacket])).
Proof. reflexivity. Qed.

Lemma run_Header env op pk cl :
  Header env op (session pk cl) =
  let R := engine env (cl ++ [theora_encode_header]) in
  if R =? 0
  then Ok None (session (<[op := Some Identification]> pk)
                        (cl ++ [theora_encode_header]))
  else Ok (Some (errTheoraException R)) (session pk (cl ++ [theora_encode_header])).
Proof.
  unfold Header, bind, deref_fState, call_engine. cbn.
  destruct (_ =? 0); reflexivity.
Qed.

Lemma run_Comment env tc op pk cl :
  Comment env tc op (session pk cl) =
  let R := engine env (cl ++ [theora_encode_comment tc]) in
  if R =? 0
  then Ok None (session (<[op := Some CommentPacket]> pk)
                        (cl ++ [theora_encode_comment tc]))
  else Ok (Some (errTheoraException R))
          (session pk (cl ++ [theora_encode_comment tc])).
Proof.
  unfold Comment, bind, call_engine. cbn.
  destruct (_ =? 0); reflexivity.
Qed.

Lemma run_Tables env op pk cl :
  Tables env op (session pk cl) =
  let R := engine env (cl ++ [theora_encode_tables]) in
  if R =? 0
  then Ok None (session (<[op := Some Setup]> pk) (cl ++ [theora_encode_tables]))
  else Ok (Some (errTheoraException R)) (session pk (cl ++ [theora_encode_tables])).
Proof.
  unfold Tables, bind, deref_fState, call_engine. cbn.
  destruct (_ =? 0); reflexivity.
Qed.

Lemma run_SavePacketToStream env op pk cl :
  stream_SavePacketToStream env op (session pk cl) =
  let c := SavePacketToStream (mjoin (pk !! op)) in
  Ok (transport env (cl ++ [c])) (session pk (cl ++ [c])).
Proof. reflexivity. Qed.

Lemma run_PacketIn env op pk cl :
  stream_PacketIn env op (session pk cl) =
  let c := PacketIn (mjoin (pk !! op)) in
  Ok (transport env (cl ++ [c])) (session pk (cl ++ [c])).
Proof. reflexivity. Qed.

(** [PacketOut] on a session whose [fState] is set: one engine call, and the
    result decided by its status. *)
Lemma run_PacketOut env fo pk cl (last_p : bool) op :
  let c := theora_encode_packetout (if last_p then 1 else 0) in
  let R := engine env (cl ++ [c]) in
  exists r pk',
    PacketOut env last_p op (mkState (mkTheoraEncoder (Some tt) fo) pk cl) =
      Ok r (mkState (mkTheoraEncoder (Some tt) fo) pk' (cl ++ [c])) /\
    drain_outcome R r /\
    (r = None <-> R = 1).
Proof.
  intros c R. unfold PacketOut, bind, deref_fState, call_engine. cbn.
  fold c. fold R.
  destruct (R =? 1) eqn:E1.
  { apply Z.eqb_eq in E1. eexists _, _. split; [reflexivity|].
    rewrite E1. split; [constructor | tauto]. }
  apply Z.eqb_neq in E1.
  destruct (R =? -1) eqn:E2.
  { apply Z.eqb_eq in E2. eexists _, _. split; [reflexivity|].
    split; [rewrite E2; constructor|]. split; [discriminate | lia]. }
  apply Z.eqb_neq in E2.
  destruct (R =? 0) eqn:E3.
  { apply Z.eqb_eq in E3. eexists _, _. split; [reflexivity|].
    split; [rewrite E3; constructor|]. split; [discriminate | lia]. }
  apply Z.eqb_neq in E3.
  eexists _, _. split; [reflexivity|].
  split; [constructor; assumption|]. split; [discriminate | lia].
Qed.

(** C8.  For every session whose [fState] is set and either value of
    [last_p], [PacketOut] makes one [theora_encode_packetout] call and maps
    its status to the caller's outcome: nil exactly for status 1, the
    not-ready error for 0, the completed signal for -1, and
    [errTheoraException] carrying the status otherwise. *)
Theorem PacketOut_outcome (env : Environment) (fo : option unit)
    (pk : list (option PacketKind)) (cl : list Call) (last_p : bool) (op : nat) :
  let s := mkState (mkTheoraEncoder (Some tt) fo) pk cl in
  let R := engine env (cl ++ [theora_encode_packetout (if last_p then 1 else 0)]) in
  exists r s',
    PacketOut env last_p op s = Ok r s' /\
    drain_outcome R r /\
    (r = None <-> R = 1) /\
    enc s' = enc s /\
    calls s' = cl ++ [theora_encode_packetout (if last_p then 1 else 0)].
Proof.
  intros s R.
  destruct (run_PacketOut env fo pk cl last_p op) as (r & pk' & Hrun & Hout & Hnil).
  eexists r, _. split; [exact Hrun|].
  split; [exact Hout|]. split; [exact Hnil|]. split; reflexivity.
Qed.

(** C7 (by evaluation of the code).  Whenever a first [Close] returns nil it
    has released the stream ([foggs] is nil), and a second [Close] on that
    session panics: [Flush] calls a method through the nil [foggs] before the
    nil test is reached.  This happens on a fresh session whose calls all
    succeed. *)
Theorem Close_twice_panics :
  (forall env s,
     match Close env s with
     | Ok None s' => foggs (enc s') = None /\ Close env s' = Panic
     | Ok (Some _) s' => enc s' = enc s
     | Panic => foggs (enc s) = None
     | OutOfFuel => False
     end) /\
  (Close env_ok ;; Close env_ok) NewTheoraEncoder = Panic.
Proof.
  split; [|reflexivity].
  intros env [[st fo] pk cl].
  unfold Close, try, Flush, bind, deref_foggs, call_transport. cbn.
  destruct fo as [[]|]; [|reflexivity].
  destruct (transport env (cl ++ [PagesFlushToStream])) eqn:E;
    cbn; rewrite ?E; cbn; auto.
Qed.


Ltac norm_logs :=
  repeat match goal with
         | H : context [(_ ++ _) ++ _] |- _ => rewrite <- app_assoc in H
         end;
  rewrite <- ?app_assoc; cbn [app] in *.

Ltac use_responses :=
  repeat match goal with
         | H : (_ =? _) = _ |- _ => rewrite H
         | H : transport _ _ = _ |- _ => rewrite H
         end.

Ltac tail_of base l :=
  match l with
  | base => constr:(@nil Call)
  | ?l' ++ [?c] => let t := tail_of base l' in constr:(t ++ [c])
  end.




(** * Beyond the claims *)

(** ** Machine integers: what a conversion keeps *)

Lemma int_uint32 (n : Z) : int (uint32 n) = uint32 n.
Proof.
  apply int_small. unfold uint32, wrapU.
  pose proof (Z.mod_pos_bound n (2 ^ 32) ltac:(lia)). lia.
Qed.

Lemma int_C_int (n : Z) : int (C_int n) = C_int n.
Proof.
  apply int_small. unfold C_int, wrapS.
  pose proof (Z.mod_pos_bound (n + 2 ^ (32 - 1)) (2 ^ 32) ltac:(lia)).
  change (2 ^ (32 - 1)) with 2147483648 in *. change (2 ^ 32) with 4294967296 in *.
  lia.
Qed.

Lemma uint32_fixed (n : Z) : uint32 n = n <-> 0 <= n < 4294967296.
Proof.
  split; [|apply uint32_small].
  intros E. unfold uint32, wrapU in E.
  pose proof (Z.mod_pos_bound n (2 ^ 32) ltac:(lia)) as Hb.
  change (2 ^ 32) with 4294967296 in *. lia.
Qed.

Lemma C_int_fixed (n : Z) : C_int n = n <-> -2147483648 <= n < 2147483648.
Proof.
  split; [|apply C_int_small].
  intros E. unfold C_int, wrapS in E.
  pose proof (Z.mod_pos_bound (n + 2 ^ (32 - 1)) (2 ^ 32) ltac:(lia)) as Hb.
  change (2 ^ (32 - 1)) with 2147483648 in *. change (2 ^ 32) with 4294967296 in *.
  lia.
Qed.


(** ** Luma *)

Lemma luma_exact c : rgb_ok c ->
  luma c = contrib_y c / 255000 /\ 16 <= contrib_y c / 255000 <= 235.
Proof.
  destruct c as [[r g] b]. intros (Hr & Hg & Hb).
  unfold luma, contrib_y, u32_add, u32_mul, u32_div.
  u32_simpl. split; [reflexivity|]. zlia.
Qed.

Lemma clamp_small v : 0 <= v <= 255 -> clamp v = v.
Proof.
  intros Hv. unfold clamp. destruct (255 <? v) eqn:E; [apply Z.ltb_lt in E; lia|].
  unfold byte, wrapU. apply Z.mod_small. change (2 ^ 8) with 256. lia.
Qed.

(** ** Two postconditions of one run *)

Lemma wp_and {S A} (m : M S A) (Q1 Q2 : A -> S -> Prop) s :
  wp m Q1 s -> wp m Q2 s -> wp m (fun a s' => Q1 a s' /\ Q2 a s') s.
Proof.
  intros (a1 & s1 & H1 & HQ1) (a2 & s2 & H2 & HQ2).
  rewrite H1 in H2. injection H2 as <- <-.
  exists a1, s1. split; [exact H1 | split; assumption].
Qed.

(** ** Windows *)

Lemma in_window_index (stride cols rows a b : Z) :
  0 <= a < cols -> cols <= stride -> 0 <= b < rows ->
  in_window stride cols rows (a + b * stride) = true.
Proof.
  intros Ha Hc Hb. unfold in_window.
  rewrite Z.mod_add, Z.div_add by lia.
  rewrite Z.mod_small, Z.div_small by lia.
  apply andb_true_iff. split; apply Z.ltb_lt; lia.
Qed.

Lemma zero_outside_insert stride cols rows l i v :
  0 <= i -> in_window stride cols rows i = true ->
  zero_outside stride cols rows l ->
  zero_outside stride cols rows (<[Z.to_nat i := v]> l).
Proof.
  intros Hi Hin Hl n v' Hlk Hout.
  destruct (decide (n = Z.to_nat i)) as [-> | Hne].
  - rewrite Z2Nat.id in Hout by lia. congruence.
  - rewrite list_lookup_insert_ne in Hlk by congruence. eapply Hl; eassumption.
Qed.

Lemma zero_outside_replicate stride cols rows n :
  zero_outside stride cols rows (replicate n 0).
Proof.
  intros k v Hlk _. apply lookup_replicate in Hlk as [-> _]. reflexivity.
Qed.

Lemma samples_1 n : samples n 1 = n.
Proof. unfold samples. rewrite Z.div_1_r. lia. Qed.

Lemma samples_2 n x : 0 <= x < n -> 0 <= x / 2 < samples n 2.
Proof. unfold samples. intros. zlia. Qed.

Section CleanFacts.
Variables (w h sx sy : Z).
Variable (tr0 : list Event).

Lemma windowed_snoc (tr : list Event) (e : Event) :
  (exists evs, tr = tr0 ++ evs /\ Forall (ev_window w h sx sy) evs) ->
  ev_window w h sx sy e ->
  exists evs, tr ++ [e] = tr0 ++ evs /\ Forall (ev_window w h sx sy) evs.
Proof.
  intros (evs & -> & Hall) He. exists (evs ++ [e]). split.
  - symmetry. apply app_assoc.
  - apply Forall_app. split; [exact Hall|]. constructor; [exact He | constructor].
Qed.

End CleanFacts.

Section CleanBlocks.
Context {C : Type} `{Color C} (aData : Image C).
Variables (w h : Z).
Hypothesis Hw : 0 <= w <= max_dim.
Hypothesis Hh : 0 <= h <= max_dim.
Variables (cu cv : Z -> Z -> Z).
Variables (own : bool) (tr0 : list Event).

Ltac luma_window :=
  apply in_window_index; lia.

Lemma pixel444_clean y x s :
  0 <= y < h -> 0 <= x < w ->
  Inv aData w h 1 1 cu cv own tr0 y x s ->
  Clean w h 1 1 tr0 s ->
  wp (pixel444 aData (padded w) y x) (fun _ s' => Clean w h 1 1 tr0 s') s.
Proof.
  intros Hy Hx [HfV Hown Hyl Hul Hvl _ _ _ _] [Htr HY HU HV].
  destruct s as [[fv ly lu lv ow] tr].
  cbn [yuv trace fValue fOwnData fyData fuData fvData] in *.
  pose proof (padded_le w Hw) as [HW HW16]. pose proof (padded_le h Hh) as [HH HH16].
  unfold max_dim in *.
  pose proof (idx_bounds x y (padded w) (padded h) ltac:(lia) ltac:(lia)) as Hib.
  rewrite !Z.div_1_r in *. rewrite !samples_1 in *.
  unfold pixel444, int_add, int_mul.
  pose proof (mul_bounds y (padded w) 2147483632 2147483632 ltac:(lia) ltac:(lia)).
  rewrite (int_small (y * padded w)) by lia.
  rewrite (int_small (x + y * padded w)) by lia.
  rewrite (int_small (x + 1)) by lia.
  assert (Hin : in_window (padded w) w h (x + y * padded w) = true) by luma_window.
  apply wp_bind, wp_sample. simpl_world.
  apply wp_bind, wp_store; simpl_world; [lia|].
  apply wp_bind, wp_store; simpl_world; [lia|].
  apply wp_bind, wp_store; simpl_world; [lia|].
  apply wp_ret.
  constructor; simpl_world; rewrite ?Z.div_1_r, ?samples_1.
  - repeat (apply windowed_snoc;
            [|cbn [ev_window]; rewrite ?Z.div_1_r, ?samples_1; first [exact I | exact Hin]]).
    exact Htr.
  - apply zero_outside_insert; [lia | exact Hin | exact HY].
  - apply zero_outside_insert; [lia | exact Hin | exact HU].
  - apply zero_outside_insert; [lia | exact Hin | exact HV].
Qed.

Lemma chroma_in_window_2 (rows x b : Z) :
  0 <= x < w -> 0 <= b < rows ->
  in_window (padded w / 2) (samples w 2) rows (x / 2 + b * (padded w / 2)) = true.
Proof.
  intros Hx Hb. pose proof (padded_le w Hw) as [HW HW16].
  apply in_window_index; [apply samples_2; lia | unfold samples; zlia | lia].
Qed.

Lemma block420_clean y x s :
  0 <= y < h -> 0 <= x < w -> y mod 2 = 0 -> x mod 2 = 0 ->
  Inv aData w h 2 2 cu cv own tr0 y x s ->
  Clean w h 2 2 tr0 s ->
  wp (block420 aData w (padded w) y (edge y h) x)
     (fun _ s' => Clean w h 2 2 tr0 s') s.
Proof.
  intros Hy Hx Hym Hxm [HfV Hown Hyl Hul Hvl _ _ _ _] [Htr HY HU HV].
  destruct s as [[fv ly lu lv ow] tr].
  cbn [yuv trace fValue fOwnData fyData fuData fvData] in *.
  subst fv.
  pose proof (padded_le w Hw) as [HW HW16]. pose proof (padded_le h Hh) as [HH HH16].
  unfold block420. rewrite (next_or_last_edge x w) by lia. cbn zeta.
  pose proof (edge_spec x w Hx) as Hx1. pose proof (edge_spec y h Hy) as Hy1.
  set (x1 := edge x w) in *. set (y1 := edge y h) in *.
  assert (Hin0 : in_window (padded w) w h (x + y * padded w) = true)
    by (apply in_window_index; lia).
  assert (Hin1 : in_window (padded w) w h (x1 + y * padded w) = true)
    by (apply in_window_index; lia).
  assert (Hin2 : in_window (padded w) w h (x + y1 * padded w) = true)
    by (apply in_window_index; lia).
  assert (Hin3 : in_window (padded w) w h (x1 + y1 * padded w) = true)
    by (apply in_window_index; lia).
  assert (Hinc : in_window (padded w / 2) (samples w 2) (samples h 2)
                   (x / 2 + y / 2 * (padded w / 2)) = true)
    by (apply chroma_in_window_2; [lia | apply samples_2; lia]).
  unfold max_dim in *. unfold int_add, int_mul.
  pose proof (idx_bounds x y (padded w) (padded h) ltac:(lia) ltac:(lia)) as Hib0.
  pose proof (idx_bounds x1 y (padded w) (padded h) ltac:(lia) ltac:(lia)) as Hib1.
  pose proof (idx_bounds x y1 (padded w) (padded h) ltac:(lia) ltac:(lia)) as Hib2.
  pose proof (idx_bounds x1 y1 (padded w) (padded h) ltac:(lia) ltac:(lia)) as Hib3.
  pose proof (idx_bounds (x / 2) (y / 2) (padded w / 2) (padded h / 2)
                ltac:(zlia) ltac:(zlia)) as Hic.
  pose proof (mul_bounds y (padded w) 2147483632 2147483632 ltac:(lia) ltac:(lia)).
  pose proof (mul_bounds y1 (padded w) 2147483632 2147483632 ltac:(lia) ltac:(lia)).
  pose proof (mul_bounds (y / 2) (padded w / 2) 2147483632 2147483632
                ltac:(zlia) ltac:(zlia)).
  rewrite !Z.shiftr_div_pow2 by lia. change (2 ^ 1) with 2.
  apply wp_bind, wp_sample; simpl_world.
  apply wp_bind, wp_sample; simpl_world.
  apply wp_bind, wp_sample; simpl_world.
  apply wp_bind, wp_sample; simpl_world.
  rewrite (int_small (y * padded w)), (int_small (y1 * padded w)) by lia.
  rewrite (int_small (x + y * padded w)), (int_small (x1 + y * padded w)),
    (int_small (x + y1 * padded w)), (int_small (x1 + y1 * padded w)) by lia.
  apply wp_bind, wp_store; simpl_world; rewrite ?length_insert; [lia|].
  apply wp_bind, wp_store; simpl_world; rewrite ?length_insert; [lia|].
  apply wp_bind, wp_store; simpl_world; rewrite ?length_insert; [lia|].
  apply wp_bind, wp_store; simpl_world; rewrite ?length_insert; [lia|].
  apply wp_bind. eapply wp_GetUVStride; [reflexivity|]. simpl_world.
  rewrite (int_small (y / 2 * (padded w / 2))) by lia.
  rewrite (int_small (x / 2 + y / 2 * (padded w / 2))) by zlia.
  apply wp_bind, wp_store; simpl_world; rewrite ?length_insert; [lia|].
  apply wp_bind. eapply wp_GetUVStride; [reflexivity|]. simpl_world.
  rewrite (int_small (y / 2 * (padded w / 2))) by lia.
  rewrite (int_small (x / 2 + y / 2 * (padded w / 2))) by zlia.
  apply wp_bind, wp_store; simpl_world; rewrite ?length_insert; [lia|].
  apply wp_ret.
  constructor; simpl_world.
  - repeat (apply windowed_snoc;
            [|cbn [ev_window]; first [exact I | assumption]]).
    exact Htr.
  - repeat (apply zero_outside_insert; [lia | assumption |]). exact HY.
  - apply zero_outside_insert; [lia | exact Hinc | exact HU].
  - apply zero_outside_insert; [lia | exact Hinc | exact HV].
Qed.

Lemma block422_clean y x s :
  0 <= y < h -> 0 <= x < w -> x mod 2 = 0 ->
  Inv aData w h 2 1 cu cv own tr0 y x s ->
  Clean w h 2 1 tr0 s ->
  wp (block422 aData w (padded w) y x) (fun _ s' => Clean w h 2 1 tr0 s') s.
Proof.
  intros Hy Hx Hxm [HfV Hown Hyl Hul Hvl _ _ _ _] [Htr HY HU HV].
  destruct s as [[fv ly lu lv ow] tr].
  cbn [yuv trace fValue fOwnData fyData fuData fvData] in *.
  subst fv.
  pose proof (padded_le w Hw) as [HW HW16]. pose proof (padded_le h Hh) as [HH HH16].
  unfold block422. rewrite (next_or_last_edge x w) by lia. cbn zeta.
  pose proof (edge_spec x w Hx) as Hx1.
  set (x1 := edge x w) in *.
  assert (Hin0 : in_window (padded w) w h (x + y * padded w) = true)
    by (apply in_window_index; lia).
  assert (Hin1 : in_window (padded w) w h (x1 + y * padded w) = true)
    by (apply in_window_index; lia).
  assert (Hinc : in_window (padded w / 2) (samples w 2) (samples h 1)
                   (x / 2 + y * (padded w / 2)) = true)
    by (apply chroma_in_window_2; [lia | rewrite samples_1; lia]).
  unfold max_dim in *. unfold int_add, int_mul.
  pose proof (idx_bounds x y (padded w) (padded h) ltac:(lia) ltac:(lia)) as Hib0.
  pose proof (idx_bounds x1 y (padded w) (padded h) ltac:(lia) ltac:(lia)) as Hib1.
  pose proof (idx_bounds (x / 2) y (padded w / 2) (padded h)
                ltac:(zlia) ltac:(zlia)) as Hic.
  pose proof (mul_bounds y (padded w) 2147483632 2147483632 ltac:(lia) ltac:(lia)).
  pose proof (mul_bounds y (padded w / 2) 2147483632 2147483632
                ltac:(zlia) ltac:(zlia)).
  rewrite !Z.shiftr_div_pow2 by lia. change (2 ^ 1) with 2.
  rewrite !Z.div_1_r in Hul, Hvl.
  apply wp_bind, wp_sample; simpl_world.
  apply wp_bind, wp_sample; simpl_world.
  rewrite (int_small (y * padded w)) by lia.
  rewrite (int_small (x + y * padded w)), (int_small (x1 + y * padded w)) by lia.
  apply wp_bind, wp_store; simpl_world; rewrite ?length_insert; [lia|].
  apply wp_bind, wp_store; simpl_world; rewrite ?length_insert; [lia|].
  apply wp_bind. eapply wp_GetUVStride; [reflexivity|]. simpl_world.
  rewrite (int_small (y * (padded w / 2))) by lia.
  rewrite (int_small (x / 2 + y * (padded w / 2))) by zlia.
  apply wp_bind, wp_store; simpl_world; rewrite ?length_insert; [lia|].
  apply wp_bind. eapply wp_GetUVStride; [reflexivity|]. simpl_world.
  rewrite (int_small (y * (padded w / 2))) by lia.
  rewrite (int_small (x / 2 + y * (padded w / 2))) by zlia.
  apply wp_bind, wp_store; simpl_world; rewrite ?length_insert; [lia|].
  apply wp_ret.
  constructor; simpl_world.
  - repeat (apply windowed_snoc;
            [|cbn [ev_window]; first [exact I | assumption]]).
    exact Htr.
  - repeat (apply zero_outside_insert; [lia | assumption |]). exact HY.
  - apply zero_outside_insert; [lia | exact Hinc | exact HU].
  - apply zero_outside_insert; [lia | exact Hinc | exact HV].
Qed.

End CleanBlocks.

(** ** The loops with a second invariant *)

Section LoopsWith.
Context {C : Type} `{Color C} (aData : Image C).
Variables (w h sx sy : Z).
Variables (cu cv : Z -> Z -> Z).
Variables (own : bool) (tr0 : list Event).
Hypothesis Hsx : sx = 1 \/ sx = 2.
Hypothesis Hsy : sy = 1 \/ sy = 2.
Variable J : World -> Prop.

Local Abbreviation Inv' := (Inv aData w h sx sy cu cv own tr0).

Lemma cols_loop_with (body : Z -> M World Z) (y : Z) :
  (forall x s, 0 <= x < w -> x mod sx = 0 -> Inv' y x s -> J s ->
     wp (body x) (fun x' s' => (x' = x + sx /\ Inv' y (x + sx) s') /\ J s') s) ->
  forall s, Inv' y 0 s -> J s ->
    wp (while (S (Z.to_nat w)) (fun x => x <? w) body 0)
       (fun _ s' => Inv' (y + sy) 0 s' /\ J s') s.
Proof.
  intros Hbody s HI HJ.
  eapply wp_mono;
    [| apply (wp_while (fun x s => 0 <= x /\ x mod sx = 0 /\ Inv' y x s /\ J s) w body)].
  - cbn beta. intros xf s' (Hge & Hnn & _ & HI' & HJ'). split; [|exact HJ'].
    eapply Inv_weaken; [|exact HI']. unfold done. intros; lia.
  - intros x s1 (Hnn & Hmod & HI1 & HJ1) Hlt.
    eapply wp_mono; [|apply Hbody; [lia | exact Hmod | exact HI1 | exact HJ1]].
    cbn beta. intros x' s' [[-> HI'] HJ'].
    split; [|split; [|split; [|split; [exact HI' | exact HJ']]]];
      [destruct Hsx; lia | lia |].
    destruct Hsx as [E | E]; rewrite E in Hmod |- *; zlia.
  - lia.
  - split; [lia|split; [|split; [exact HI | exact HJ]]].
    destruct Hsx as [E | E]; rewrite E; reflexivity.
Qed.

Lemma rows_loop_with (row : Z -> M World Z) :
  (forall y s, 0 <= y < h -> y mod sy = 0 -> Inv' y 0 s -> J s ->
     wp (row y) (fun y' s' => y' = y + sy /\ Inv' (y + sy) 0 s' /\ J s') s) ->
  forall s, Inv' 0 0 s -> J s ->
    wp (while (S (Z.to_nat h)) (fun y => y <? h) row 0)
       (fun _ s' => Inv' h 0 s' /\ J s') s.
Proof.
  intros Hrow s HI HJ.
  eapply wp_mono;
    [| apply (wp_while (fun y s => 0 <= y /\ y mod sy = 0 /\ Inv' y 0 s /\ J s) h row)].
  - cbn beta. intros yf s' (Hge & Hnn & _ & HI' & HJ'). split; [|exact HJ'].
    eapply Inv_weaken; [|exact HI']. unfold done. intros; lia.
  - intros y s1 (Hnn & Hmod & HI1 & HJ1) Hlt.
    eapply wp_mono; [|apply Hrow; [lia | exact Hmod | exact HI1 | exact HJ1]].
    cbn beta. intros y' s' (-> & HI' & HJ').
    split; [|split; [|split; [|split; [exact HI' | exact HJ']]]];
      [destruct Hsy; lia | lia |].
    destruct Hsy as [E | E]; rewrite E in Hmod |- *; zlia.
  - lia.
  - split; [lia|split; [|split; [exact HI | exact HJ]]].
    destruct Hsy as [E | E]; rewrite E; reflexivity.
Qed.

End LoopsWith.

(** ** One row of each loop, both invariants *)

Section CleanRows.
Context {C : Type} `{Color C} (aData : Image C).
Variables (w h : Z).
Hypothesis Hw : 0 <= w <= max_dim.
Hypothesis Hh : 0 <= h <= max_dim.
Variables (own : bool) (tr0 : list Event).

Lemma row420_clean y s :
  0 <= y < h -> y mod 2 = 0 ->
  Inv aData w h 2 2 (u420 aData w h) (v420 aData w h) own tr0 y 0 s ->
  Clean w h 2 2 tr0 s ->
  wp (row420 aData w h (padded w) y)
     (fun y' s' => y' = y + 2 /\
        Inv aData w h 2 2 (u420 aData w h) (v420 aData w h) own tr0 (y + 2) 0 s' /\
        Clean w h 2 2 tr0 s') s.
Proof.
  intros Hy Hym HI HJ. unfold row420. rewrite (next_or_last_edge y h) by lia. cbn zeta.
  apply wp_bind.
  eapply wp_mono;
    [|apply (cols_loop_with aData w h 2 2 (u420 aData w h) (v420 aData w h) own tr0
               (or_intror eq_refl) (Clean w h 2 2 tr0)); [|exact HI|exact HJ]].
  - cbn beta. intros _ s' [HI' HJ']. apply wp_ret. split; [|split; assumption].
    unfold int_add. apply int_small. unfold max_dim in *. lia.
  - intros x s1 Hx Hxm HI1 HJ1. apply wp_and.
    + apply block420_spec; assumption.
    + eapply block420_clean; eassumption.
Qed.

Lemma row444_clean y s :
  0 <= y < h ->
  Inv aData w h 1 1 (u444 aData) (v444 aData) own tr0 y 0 s ->
  Clean w h 1 1 tr0 s ->
  wp (row444 aData w (padded w) y)
     (fun y' s' => y' = y + 1 /\
        Inv aData w h 1 1 (u444 aData) (v444 aData) own tr0 (y + 1) 0 s' /\
        Clean w h 1 1 tr0 s') s.
Proof.
  intros Hy HI HJ. unfold row444.
  apply wp_bind.
  eapply wp_mono;
    [|apply (cols_loop_with aData w h 1 1 (u444 aData) (v444 aData) own tr0
               (or_introl eq_refl) (Clean w h 1 1 tr0)); [|exact HI|exact HJ]].
  - cbn beta. intros _ s' [HI' HJ']. apply wp_ret. split; [|split; assumption].
    unfold int_add. apply int_small. unfold max_dim in *. lia.
  - intros x s1 Hx Hxm HI1 HJ1. apply wp_and.
    + apply pixel444_spec; assumption.
    + eapply pixel444_clean; eassumption.
Qed.

Lemma row422_clean y s :
  0 <= y < h ->
  Inv aData w h 2 1 (u422 aData w) (v422 aData w) own tr0 y 0 s ->
  Clean w h 2 1 tr0 s ->
  wp (row422 aData w (padded w) y)
     (fun y' s' => y' = y + 1 /\
        Inv aData w h 2 1 (u422 aData w) (v422 aData w) own tr0 (y + 1) 0 s' /\
        Clean w h 2 1 tr0 s') s.
Proof.
  intros Hy HI HJ. unfold row422.
  apply wp_bind.
  eapply wp_mono;
    [|apply (cols_loop_with aData w h 2 1 (u422 aData w) (v422 aData w) own tr0
               (or_intror eq_refl) (Clean w h 2 1 tr0)); [|exact HI|exact HJ]].
  - cbn beta. intros _ s' [HI' HJ']. apply wp_ret. split; [|split; assumption].
    unfold int_add. apply int_small. unfold max_dim in *. lia.
  - intros x s1 Hx Hxm HI1 HJ1. apply wp_and.
    + apply block422_spec; assumption.
    + eapply block422_clean; eassumption.
Qed.

End CleanRows.

(** ** The whole conversion, both invariants *)

Section CleanWhole.
Context {C : Type} `{Color C} (aData : Image C).
Variable host : Host.
Hypothesis Hvalid : valid_image aData.
Hypothesis Hgrants : grants host aData.
Variables (c0 : yuv_buffer) (ly0 lu0 lv0 : list Z) (own : bool) (tr0 : list Event).

Local Abbreviation w := (Dx (Bounds aData)).
Local Abbreviation h := (Dy (Bounds aData)).
Local Abbreviation s0 :=
  (mkWorld (mkTheoraYUVbuffer (Some c0) ly0 lu0 lv0 own) tr0).

Ltac setup_step :=
  first
    [ apply wp_bind; eapply wp_assign; [reflexivity|]
    | apply wp_bind; eapply wp_get; [reflexivity|]
    | apply wp_bind; eapply wp_set_data;
        [reflexivity | apply replicate_nonempty, Z.mul_pos_pos; lia |] ];
  unfold set_fValue;
  cbn [yuv trace fValue fyData fuData fvData fOwnData set_plane_data set_ptr
       y_width y_height y_stride uv_width uv_height uv_stride c_y c_u c_v].

Ltac unfold_accessors :=
  unfold SetYWidth, SetYHeight, SetYStride, SetUVWidth, SetUVStride, SetUVHeight,
    GetUVWidth, GetYStride, GetYHeight, GetUVStride, GetUVHeight,
    SetYData, SetUData, SetVData.

Ltac start_convert :=
  unfold ConvertFromRasterImage;
  cbn [supported negb orb Z.eqb Pos.eqb YCbCrSubsampleRatio420
       YCbCrSubsampleRatio444 YCbCrSubsampleRatio422];
  rewrite !yuv_dim by assumption;
  rewrite ?Z.shiftr_div_pow2 by lia; change (2 ^ 1) with 2;
  unfold_accessors.

Ltac dimensions :=
  destruct Hvalid as [Hw1 Hh1];
  assert (Hw : 0 <= w <= max_dim) by lia;
  assert (Hh : 0 <= h <= max_dim) by lia;
  pose proof (padded_le w Hw) as [HW HW16];
  pose proof (padded_le h Hh) as [HH HH16];
  assert (HW2 : 0 < padded w / 2 <= padded w) by zlia;
  assert (HH2 : 0 < padded h / 2 <= padded h) by zlia;
  pose proof Hgrants as Hg; unfold grants in Hg;
  assert (Hg420 : padded w / 2 * (padded h / 2) <= maxAlloc host)
    by (apply Z.le_trans with (padded w * padded h);
        [apply Z.mul_le_mono_nonneg; lia | exact Hg]);
  assert (Hg422 : padded w / 2 * padded h <= maxAlloc host)
    by (apply Z.le_trans with (padded w * padded h);
        [apply Z.mul_le_mono_nonneg; lia | exact Hg]).

Ltac initial_inv :=
  constructor; cbn [yuv trace fValue fyData fuData fvData fOwnData];
    unfold sized; rewrite ?length_replicate, ?Z.div_1_r; try reflexivity; try lia;
  [ exists []; split; [symmetry; apply app_nil_r | constructor]
  | apply holds_nothing; unfold done, not; intros; lia
  | apply holds_nothing; unfold done, not; intros; lia
  | apply holds_nothing; unfold done, not; intros; lia ].

Ltac initial_clean :=
  constructor; cbn [yuv trace fValue fyData fuData fvData fOwnData];
  [ exists []; split; [symmetry; apply app_nil_r | constructor]
  | apply zero_outside_replicate
  | apply zero_outside_replicate
  | apply zero_outside_replicate ].

Lemma convert420_clean :
  wp (ConvertFromRasterImage host YCbCrSubsampleRatio420 aData)
     (fun r s' => r = true /\
        Inv aData w h 2 2 (u420 aData w h) (v420 aData w h) own tr0 h 0 s' /\
        Clean w h 2 2 tr0 s') s0.
Proof.
  dimensions.
  start_convert. unfold max_dim in *.
  do 7 setup_step.
  rewrite !C_int_small by zlia.
  do 2 setup_step.
  pose proof (mul_bounds (padded w) (padded h) 2147483632 2147483632
                ltac:(lia) ltac:(lia)).
  pose proof (mul_bounds (padded w / 2) (padded h / 2) 2147483632 2147483632
                ltac:(zlia) ltac:(zlia)).
  unfold int_mul. rewrite int_small by lia.
  apply wp_bind, wp_make; [lia|].
  do 2 setup_step. rewrite int_small by lia. apply wp_bind, wp_make; [lia|].
  do 2 setup_step. rewrite int_small by lia. apply wp_bind, wp_make; [lia|].
  do 3 setup_step.
  apply wp_bind.
  eapply wp_mono;
    [|apply (rows_loop_with aData w h 2 2 (u420 aData w h) (v420 aData w h) own tr0
               (or_intror eq_refl) (Clean w h 2 2 tr0))].
  - cbn beta. intros _ s' HI. apply wp_ret. split; [reflexivity | exact HI].
  - intros y s1 Hy Hym HI HJ. apply row420_clean; assumption.
  - initial_inv.
  - initial_clean.
Qed.

Lemma convert444_clean :
  wp (ConvertFromRasterImage host YCbCrSubsampleRatio444 aData)
     (fun r s' => r = true /\
        Inv aData w h 1 1 (u444 aData) (v444 aData) own tr0 h 0 s' /\
        Clean w h 1 1 tr0 s') s0.
Proof.
  dimensions.
  start_convert. unfold max_dim in *.
  do 7 setup_step.
  rewrite !C_int_small by zlia.
  do 2 setup_step.
  pose proof (mul_bounds (padded w) (padded h) 2147483632 2147483632
                ltac:(lia) ltac:(lia)).
  unfold int_mul. rewrite int_small by lia.
  apply wp_bind, wp_make; [lia|].
  do 2 setup_step. rewrite int_small by lia. apply wp_bind, wp_make; [lia|].
  do 2 setup_step. rewrite int_small by lia. apply wp_bind, wp_make; [lia|].
  do 3 setup_step.
  apply wp_bind.
  eapply wp_mono;
    [|apply (rows_loop_with aData w h 1 1 (u444 aData) (v444 aData) own tr0
               (or_introl eq_refl) (Clean w h 1 1 tr0))].
  - cbn beta. intros _ s' HI. apply wp_ret. split; [reflexivity | exact HI].
  - intros y s1 Hy Hym HI HJ. apply row444_clean; assumption.
  - initial_inv.
  - initial_clean.
Qed.

Lemma convert422_clean :
  wp (ConvertFromRasterImage host YCbCrSubsampleRatio422 aData)
     (fun r s' => r = true /\
        Inv aData w h 2 1 (u422 aData w) (v422 aData w) own tr0 h 0 s' /\
        Clean w h 2 1 tr0 s') s0.
Proof.
  dimensions.
  start_convert. unfold max_dim in *.
  do 7 setup_step.
  rewrite !C_int_small by zlia.
  do 2 setup_step.
  pose proof (mul_bounds (padded w) (padded h) 2147483632 2147483632
                ltac:(lia) ltac:(lia)).
  pose proof (mul_bounds (padded w / 2) (padded h) 2147483632 2147483632
                ltac:(zlia) ltac:(zlia)).
  unfold int_mul. rewrite int_small by lia.
  apply wp_bind, wp_make; [lia|].
  do 2 setup_step. rewrite int_small by lia. apply wp_bind, wp_make; [lia|].
  do 2 setup_step. rewrite int_small by lia. apply wp_bind, wp_make; [lia|].
  do 3 setup_step.
  apply wp_bind.
  eapply wp_mono;
    [|apply (rows_loop_with aData w h 2 1 (u422 aData w) (v422 aData w) own tr0
               (or_introl eq_refl) (Clean w h 2 1 tr0))].
  - cbn beta. intros _ s' HI. apply wp_ret. split; [reflexivity | exact HI].
  - intros y s1 Hy Hym HI HJ. apply row422_clean; assumption.
  - initial_inv.
  - initial_clean.
Qed.

End CleanWhole.

(** ** The bytes the loops store are in the video range *)

Lemma quarters4_range K lo hi a b c d :
  0 < K -> 0 <= lo ->
  lo <= a <= hi -> lo <= b <= hi -> lo <= c <= hi -> lo <= d <= hi ->
  (4 * (lo / 4)) / K <= (a / 4 + b / 4 + c / 4 + d / 4) / K <= (4 * (hi / 4)) / K.
Proof.
  intros HK Hlo Ha Hb Hc Hd.
  split; apply Z.div_le_mono; try lia; zlia.
Qed.

Section Ranges.
Context {C : Type} `{Color C} (aData : Image C).

Lemma luma_at_range x y :
  luma_at aData x y = contrib_y (nrgb (At aData x y)) / 255000 /\
  16 <= luma_at aData x y <= 235.
Proof.
  unfold luma_at.
  destruct (luma_exact _ (nrgb_ok (At aData x y))) as [-> Hr].
  rewrite clamp_small by lia. split; [reflexivity | exact Hr].
Qed.

Lemma u444_range x y : 16 <= u444 aData x y <= 240.
Proof.
  rewrite u444_exact.
  destruct (chroma_u_exact _ (nrgb_ok (At aData x y))) as [_ Hr].
  rewrite clamp_small; zlia.
Qed.

Lemma v444_range x y : 16 <= v444 aData x y <= 240.
Proof.
  rewrite v444_exact.
  destruct (chroma_v_exact _ (nrgb_ok (At aData x y))) as [_ Hr].
  rewrite clamp_small; zlia.
Qed.

Lemma u420_range w h x y : 16 <= u420 aData w h x y <= 240.
Proof.
  rewrite u420_quarters. unfold quarters4.
  destruct (chroma_u_exact _ (nrgb_ok (At aData x y))) as [_ H0].
  destruct (chroma_u_exact _ (nrgb_ok (At aData (edge x w) y))) as [_ H1].
  destruct (chroma_u_exact _ (nrgb_ok (At aData x (edge y h)))) as [_ H2].
  destruct (chroma_u_exact _ (nrgb_ok (At aData (edge x w) (edge y h)))) as [_ H3].
  pose proof (quarters4_range 225930 3727845 54336165 _ _ _ _
                ltac:(lia) ltac:(lia) H0 H1 H2 H3) as Hq.
  change (4 * (3727845 / 4) / 225930) with 16 in Hq.
  change (4 * (54336165 / 4) / 225930) with 240 in Hq.
  rewrite clamp_small; lia.
Qed.

Lemma v420_range w h x y : 16 <= v420 aData w h x y <= 240.
Proof.
  rewrite v420_quarters. unfold quarters4.
  destruct (chroma_v_exact _ (nrgb_ok (At aData x y))) as [_ H0].
  destruct (chroma_v_exact _ (nrgb_ok (At aData (edge x w) y))) as [_ H1].
  destruct (chroma_v_exact _ (nrgb_ok (At aData x (edge y h)))) as [_ H2].
  destruct (chroma_v_exact _ (nrgb_ok (At aData (edge x w) (edge y h)))) as [_ H3].
  pose proof (quarters4_range 357510 5898915 85981155 _ _ _ _
                ltac:(lia) ltac:(lia) H0 H1 H2 H3) as Hq.
  change (4 * (5898915 / 4) / 357510) with 16 in Hq.
  change (4 * (85981155 / 4) / 357510) with 240 in Hq.
  rewrite clamp_small; lia.
Qed.

Lemma u422_range w x y : 16 <= u422 aData w x y <= 240.
Proof.
  rewrite u422_average. unfold average2.
  destruct (chroma_u_exact _ (nrgb_ok (At aData x y))) as [_ H0].
  destruct (chroma_u_exact _ (nrgb_ok (At aData (edge x w) y))) as [_ H1].
  rewrite clamp_small; zlia.
Qed.

Lemma v422_range w x y : 16 <= v422 aData w x y <= 240.
Proof.
  rewrite v422_average. unfold average2.
  destruct (chroma_v_exact _ (nrgb_ok (At aData x y))) as [_ H0].
  destruct (chroma_v_exact _ (nrgb_ok (At aData (edge x w) y))) as [_ H1].
  rewrite clamp_small; zlia.
Qed.

End Ranges.

(** ** A plane is determined by its window *)

Lemma plane_eq idx val (P : Z -> Z -> Prop) stride cols rows (l1 l2 : list Z) :
  length l1 = length l2 ->
  holds idx val P l1 -> holds idx val P l2 ->
  zero_outside stride cols rows l1 -> zero_outside stride cols rows l2 ->
  (forall n, 0 <= n -> in_window stride cols rows n = true ->
     exists x y, P x y /\ idx x y = n) ->
  l1 = l2.
Proof.
  intros Hlen H1 H2 Z1 Z2 Hpix. apply list_eq. intros n.
  destruct (l1 !! n) as [v1|] eqn:E1.
  - assert (Hlt : (n < length l2)%nat).
    { rewrite <- Hlen. apply lookup_lt_is_Some. eauto. }
    apply lookup_lt_is_Some in Hlt as [v2 E2]. rewrite E2. f_equal.
    destruct (in_window stride cols rows (Z.of_nat n)) eqn:Ew.
    + destruct (Hpix (Z.of_nat n) ltac:(lia) Ew) as (x & y & HP & Hidx).
      pose proof (H1 x y HP) as L1. pose proof (H2 x y HP) as L2.
      rewrite Hidx, Nat2Z.id in L1, L2. congruence.
    + rewrite (Z1 n v1 E1 Ew), (Z2 n v2 E2 Ew). reflexivity.
  - symmetry. apply lookup_ge_None. rewrite <- Hlen. apply lookup_ge_None. exact E1.
Qed.

Lemma window_pixel (w h s stride n : Z) :
  s = 1 \/ s = 2 -> 0 <= stride -> 0 <= n ->
  in_window stride (samples w s) h n = true ->
  0 <= s * (n mod stride) < w /\ s * (n mod stride) / s = n mod stride /\
  0 <= n / stride < h /\ n mod stride + n / stride * stride = n.
Proof.
  intros Hs Hst Hn Hin. unfold in_window, samples in Hin.
  apply andb_true_iff in Hin as [Hc Hr]. apply Z.ltb_lt in Hc, Hr.
  destruct (Z.eq_dec stride 0) as [-> | Hne].
  - rewrite Z.mod_0_r, Z.div_0_r in *. destruct Hs as [-> | ->]; zlia.
  - assert (0 < stride \/ stride < 0) as [Hpos | Hneg] by lia.
    + pose proof (Z.mod_pos_bound n stride Hpos) as Ha.
      pose proof (Z.div_pos n stride Hn Hpos) as Hb.
      pose proof (Z.div_mod n stride Hne) as E.
      set (a := n mod stride) in *. set (b := n / stride) in *. clearbody a b.
      assert (a + b * stride = n) by lia.
      destruct Hs as [-> | ->]; zlia.
    + lia.
Qed.

Lemma window_row (h s q : Z) :
  s = 1 \/ s = 2 -> 0 <= q < samples h s -> 0 <= s * q < h /\ s * q / s = q.
Proof. unfold samples. intros [-> | ->] Hq; zlia. Qed.

(** ** The planes of a conversion *)

Section ConverterExtras.
Context {C : Type} `{Color C}.
Variable host : Host.

(** Every supported format on a valid image whose planes the host grants
    and an allocated buffer: the call returns [true] and ends in both
    invariants with every pixel done. *)
Lemma convert_clean (f : YCbCrSubsampleRatio) (aData : Image C)
    (b : TheoraYUVbuffer) (c0 : yuv_buffer) (tr : list Event) :
  supported f = true ->
  valid_image aData ->
  grants host aData ->
  fValue b = Some c0 ->
  exists s',
    ConvertFromRasterImage host f aData (mkWorld b tr) = Ok true s' /\
    Inv aData (Dx (Bounds aData)) (Dy (Bounds aData)) (chroma_sx f) (chroma_sy f)
      (chroma_u_of f aData) (chroma_v_of f aData) (fOwnData b) tr
      (Dy (Bounds aData)) 0 s' /\
    Clean (Dx (Bounds aData)) (Dy (Bounds aData)) (chroma_sx f) (chroma_sy f) tr s'.
Proof.
  intros Hf Hvalid Hgrants Hlive. destruct b as [fv ly lu lv own]. cbn in Hlive. subst fv.
  cbn [fOwnData].
  destruct (supported_cases _ Hf) as [-> | [-> | ->]].
  - destruct (convert444_clean aData host Hvalid Hgrants c0 ly lu lv own tr)
      as (r & s' & Hrun & -> & HI & HJ).
    exists s'. split; [exact Hrun|]. split; [exact HI | exact HJ].
  - destruct (convert422_clean aData host Hvalid Hgrants c0 ly lu lv own tr)
      as (r & s' & Hrun & -> & HI & HJ).
    exists s'. split; [exact Hrun|]. split; [exact HI | exact HJ].
  - destruct (convert420_clean aData host Hvalid Hgrants c0 ly lu lv own tr)
      as (r & s' & Hrun & -> & HI & HJ).
    exists s'. split; [exact Hrun|]. split; [exact HI | exact HJ].
Qed.

Lemma chroma_of_range (f : YCbCrSubsampleRatio) (aData : Image C) x y :
  16 <= chroma_u_of f aData x y <= 240 /\ 16 <= chroma_v_of f aData x y <= 240.
Proof.
  unfold chroma_u_of, chroma_v_of.
  destruct (f =? YCbCrSubsampleRatio444); [|destruct (f =? YCbCrSubsampleRatio420)].
  - split; [apply u444_range | apply v444_range].
  - split; [apply u420_range | apply v420_range].
  - split; [apply u422_range | apply v422_range].
Qed.

Lemma chroma_s_cases (f : YCbCrSubsampleRatio) :
  (chroma_sx f = 1 \/ chroma_sx f = 2) /\ (chroma_sy f = 1 \/ chroma_sy f = 2).
Proof.
  unfold chroma_sx, chroma_sy.
  destruct (f =? YCbCrSubsampleRatio444), (f =? YCbCrSubsampleRatio420); auto.
Qed.

(** X1.  On a valid image whose planes the host grants and an allocated
    buffer, at each supported format, the call returns [true] and the luma byte of every pixel [(x, y)] of the
    image, at index [x + y * YStride], is
    [(65481*r + 128553*g + 24966*b + 4207500) / 255000] for the pixel's
    non-premultiplied red, green and blue.  The value lies between 16 and
    235: neither the 32-bit arithmetic nor the clamp alters it. *)
Theorem ConvertFromRasterImage_luma
    (f : YCbCrSubsampleRatio) (aData : Image C)
    (b : TheoraYUVbuffer) (c0 : yuv_buffer) (tr : list Event) :
  supported f = true ->
  valid_image aData ->
  grants host aData ->
  fValue b = Some c0 ->
  exists s',
    ConvertFromRasterImage host f aData (mkWorld b tr) = Ok true s' /\
    forall x y, 0 <= x < Dx (Bounds aData) -> 0 <= y < Dy (Bounds aData) ->
      fyData (yuv s') !! Z.to_nat (x + y * padded (Dx (Bounds aData))) =
        Some (contrib_y (nrgb (At aData x y)) / 255000) /\
      16 <= contrib_y (nrgb (At aData x y)) / 255000 <= 235.
Proof.
  intros Hf Hvalid Hgrants Hlive.
  destruct (convert_clean f aData b c0 tr Hf Hvalid Hgrants Hlive) as (s' & Hrun & HI & _).
  exists s'. split; [exact Hrun|]. intros x y Hx Hy.
  destruct HI as [_ _ _ _ _ _ HY _ _].
  assert (Hd : done (Dx (Bounds aData)) (Dy (Bounds aData)) (chroma_sy f)
                 (Dy (Bounds aData)) 0 x y) by (unfold done; lia).
  specialize (HY x y Hd).
  destruct (luma_at_range aData x y) as [E Hr].
  rewrite E in HY, Hr. split; [exact HY | exact Hr].
Qed.

(** X2.  On a valid image whose planes the host grants and an allocated
    buffer, at each supported format, the call returns [true] and the U and
    the V byte of the chroma sample that covers pixel [(x, y)],
    at index [x / sx + (y / sy) * UVStride], lie between 16 and 240: no
    chroma value reaches the clamp at 255, and none wraps. *)
Theorem ConvertFromRasterImage_chroma_range
    (f : YCbCrSubsampleRatio) (aData : Image C)
    (b : TheoraYUVbuffer) (c0 : yuv_buffer) (tr : list Event) :
  supported f = true ->
  valid_image aData ->
  grants host aData ->
  fValue b = Some c0 ->
  exists s',
    ConvertFromRasterImage host f aData (mkWorld b tr) = Ok true s' /\
    forall x y, 0 <= x < Dx (Bounds aData) -> 0 <= y < Dy (Bounds aData) ->
      let i := x / chroma_sx f +
               y / chroma_sy f * (padded (Dx (Bounds aData)) / chroma_sx f) in
      exists u v,
        fuData (yuv s') !! Z.to_nat i = Some u /\
        fvData (yuv s') !! Z.to_nat i = Some v /\
        16 <= u <= 240 /\ 16 <= v <= 240.
Proof.
  intros Hf Hvalid Hgrants Hlive.
  destruct (convert_clean f aData b c0 tr Hf Hvalid Hgrants Hlive) as (s' & Hrun & HI & _).
  exists s'. split; [exact Hrun|]. intros x y Hx Hy i.
  destruct HI as [_ _ _ _ _ _ _ HU HV].
  assert (Hd : done (Dx (Bounds aData)) (Dy (Bounds aData)) (chroma_sy f)
                 (Dy (Bounds aData)) 0 x y) by (unfold done; lia).
  specialize (HU x y Hd). specialize (HV x y Hd).
  rewrite chroma_index_eq in HU, HV. fold i in HU, HV.
  eexists _, _. split; [exact HU|]. split; [exact HV|].
  rewrite chroma_u_at_eq, chroma_v_at_eq. apply chroma_of_range.
Qed.

(** X3.  On a valid image whose planes the host grants and an allocated
    buffer, at each supported format, the call returns [true], every plane
    write of the call lands in the window the image covers (the
    first [w] columns of the first [h] rows of the luma plane, the first
    [ceil(w/sx)] columns of the first [ceil(h/sy)] rows of a chroma plane),
    and every byte of the three planes outside the window is zero after the
    call, whatever the buffer held before. *)
Theorem ConvertFromRasterImage_padding
    (f : YCbCrSubsampleRatio) (aData : Image C)
    (b : TheoraYUVbuffer) (c0 : yuv_buffer) (tr : list Event) :
  supported f = true ->
  valid_image aData ->
  grants host aData ->
  fValue b = Some c0 ->
  let w := Dx (Bounds aData) in
  let h := Dy (Bounds aData) in
  let uv_stride := padded w / chroma_sx f in
  let uv_cols := samples w (chroma_sx f) in
  let uv_rows := samples h (chroma_sy f) in
  exists s' evs,
    ConvertFromRasterImage host f aData (mkWorld b tr) = Ok true s' /\
    trace s' = tr ++ evs /\
    (forall i, In (EvStore PlaneY i) evs -> in_window (padded w) w h i = true) /\
    (forall i, In (EvStore PlaneU i) evs \/ In (EvStore PlaneV i) evs ->
       in_window uv_stride uv_cols uv_rows i = true) /\
    (forall n v, fyData (yuv s') !! n = Some v ->
       in_window (padded w) w h (Z.of_nat n) = false -> v = 0) /\
    (forall n v, fuData (yuv s') !! n = Some v ->
       in_window uv_stride uv_cols uv_rows (Z.of_nat n) = false -> v = 0) /\
    (forall n v, fvData (yuv s') !! n = Some v ->
       in_window uv_stride uv_cols uv_rows (Z.of_nat n) = false -> v = 0).
Proof.
  intros Hf Hvalid Hgrants Hlive w h uv_stride uv_cols uv_rows.
  destruct (convert_clean f aData b c0 tr Hf Hvalid Hgrants Hlive) as (s' & Hrun & _ & HJ).
  destruct HJ as [(evs & Htr & Hall) HY HU HV].
  exists s', evs. split; [exact Hrun|]. split; [exact Htr|].
  rewrite List.Forall_forall in Hall.
  split; [|split; [|split; [exact HY | split; [exact HU | exact HV]]]].
  - intros i Hi. exact (Hall _ Hi).
  - intros i [Hi | Hi]; exact (Hall _ Hi).
Qed.

End ConverterExtras.

(** ** What the planes depend on *)

Lemma holds_ext idx (val val' : Z -> Z -> Z) (P : Z -> Z -> Prop) l :
  (forall x y, P x y -> val' x y = val x y) ->
  holds idx val' P l -> holds idx val P l.
Proof. intros E Hl x y HP. rewrite <- (E x y HP). apply Hl, HP. Qed.

Lemma edge_in (x n : Z) : 0 <= x < n -> 0 <= edge x n < n.
Proof. intros Hx. destruct (edge_spec x n Hx); lia. Qed.

Lemma block_origin (s x n : Z) :
  s = 1 \/ s = 2 -> 0 <= x < n -> 0 <= s * (x / s) < n.
Proof. intros [-> | ->] Hx; zlia. Qed.

Section DependsOn.
Context {C C' : Type} `{Color C} `{Color C'}.
Variables (aData : Image C) (aData' : Image C').
Hypothesis Hdx : Dx (Bounds aData') = Dx (Bounds aData).
Hypothesis Hdy : Dy (Bounds aData') = Dy (Bounds aData).
Hypothesis Hsame : forall x y,
  0 <= x < Dx (Bounds aData) -> 0 <= y < Dy (Bounds aData) ->
  nrgb (At aData' x y) = nrgb (At aData x y).

Lemma chroma_of_same (f : YCbCrSubsampleRatio) x y :
  0 <= x < Dx (Bounds aData) -> 0 <= y < Dy (Bounds aData) ->
  chroma_u_of f aData' x y = chroma_u_of f aData x y /\
  chroma_v_of f aData' x y = chroma_v_of f aData x y.
Proof.
  intros Hx Hy. unfold chroma_u_of, chroma_v_of. rewrite Hdx, Hdy.
  pose proof (edge_in x _ Hx) as Hx1. pose proof (edge_in y _ Hy) as Hy1.
  destruct (f =? YCbCrSubsampleRatio444); [|destruct (f =? YCbCrSubsampleRatio420)].
  - unfold u444, v444. rewrite Hsame by assumption. split; reflexivity.
  - unfold u420, v420. rewrite !Hsame by assumption. split; reflexivity.
  - unfold u422, v422. rewrite !Hsame by assumption. split; reflexivity.
Qed.

End DependsOn.

Section ConverterExtras2.
Context {C C' : Type} `{Color C} `{Color C'}.

(** X4.  The struct and the planes a conversion leaves depend on nothing but
    the format, the image's width and height and the red, green and blue of
    the pixels at the coordinates [0, w) x [0, h): two images of any colour
    types that agree on these (whatever their alpha, their [Bounds().Min] or
    their pixels elsewhere), converted into any two allocated buffers
    (whatever these held) on any two hosts that grant the planes, give equal
    structs and equal Y, U and V planes, and each buffer keeps its OwnData.
    With the same image twice: a used buffer keeps no residue of the frame
    it held, and the host leaves no mark on the result. *)
Theorem ConvertFromRasterImage_depends_on_window
    (host1 host2 : Host)
    (f : YCbCrSubsampleRatio) (aData : Image C) (aData' : Image C')
    (b1 b2 : TheoraYUVbuffer) (c1 c2 : yuv_buffer) (tr1 tr2 : list Event) :
  supported f = true ->
  valid_image aData ->
  grants host1 aData ->
  grants host2 aData ->
  Dx (Bounds aData') = Dx (Bounds aData) ->
  Dy (Bounds aData') = Dy (Bounds aData) ->
  (forall x y, 0 <= x < Dx (Bounds aData) -> 0 <= y < Dy (Bounds aData) ->
     nrgb (At aData' x y) = nrgb (At aData x y)) ->
  fValue b1 = Some c1 ->
  fValue b2 = Some c2 ->
  exists s1 s2,
    ConvertFromRasterImage host1 f aData (mkWorld b1 tr1) = Ok true s1 /\
    ConvertFromRasterImage host2 f aData' (mkWorld b2 tr2) = Ok true s2 /\
    fValue (yuv s1) = fValue (yuv s2) /\
    fyData (yuv s1) = fyData (yuv s2) /\
    fuData (yuv s1) = fuData (yuv s2) /\
    fvData (yuv s1) = fvData (yuv s2) /\
    fOwnData (yuv s1) = fOwnData b1 /\
    fOwnData (yuv s2) = fOwnData b2.
Proof.
  intros Hf Hvalid Hg1 Hg2 Hdx Hdy Hsame Hl1 Hl2.
  assert (Hvalid' : valid_image aData').
  { unfold valid_image. rewrite Hdx, Hdy. exact Hvalid. }
  assert (Hg2' : grants host2 aData').
  { unfold grants. rewrite Hdx, Hdy. exact Hg2. }
  destruct (convert_clean host1 f aData b1 c1 tr1 Hf Hvalid Hg1 Hl1)
    as (s1 & Hrun1 & HI1 & HJ1).
  destruct (convert_clean host2 f aData' b2 c2 tr2 Hf Hvalid' Hg2' Hl2)
    as (s2 & Hrun2 & HI2 & HJ2).
  exists s1, s2. split; [exact Hrun1|]. split; [exact Hrun2|].
  rewrite Hdx, Hdy in HI2, HJ2.
  destruct HI1 as [F1 O1 Ly1 Lu1 Lv1 _ Y1 U1 V1], HI2 as [F2 O2 Ly2 Lu2 Lv2 _ Y2 U2 V2].
  destruct HJ1 as [_ ZY1 ZU1 ZV1], HJ2 as [_ ZY2 ZU2 ZV2].
  destruct Hvalid as [Hw Hh].
  pose proof (padded_le (Dx (Bounds aData)) ltac:(lia)) as [HW HW16].
  destruct (chroma_s_cases f) as [Hsx Hsy].
  set (w := Dx (Bounds aData)) in *. set (h := Dy (Bounds aData)) in *.
  assert (Hst : 0 <= padded w / chroma_sx f) by (destruct Hsx as [-> | ->]; zlia).
  assert (Y2' : holds (luma_index w) (luma_at aData)
                  (done w h (chroma_sy f) h 0) (fyData (yuv s2))).
  { eapply holds_ext; [|exact Y2]. unfold done, luma_at. intros x y Hd.
    rewrite Hsame by lia. reflexivity. }
  assert (U2' : holds (chroma_index w (chroma_sx f) (chroma_sy f))
                  (chroma_u_at (chroma_sx f) (chroma_sy f) (chroma_u_of f aData))
                  (done w h (chroma_sy f) h 0) (fuData (yuv s2))).
  { eapply holds_ext; [|exact U2]. unfold done. intros x y Hd.
    rewrite !chroma_u_at_eq.
    apply (chroma_of_same aData aData' Hdx Hdy Hsame);
      apply block_origin; [exact Hsx | lia | exact Hsy | lia]. }
  assert (V2' : holds (chroma_index w (chroma_sx f) (chroma_sy f))
                  (chroma_v_at (chroma_sx f) (chroma_sy f) (chroma_v_of f aData))
                  (done w h (chroma_sy f) h 0) (fvData (yuv s2))).
  { eapply holds_ext; [|exact V2]. unfold done. intros x y Hd.
    rewrite !chroma_v_at_eq.
    apply (chroma_of_same aData aData' Hdx Hdy Hsame);
      apply block_origin; [exact Hsx | lia | exact Hsy | lia]. }
  split; [congruence|].
  split; [|split; [|split; [|split; assumption]]].
  - eapply plane_eq; [lia | exact Y1 | exact Y2' | exact ZY1 | exact ZY2 |].
    intros n Hn Hin.
    assert (Hin' : in_window (padded w) (samples w 1) h n = true)
      by (rewrite samples_1; exact Hin).
    destruct (window_pixel w h 1 (padded w) n (or_introl eq_refl) ltac:(lia) Hn Hin')
      as (Hx & _ & Hy & E).
    exists (n mod padded w), (n / padded w). split; [unfold done; lia|].
    unfold luma_index. exact E.
  - eapply plane_eq; [lia | exact U1 | exact U2' | exact ZU1 | exact ZU2 |].
    intros n Hn Hin.
    destruct (window_pixel w (samples h (chroma_sy f)) (chroma_sx f) _ n Hsx Hst Hn Hin)
      as (Hx & Ex & Hy & E).
    exists (chroma_sx f * (n mod (padded w / chroma_sx f))),
      (chroma_sy f * (n / (padded w / chroma_sx f))).
    pose proof (window_row h (chroma_sy f) _ Hsy Hy) as Hyy.
    split; [unfold done; lia|].
    rewrite chroma_index_eq, Ex, (proj2 Hyy). exact E.
  - eapply plane_eq; [lia | exact V1 | exact V2' | exact ZV1 | exact ZV2 |].
    intros n Hn Hin.
    destruct (window_pixel w (samples h (chroma_sy f)) (chroma_sx f) _ n Hsx Hst Hn Hin)
      as (Hx & Ex & Hy & E).
    exists (chroma_sx f * (n mod (padded w / chroma_sx f))),
      (chroma_sy f * (n / (padded w / chroma_sx f))).
    pose proof (window_row h (chroma_sy f) _ Hsy Hy) as Hyy.
    split; [unfold done; lia|].
    rewrite chroma_index_eq, Ex, (proj2 Hyy). exact E.
Qed.

End ConverterExtras2.

(** ** Colours without hue *)

Lemma grey_contrib c : grey c ->
  contrib_u c = 29032005 /\ contrib_v c = 45940035 /\
  contrib_y c / 255000 = 16 + (438 * fst (fst c) + 255) / 510.
Proof.
  destruct c as [[r g] b]. intros [-> ->]. cbn [fst contrib_u contrib_v contrib_y].
  split; [lia|]. split; [lia|]. zlia.
Qed.

Section Grey.
Context {C : Type} `{Color C} (aData : Image C).

Lemma grey_chroma (f : YCbCrSubsampleRatio) x y :
  0 <= x < Dx (Bounds aData) -> 0 <= y < Dy (Bounds aData) ->
  (forall x y, 0 <= x < Dx (Bounds aData) -> 0 <= y < Dy (Bounds aData) ->
     grey (nrgb (At aData x y))) ->
  chroma_u_of f aData x y = 128 /\ chroma_v_of f aData x y = 128.
Proof.
  intros Hx Hy Hgrey. unfold chroma_u_of, chroma_v_of.
  pose proof (edge_in x _ Hx) as Hx1. pose proof (edge_in y _ Hy) as Hy1.
  destruct (grey_contrib _ (Hgrey x y Hx Hy)) as (U0 & V0 & _).
  destruct (grey_contrib _ (Hgrey _ y Hx1 Hy)) as (U1 & V1 & _).
  destruct (grey_contrib _ (Hgrey x _ Hx Hy1)) as (U2 & V2 & _).
  destruct (grey_contrib _ (Hgrey _ _ Hx1 Hy1)) as (U3 & V3 & _).
  destruct (f =? YCbCrSubsampleRatio444); [|destruct (f =? YCbCrSubsampleRatio420)].
  - rewrite u444_exact, v444_exact, U0, V0. split; reflexivity.
  - rewrite u420_quarters, v420_quarters, U0, U1, U2, U3, V0, V1, V2, V3.
    split; reflexivity.
  - rewrite u422_average, v422_average, U0, U1, V0, V1. split; reflexivity.
Qed.

(** X5.  A valid image whose pixels all have red = green = blue and whose
    planes the host grants converts, at each supported format, to
    U = V = 128 in every chroma sample that covers a
    pixel, and to the luma [16 + (438*g + 255) / 510], which is
    [16 + 219*g/255] rounded to the nearest integer, for a pixel of grey
    level [g]. *)
Theorem grey_image_has_neutral_chroma (host : Host)
    (f : YCbCrSubsampleRatio) (b : TheoraYUVbuffer) (c0 : yuv_buffer)
    (tr : list Event) :
  supported f = true ->
  valid_image aData ->
  grants host aData ->
  fValue b = Some c0 ->
  (forall x y, 0 <= x < Dx (Bounds aData) -> 0 <= y < Dy (Bounds aData) ->
     grey (nrgb (At aData x y))) ->
  exists s',
    ConvertFromRasterImage host f aData (mkWorld b tr) = Ok true s' /\
    forall x y, 0 <= x < Dx (Bounds aData) -> 0 <= y < Dy (Bounds aData) ->
      let i := x / chroma_sx f +
               y / chroma_sy f * (padded (Dx (Bounds aData)) / chroma_sx f) in
      fuData (yuv s') !! Z.to_nat i = Some 128 /\
      fvData (yuv s') !! Z.to_nat i = Some 128 /\
      fyData (yuv s') !! Z.to_nat (x + y * padded (Dx (Bounds aData))) =
        Some (16 + (438 * fst (fst (nrgb (At aData x y))) + 255) / 510).
Proof.
  intros Hf Hvalid Hgrants Hlive Hgrey.
  destruct (convert_clean host f aData b c0 tr Hf Hvalid Hgrants Hlive)
    as (s' & Hrun & HI & _).
  exists s'. split; [exact Hrun|]. intros x y Hx Hy i.
  destruct HI as [_ _ _ _ _ _ HY HU HV].
  assert (Hd : done (Dx (Bounds aData)) (Dy (Bounds aData)) (chroma_sy f)
                 (Dy (Bounds aData)) 0 x y) by (unfold done; lia).
  specialize (HY x y Hd). specialize (HU x y Hd). specialize (HV x y Hd).
  rewrite chroma_index_eq in HU, HV. fold i in HU, HV.
  rewrite chroma_u_at_eq in HU. rewrite chroma_v_at_eq in HV.
  destruct (chroma_s_cases f) as [Hsx Hsy].
  destruct (grey_chroma f _ _ (block_origin _ x _ Hsx Hx) (block_origin _ y _ Hsy Hy)
              Hgrey) as [EU EV].
  rewrite EU in HU. rewrite EV in HV.
  split; [exact HU|]. split; [exact HV|].
  destruct (luma_at_range aData x y) as [E _]. rewrite E in HY.
  destruct (grey_contrib _ (Hgrey x y Hx Hy)) as (_ & _ & EY).
  rewrite EY in HY. exact HY.
Qed.

End Grey.

(** ** How far the 4:2:0 V byte is from the average *)

Lemma quarters4_v_near p0 p1 p2 p3 :
  rgb_ok p0 -> rgb_ok p1 -> rgb_ok p2 -> rgb_ok p3 ->
  let q := quarters4 357510 (contrib_v p0) (contrib_v p1) (contrib_v p2) (contrib_v p3) in
  let a := average4 357510 (contrib_v p0) (contrib_v p1) (contrib_v p2) (contrib_v p3) in
  q = a \/ q = a - 1.
Proof.
  intros H0 H1 H2 H3.
  destruct (chroma_v_exact p0 H0) as [_ R0], (chroma_v_exact p1 H1) as [_ R1],
    (chroma_v_exact p2 H2) as [_ R2], (chroma_v_exact p3 H3) as [_ R3].
  destruct p0 as [[r0 g0] b0], p1 as [[r1 g1] b1], p2 as [[r2 g2] b2],
    p3 as [[r3 g3] b3].
  unfold rgb_ok in *. unfold quarters4, average4. cbn zeta.
  unfold contrib_v in *.
  set (c0 := 157024 * r0 - 131488 * g0 - 25536 * b0 + 45940035) in *.
  set (c1 := 157024 * r1 - 131488 * g1 - 25536 * b1 + 45940035) in *.
  set (c2 := 157024 * r2 - 131488 * g2 - 25536 * b2 + 45940035) in *.
  set (c3 := 157024 * r3 - 131488 * g3 - 25536 * b3 + 45940035) in *.
  assert (E : c0 / 4 + c1 / 4 + c2 / 4 + c3 / 4 = (c0 + c1 + c2 + c3) / 4 - 3)
    by (subst c0 c1 c2 c3; zlia).
  rewrite E.
  set (S := (c0 + c1 + c2 + c3) / 4) in *.
  assert (HS : 5898912 <= S <= 85981155) by (subst S; zlia).
  clearbody S. clear E.
  rewrite !clamp_small by zlia. zlia.
Qed.

Section ConverterEdges.
Context {C : Type} `{Color C}.
Variable host : Host.

(** X6.  At 4:2:0, on a valid image whose planes the host grants and an
    allocated buffer, the call returns [true] and the V byte of every 2x2
    block is the average of the four contributions (their sum
    divided by 4, then by 357510, clamped) or one less than it. *)
Theorem ConvertFromRasterImage_V_near_average (aData : Image C)
    (b : TheoraYUVbuffer) (c0 : yuv_buffer) (tr : list Event) :
  valid_image aData ->
  grants host aData ->
  fValue b = Some c0 ->
  let w := Dx (Bounds aData) in
  let h := Dy (Bounds aData) in
  let cv x y := contrib_v (nrgb (At aData x y)) in
  exists s',
    ConvertFromRasterImage host YCbCrSubsampleRatio420 aData (mkWorld b tr) =
      Ok true s' /\
    forall bx by_, 0 <= bx -> 0 <= by_ -> 2 * bx < w -> 2 * by_ < h ->
      let x := 2 * bx in let y := 2 * by_ in
      let x1 := edge x w in let y1 := edge y h in
      let avg := average4 357510 (cv x y) (cv x1 y) (cv x y1) (cv x1 y1) in
      let V := fvData (yuv s') !! Z.to_nat (bx + by_ * (padded w / 2)) in
      V = Some avg \/ V = Some (avg - 1).
Proof.
  intros Hvalid Hgrants Hlive w h cv. subst w h cv. cbn beta.
  destruct b as [fv ly lu lv own]. cbn in Hlive. subst fv.
  destruct (convert420_ok aData host Hvalid Hgrants c0 ly lu lv own tr)
    as (r & s' & Hrun & -> & HI).
  exists s'. split; [exact Hrun|].
  intros bx by_ Hbx Hby Hbxw Hbyh. cbn zeta.
  destruct HI as [_ _ _ _ _ _ _ _ HV].
  assert (Hd : done (Dx (Bounds aData)) (Dy (Bounds aData)) 2 (Dy (Bounds aData)) 0
                 (2 * bx) (2 * by_)) by (unfold done; lia).
  specialize (HV _ _ Hd).
  assert (E1 : 2 * bx / 2 = bx) by zlia.
  assert (E2 : 2 * by_ / 2 = by_) by zlia.
  rewrite chroma_index_eq, chroma_v_at_eq, E1, E2, v420_quarters in HV.
  rewrite HV.
  destruct (quarters4_v_near
              (nrgb (At aData (2 * bx) (2 * by_)))
              (nrgb (At aData (edge (2 * bx) (Dx (Bounds aData))) (2 * by_)))
              (nrgb (At aData (2 * bx) (edge (2 * by_) (Dy (Bounds aData)))))
              (nrgb (At aData (edge (2 * bx) (Dx (Bounds aData)))
                       (edge (2 * by_) (Dy (Bounds aData)))))
              (nrgb_ok _) (nrgb_ok _) (nrgb_ok _) (nrgb_ok _)) as [E | E];
    cbn zeta in E; rewrite E; [left | right]; reflexivity.
Qed.

End ConverterEdges.

(** ** An image without pixels *)

Lemma int_mul_0_l (x : Z) : (0 * x)%int = 0.
Proof. reflexivity. Qed.

Lemma int_mul_0_r (x : Z) : (x * 0)%int = 0.
Proof. unfold int_mul. rewrite Z.mul_0_r. reflexivity. Qed.

Lemma C_int_0 : C_int 0 = 0.
Proof. reflexivity. Qed.

Lemma bind_panic {S A B} (m : M S A) (k : A -> M S B) s :
  m s = Panic -> bind m k s = Panic.
Proof. intros E. unfold bind. rewrite E. reflexivity. Qed.

(** [SetYData], [SetUData] and [SetVData] of an empty slice: [Ptr] decides. *)
Lemma set_data_empty host p q s c :
  Ptr_empty host = Some q -> fValue (yuv s) = Some c ->
  (set_slice p [] ;; x <- OGG_Ptr host p ;; assign (set_ptr p x)) s =
  Ok tt (mkWorld (set_fValue (Some (set_ptr p q c)) (set_plane_data p [] (yuv s)))
           (trace s)).
Proof.
  intros EP Hc. unfold bind, set_slice, OGG_Ptr, assign.
  destruct p; cbn [yuv trace plane_data set_plane_data fValue fyData fuData fvData];
    rewrite EP, Hc; reflexivity.
Qed.

Lemma set_data_empty_panics host p s :
  Ptr_empty host = None ->
  (set_slice p [] ;; x <- OGG_Ptr host p ;; assign (set_ptr p x)) s = Panic.
Proof.
  intros EP. unfold bind, set_slice, OGG_Ptr.
  destruct p; cbn [yuv trace plane_data set_plane_data fValue fyData fuData fvData];
    rewrite EP; reflexivity.
Qed.

Section EmptyImage.
Context {C : Type} `{Color C}.
Variable host : Host.

(** The row loops of an image without pixels leave the state as it is. *)
Lemma rows_of_empty (f : YCbCrSubsampleRatio) (aData : Image C) (w h yuv_w : Z) s :
  0 <= h <= max_dim -> w = 0 \/ h = 0 ->
  exists y',
    (if f =? YCbCrSubsampleRatio420 then
       while (S (Z.to_nat h)) (fun y => y <? h) (row420 aData w h yuv_w) 0
     else if f =? YCbCrSubsampleRatio444 then
       while (S (Z.to_nat h)) (fun y => y <? h) (row444 aData w yuv_w) 0
     else
       while (S (Z.to_nat h)) (fun y => y <? h) (row422 aData w yuv_w) 0) s =
    Ok y' s.
Proof.
  intros Hh Hempty.
  assert (Hloop : forall body : Z -> M World Z,
            (w = 0 -> forall y s1, 0 <= y < h ->
               exists y', body y s1 = Ok y' s1 /\ y < y') ->
            exists y',
              while (S (Z.to_nat h)) (fun y => y <? h) body 0 s = Ok y' s).
  { intros body Hbody.
    destruct (wp_while (fun i s1 => 0 <= i /\ s1 = s) h body) with
      (fuel := S (Z.to_nat h)) (i := 0) (s := s) as (y' & s' & Hrun & _ & _ & ->).
    - intros i s1 [Hi ->] Hlt.
      destruct Hempty as [E | E]; [|lia].
      destruct (Hbody E i s ltac:(lia)) as (i' & Hrun & Hi').
      exists i', s. split; [exact Hrun|]. split; [exact Hi'|]. split; [lia | reflexivity].
    - lia.
    - split; [lia | reflexivity].
    - exists y'. exact Hrun. }
  unfold max_dim in Hh.
  destruct (f =? YCbCrSubsampleRatio420); [|destruct (f =? YCbCrSubsampleRatio444)];
    apply Hloop; intros -> y s1 Hy; eexists; (split; [reflexivity|]);
    unfold int_add; rewrite int_small by lia; lia.
Qed.

Ltac step :=
  erewrite (run_bind (S := World)) by reflexivity;
  unfold set_fValue;
  cbn [yuv trace fValue fyData fuData fvData fOwnData set_fValue
       y_width y_height y_stride uv_width uv_height uv_stride c_y c_u c_v].

(** X7.  An image without pixels (width 0 or height 0), at each supported
    format and on an allocated buffer: the three planes are empty slices,
    and what the call does is decided by what googg's [Ptr] does with an
    empty slice.  When [Ptr] panics the call panics; when [Ptr] returns a
    pointer the call returns [true], having read no pixel and written no
    byte, and the three plane pointers of the struct are that pointer. *)
Theorem ConvertFromRasterImage_empty_image
    (f : YCbCrSubsampleRatio) (aData : Image C)
    (b : TheoraYUVbuffer) (c0 : yuv_buffer) (tr : list Event) :
  supported f = true ->
  0 <= Dx (Bounds aData) <= max_dim ->
  0 <= Dy (Bounds aData) <= max_dim ->
  Dx (Bounds aData) = 0 \/ Dy (Bounds aData) = 0 ->
  0 <= maxAlloc host ->
  fValue b = Some c0 ->
  match Ptr_empty host with
  | None => ConvertFromRasterImage host f aData (mkWorld b tr) = Panic
  | Some q =>
      exists s' c,
        ConvertFromRasterImage host f aData (mkWorld b tr) = Ok true s' /\
        trace s' = tr /\
        fyData (yuv s') = [] /\ fuData (yuv s') = [] /\ fvData (yuv s') = [] /\
        fValue (yuv s') = Some c /\ c_y c = q /\ c_u c = q /\ c_v c = q
  end.
Proof.
  intros Hf Hw Hh Hempty Hhost Hlive.
  destruct b as [fv ly lu lv own]. cbn in Hlive. subst fv.
  set (w := Dx (Bounds aData)) in *. set (h := Dy (Bounds aData)) in *.
  assert (HP : padded w = 0 \/ padded h = 0)
    by (destruct Hempty as [-> | ->]; [left | right]; reflexivity).
  unfold ConvertFromRasterImage. rewrite Hf. cbn [negb]. fold w h.
  rewrite !yuv_dim by assumption.
  rewrite !Z.shiftr_div_pow2 by lia. change (2 ^ 1) with 2.
  unfold SetYWidth, SetYHeight, SetYStride, GetYStride, GetYHeight, GetUVWidth,
    SetUVStride, GetUVStride, GetUVHeight, SetYData, SetUData, SetVData.
  do 3 step.
  destruct (f =? YCbCrSubsampleRatio444) eqn:E444; unfold SetUVWidth; step; do 2 step;
    (destruct (f =? YCbCrSubsampleRatio420) eqn:E420; unfold SetUVHeight; step;
     do 2 step;
     do 3 (match goal with
           | |- context [make host ?n] =>
               replace n with 0
                 by (symmetry; destruct HP as [E | E]; rewrite E;
                     change (0 / 2) with 0; rewrite ?C_int_0;
                     first [apply int_mul_0_l | apply int_mul_0_r])
           end;
           rewrite make_granted by lia; step; try (do 2 step));
     change (replicate (Z.to_nat 0) 0) with (@nil Z);
     match goal with
     | |- context [bind (while _ _ _ _) _] => idtac
     end;
     (destruct (Ptr_empty host) as [q|] eqn:EP;
      [ eexists _, _; split;
        [ do 3 (erewrite (run_bind (S := World))
                  by (apply (set_data_empty host _ q); [exact EP | reflexivity]);
                unfold set_fValue;
                cbn [yuv trace fValue fyData fuData fvData fOwnData set_plane_data
                     set_ptr y_width y_height y_stride uv_width uv_height uv_stride
                     c_y c_u c_v]);
          match goal with
          | |- bind _ _ ?s = _ =>
              destruct (rows_of_empty f aData w h (padded w) s Hh Hempty)
                as (y' & Hrows)
          end;
          rewrite E420, ?E444 in Hrows;
          erewrite (run_bind (S := World)) by exact Hrows; reflexivity
        | repeat split ]
      | apply bind_panic, set_data_empty_panics; exact EP ])).
Qed.

End EmptyImage.

(** ** Dimensions beyond the C [int] fields *)

Lemma make_negative {B} host (n : Z) (k : list Z -> M World B) s :
  n < 0 -> bind (make host n) k s = Panic.
Proof.
  intros Hn. unfold bind, make.
  replace (n <? 0) with true by (symmetry; apply Z.ltb_lt; exact Hn). reflexivity.
Qed.

Lemma yuv_dim_wide (v : Z) : 0 <= v <= 4294967280 ->
  Z.land (uint32 (v + 15)%int) (uint32 (Z.lnot 15)) = padded v.
Proof.
  intros Hv. unfold int_add.
  rewrite int_small by lia. rewrite uint32_small by lia.
  unfold padded.
  change (uint32 (Z.lnot 15)) with (Z.land (Z.lnot 15) (Z.ones 32)).
  rewrite (Z.land_comm (Z.lnot 15)), Z.land_assoc.
  rewrite (Z.land_ones (v + 15)) by lia.
  rewrite Z.mod_small by (change (2 ^ 32) with 4294967296; lia).
  reflexivity.
Qed.

Lemma padded_high (v : Z) : max_dim < v <= 4294967280 ->
  2147483648 <= padded v <= 4294967280.
Proof. unfold max_dim. intros Hv. pose proof (padded_bounds v) as [? ?]. zlia. Qed.

Lemma C_int_high (v : Z) : 2147483648 <= v < 4294967296 -> C_int v = v - 4294967296.
Proof.
  intros Hv. unfold C_int, wrapS.
  change (2 ^ (32 - 1)) with 2147483648. change (2 ^ 32) with 4294967296.
  replace (v + 2147483648) with ((v - 2147483648) + 1 * 4294967296) by lia.
  rewrite Z.mod_add by lia. rewrite Z.mod_small by lia. lia.
Qed.

Section TooLarge.
Context {C : Type} `{Color C}.
Variable host : Host.

Ltac step :=
  erewrite run_bind by reflexivity;
  cbn [yuv trace fValue fyData fuData fvData fOwnData set_fValue
       y_width y_height y_stride uv_width uv_height uv_stride c_y c_u c_v].

(** X8.  When the width or the height is above 2^31 - 16 (and at most
    2^32 - 16) while the other is between 1 and 2^31 - 16, the padded value
    does not fit the C [int] field it is stored in and reads back negative,
    and the call panics on the negative length given to [make]: for no such
    size does the call return. *)
Theorem ConvertFromRasterImage_too_large
    (f : YCbCrSubsampleRatio) (aData : Image C)
    (b : TheoraYUVbuffer) (c0 : yuv_buffer) (tr : list Event) :
  supported f = true ->
  fValue b = Some c0 ->
  let w := Dx (Bounds aData) in
  let h := Dy (Bounds aData) in
  (max_dim < w <= 2 ^ 32 - 16 /\ 1 <= h <= max_dim) \/
  (1 <= w <= max_dim /\ max_dim < h <= 2 ^ 32 - 16) ->
  ConvertFromRasterImage host f aData (mkWorld b tr) = Panic.
Proof.
  intros Hf Hlive w h Hdim.
  destruct b as [fv ly lu lv own]. cbn in Hlive. subst fv.
  unfold ConvertFromRasterImage. rewrite Hf. cbn [negb]. fold w h.
  change (2 ^ 32 - 16) with 4294967280 in Hdim.
  assert (Hw : 0 <= w <= 4294967280) by (unfold max_dim in *; lia).
  assert (Hh : 0 <= h <= 4294967280) by (unfold max_dim in *; lia).
  rewrite !yuv_dim_wide by assumption.
  unfold SetYWidth, SetYHeight, SetYStride, GetYStride, GetYHeight, GetUVWidth,
    SetUVStride.
  do 3 step.
  assert (Hneg : (C_int (padded w) * C_int (padded h))%int < 0).
  { unfold int_mul.
    destruct Hdim as [[Hw' Hh'] | [Hw' Hh']].
    - pose proof (padded_high w ltac:(lia)) as HW.
      pose proof (padded_le h ltac:(lia)) as [HH _]. unfold max_dim in *.
      rewrite (C_int_high (padded w)) by lia. rewrite (C_int_small (padded h)) by lia.
      rewrite int_small by nia. nia.
    - pose proof (padded_high h ltac:(lia)) as HH.
      pose proof (padded_le w ltac:(lia)) as [HW _]. unfold max_dim in *.
      rewrite (C_int_high (padded h)) by lia. rewrite (C_int_small (padded w)) by lia.
      rewrite int_small by nia. nia. }
  destruct (f =? YCbCrSubsampleRatio444); unfold SetUVWidth; step; do 2 step;
    (destruct (f =? YCbCrSubsampleRatio420); unfold SetUVHeight; step; do 2 step;
     apply make_negative; exact Hneg).
Qed.

End TooLarge.

(** X9.  After the conversion of a valid image whose planes the host grants,
    [Done] frees the C struct and, before it and only
    when OwnData is set, the three plane pointers, which the conversion took
    from the Go slices.  The conversion leaves OwnData as it found it, so on
    a buffer as [NewTheoraYUVbuffer] returns it only the struct is freed.
    The slices outlive [Done]: [GetYData], [GetUData] and [GetVData] still
    return the converted planes. *)
Theorem ConvertFromRasterImage_then_Done {C} `{Color C} (host : Host)
    (f : YCbCrSubsampleRatio) (aData : Image C)
    (b : TheoraYUVbuffer) (c0 : yuv_buffer) (tr : list Event) :
  supported f = true ->
  valid_image aData ->
  grants host aData ->
  fValue b = Some c0 ->
  exists s1 s2,
    ConvertFromRasterImage host f aData (mkWorld b tr) = Ok true s1 /\
    fOwnData (yuv s1) = fOwnData b /\
    Done s1 =
      Ok ((if fOwnData b
           then [FreePlane (PtrTo PlaneY); FreePlane (PtrTo PlaneU);
                 FreePlane (PtrTo PlaneV)]
           else []) ++ [FreeStruct]) s2 /\
    fValue (yuv s2) = None /\
    GetYData s2 = Ok (fyData (yuv s1)) s2 /\
    GetUData s2 = Ok (fuData (yuv s1)) s2 /\
    GetVData s2 = Ok (fvData (yuv s1)) s2.
Proof.
  intros Hf Hvalid Hgrants Hlive.
  destruct (convert_clean host f aData b c0 tr Hf Hvalid Hgrants Hlive)
    as (s1 & Hrun & HI & _).
  destruct HI as [HfV Hown _ _ _ _ _ _ _].
  destruct s1 as [[fv ly lu lv ow] tr1].
  cbn [yuv fValue fOwnData fyData fuData fvData] in *. subst fv ow.
  eexists _, (released ly lu lv (fOwnData b) tr1).
  split; [exact Hrun|]. split; [reflexivity|].
  split; [|repeat split; reflexivity].
  unfold Done, released, set_fValue.
  cbn [yuv fValue fOwnData fyData fuData fvData sized c_y c_u c_v free_plane trace].
  destruct (fOwnData b); reflexivity.
Qed.


(** ** The buffer's accessors and its release *)

(** X10.  On an allocated buffer each of the six dimension setters stores its
    argument truncated to a 32-bit C [int] and leaves the five other
    dimensions, the plane pointers, the slices and OwnData as they were:
    reading the six dimensions after the call gives the old values with the
    one set replaced by [C_int n], which is [n] exactly when
    -2^31 <= n < 2^31.  On a released buffer the setters and the getters
    panic. *)
Theorem TheoraYUVbuffer_dimension_round_trip (c : yuv_buffer)
    (ly lu lv : list Z) (own : bool) (tr : list Event) (n : Z) :
  let s := mkWorld (mkTheoraYUVbuffer (Some c) ly lu lv own) tr in
  let d := [y_width c; y_height c; y_stride c; uv_width c; uv_height c; uv_stride c] in
  Forall (fun iset : nat * (Z -> M World unit) =>
            exists c',
              (snd iset n ;; dimensions) s =
                Ok (<[fst iset := C_int n]> d)
                   (mkWorld (mkTheoraYUVbuffer (Some c') ly lu lv own) tr) /\
              c_y c' = c_y c /\ c_u c' = c_u c /\ c_v c' = c_v c /\
              snd iset n (released ly lu lv own tr) = Panic)
    [(0%nat, SetYWidth); (1%nat, SetYHeight); (2%nat, SetYStride);
     (3%nat, SetUVWidth); (4%nat, SetUVHeight); (5%nat, SetUVStride)] /\
  dimensions s = Ok d s /\
  Forall (fun get : M World Z => get (released ly lu lv own tr) = Panic)
    [GetYWidth; GetYHeight; GetYStride; GetUVWidth; GetUVHeight; GetUVStride] /\
  (C_int n = n <-> - 2 ^ 31 <= n < 2 ^ 31).
Proof.
  intros s d. split; [|split; [reflexivity | split]].
  - repeat constructor; cbn [fst snd]; eexists; (split; [reflexivity|]);
      repeat split; reflexivity.
  - repeat constructor.
  - apply C_int_fixed.
Qed.

(** X11.  [Done] on an allocated buffer frees the plane pointers that are not
    nil, when OwnData is set, and then the struct, each once, and sets the
    struct pointer to nil; a second [Done] frees nothing and changes
    nothing.  On the released buffer the slice getters and [GetOwnData]
    still answer, the slice setters panic, and [ConvertFromRasterImage]
    panics for a supported format and returns [false] for any other, on
    every host. *)
Theorem TheoraYUVbuffer_Done_once {C} `{Color C} (host : Host) (c : yuv_buffer)
    (ly lu lv : list Z) (own : bool) (tr : list Event)
    (f : YCbCrSubsampleRatio) (aData : Image C) (value : list Z) :
  let s := mkWorld (mkTheoraYUVbuffer (Some c) ly lu lv own) tr in
  let s1 := released ly lu lv own tr in
  let planes := if own
                then free_plane (c_y c) ++ free_plane (c_u c) ++ free_plane (c_v c)
                else [] in
  Done s = Ok (planes ++ [FreeStruct]) s1 /\
  ~ In (FreePlane NULL) planes /\
  ~ In FreeStruct planes /\
  Done s1 = Ok [] s1 /\
  (Done ;; Done) s = Ok [] s1 /\
  Done fresh = Ok [FreeStruct] (released [] [] [] false []) /\
  GetYData s1 = Ok ly s1 /\ GetUData s1 = Ok lu s1 /\ GetVData s1 = Ok lv s1 /\
  GetOwnData s1 = Ok own s1 /\
  Forall (fun set : list Z -> M World unit => set value s1 = Panic)
    [SetYData host; SetUData host; SetVData host] /\
  ConvertFromRasterImage host f aData s1 =
    (if supported f then Panic else Ok false s1).
Proof.
  intros s s1 planes.
  split; [reflexivity|].
  split; [|split; [|split; [reflexivity|split; [reflexivity|split; [reflexivity|]]]]].
  - subst planes. destruct own; [|intros []].
    destruct (c_y c), (c_u c), (c_v c); cbn; intuition discriminate.
  - subst planes. destruct own; [|intros []].
    destruct (c_y c), (c_u c), (c_v c); cbn; intuition discriminate.
  - repeat split; try reflexivity.
    + assert (Hset : forall p, (set_slice p value ;; q <- OGG_Ptr host p ;;
                                assign (set_ptr p q)) s1 = Panic).
      { intros p. unfold bind, set_slice, OGG_Ptr, assign.
        destruct p, value; cbn; try reflexivity; destruct (Ptr_empty host); reflexivity. }
      repeat constructor; apply Hset.
    + unfold ConvertFromRasterImage. destruct (supported f); reflexivity.
Qed.

(** ** The encoder session: frames, closing *)

Lemma run_YUVin env fo pk cl :
  YUVin env (mkState (mkTheoraEncoder (Some tt) fo) pk cl) =
  let log := cl ++ [theora_encode_YUVin] in
  let R := engine env log in
  Ok (if R =? 0 then None
      else if R =? -1 then Some ETheoraEncDifferException
      else if R =? OC_EINVAL then Some ETheoraEncNotReadyException
      else Some (errTheoraException R))
     (mkState (mkTheoraEncoder (Some tt) fo) pk log).
Proof.
  unfold YUVin, bind, deref_fState, call_engine. cbn.
  destruct (_ =? 0); [reflexivity|].
  destruct (_ =? -1); [reflexivity|].
  destruct (_ =? OC_EINVAL); reflexivity.
Qed.

Lemma run_PacketOut_eq env fo pk cl (last_p : bool) op :
  PacketOut env last_p op (mkState (mkTheoraEncoder (Some tt) fo) pk cl) =
  let log := cl ++ [theora_encode_packetout (if last_p then 1 else 0)] in
  let R := engine env log in
  if R =? 1
  then Ok None (mkState (mkTheoraEncoder (Some tt) fo) (<[op := Some Data]> pk) log)
  else Ok (if R =? -1 then Some ETheoraEncCompletedException
           else if R =? 0 then Some ETheoraEncNotReadyException
           else Some (errTheoraException R))
          (mkState (mkTheoraEncoder (Some tt) fo) pk log).
Proof.
  unfold PacketOut, bind, deref_fState, call_engine. cbn.
  destruct (_ =? 1); [reflexivity|].
  destruct (_ =? -1); [reflexivity|].
  destruct (_ =? 0); reflexivity.
Qed.

(** X12.  On a session whose [fState] is set, [YUVin] makes exactly one
    [theora_encode_YUVin] call, changes nothing else, and maps the status:
    nil exactly for 0, [ETheoraEncDifferException] exactly for -1,
    [ETheoraEncNotReadyException] exactly for [OC_EINVAL], and
    [errTheoraException] carrying the status exactly for any other value.
    With a nil [fState] it panics. *)
Theorem YUVin_outcome (env : Environment) (fo : option unit)
    (pk : list (option PacketKind)) (cl : list Call) :
  let R := engine env (cl ++ [theora_encode_YUVin]) in
  (exists r,
     YUVin env (mkState (mkTheoraEncoder (Some tt) fo) pk cl) =
       Ok r (mkState (mkTheoraEncoder (Some tt) fo) pk (cl ++ [theora_encode_YUVin])) /\
     (r = None <-> R = 0) /\
     (r = Some ETheoraEncDifferException <-> R = -1) /\
     (r = Some ETheoraEncNotReadyException <-> R = OC_EINVAL) /\
     (forall k, r = Some (errTheoraException k) <->
        k = R /\ R <> 0 /\ R <> -1 /\ R <> OC_EINVAL)) /\
  YUVin env (mkState (mkTheoraEncoder None fo) pk cl) = Panic.
Proof.
  intros R. split; [|reflexivity].
  rewrite run_YUVin. cbn zeta. fold R. eexists. split; [reflexivity|].
  unfold OC_EINVAL.
  destruct (R =? 0) eqn:E0; [apply Z.eqb_eq in E0 | apply Z.eqb_neq in E0];
    [|destruct (R =? -1) eqn:E1; [apply Z.eqb_eq in E1 | apply Z.eqb_neq in E1];
      [|destruct (R =? -10) eqn:E2; [apply Z.eqb_eq in E2 | apply Z.eqb_neq in E2]]];
    repeat split; intros;
    repeat match goal with H : _ /\ _ |- _ => destruct H end;
    try discriminate; try lia; try congruence.
Qed.

Lemma YUVin_error (R : Z) :
  (R =? 0) = false ->
  exists e, (if R =? 0 then None
             else if R =? -1 then Some ETheoraEncDifferException
             else if R =? OC_EINVAL then Some ETheoraEncNotReadyException
             else Some (errTheoraException R)) = Some e.
Proof.
  intros ->. destruct (R =? -1); [|destruct (R =? OC_EINVAL)]; eexists; reflexivity.
Qed.

Lemma PacketOut_error (R : Z) :
  exists e, (if R =? -1 then Some ETheoraEncCompletedException
             else if R =? 0 then Some ETheoraEncNotReadyException
             else Some (errTheoraException R)) = Some e.
Proof. destruct (R =? -1); [|destruct (R =? 0)]; eexists; reflexivity. Qed.

Ltac finish_frame cl :=
  match goal with
  | |- exists r s' new, Ok ?r0 (mkState ?e0 ?pk0 ?cl0) = Ok r s' /\ _ =>
      let t := tail_of cl cl0 in
      let new0 := eval cbn [app] in t in
      exists r0, (mkState e0 pk0 cl0), new0;
      split; [reflexivity|];
      split; [cbn [calls]; rewrite <- ?app_assoc; reflexivity|];
      split; [reflexivity|];
      split; [cbn [stops_at_first_failure failed negb andb];
              norm_logs; use_responses; reflexivity|];
      split; [cbn; eexists; reflexivity|]
  end.

(** X13.  On every configured session, whatever the engine and the transport
    answer, [SaveYUVBufferToStream] returns; the calls it makes are a prefix
    of: frame submission, new packet, packet request (with [last_p] = 1
    exactly when [is_last]), save of the data packet; they stop at the first
    one that fails; it returns nil exactly when all four were made and the
    save succeeded, and then the packet it allocated holds the data packet;
    when it returns an error the last call made is the one that failed. *)
Theorem SaveYUVBufferToStream_order (env : Environment)
    (pk : list (option PacketKind)) (cl : list Call) (is_last : bool) :
  let s := session pk cl in
  exists r s' new,
    SaveYUVBufferToStream env is_last s = Ok r s' /\
    calls s' = cl ++ new /\
    enc s' = enc s /\
    stops_at_first_failure env cl new = true /\
    (exists rest, new ++ rest = frame_script is_last) /\
    (r = None <->
       new = frame_script is_last /\
       transport env (cl ++ frame_script is_last) = None) /\
    (r = None -> packets s' = pk ++ [Some Data]) /\
    (r <> None ->
       exists pre c, new = pre ++ [c] /\ failed env (cl ++ pre) c = true).
Proof.
  intros s. subst s. unfold session.
  unfold SaveYUVBufferToStream. rewrite try_run, run_YUVin. cbn zeta.
  destruct (engine env (cl ++ [theora_encode_YUVin]) =? 0) eqn:E0.
  2:{ destruct (YUVin_error _ E0) as [e He]. rewrite E0 in He. rewrite He.
      finish_frame cl.
      split; [split; [discriminate | intros [? _]; discriminate]|].
      split; [discriminate|].
      intros _. exists [], theora_encode_YUVin. split; [reflexivity|].
      cbn [failed]. rewrite app_nil_r, E0. reflexivity. }
  unfold bind at 1. unfold DoPacketOut. unfold bind at 1.
  fold (session pk (cl ++ [theora_encode_YUVin])).
  rewrite run_NewPacket. cbn [fst snd].
  destruct (transport env ((cl ++ [theora_encode_YUVin]) ++ [OGG_NewPacket])) eqn:E1.
  { unfold ret at 1. rewrite try_run. unfold ret at 1. unfold session. cbn [fst snd].
    finish_frame cl.
    split; [split; [discriminate | intros [? _]; discriminate]|].
    split; [discriminate|].
    intros _. exists [theora_encode_YUVin], OGG_NewPacket. split; [reflexivity|].
    cbn [failed]. rewrite E1. reflexivity. }
  unfold bind at 1. unfold session. rewrite run_PacketOut_eq. cbn zeta.
  destruct (engine env (((cl ++ [theora_encode_YUVin]) ++ [OGG_NewPacket]) ++
              [theora_encode_packetout (if is_last then 1 else 0)]) =? 1) eqn:E2.
  2:{ destruct (PacketOut_error
                  (engine env (((cl ++ [theora_encode_YUVin]) ++ [OGG_NewPacket]) ++
                     [theora_encode_packetout (if is_last then 1 else 0)])))
        as [e He]. rewrite He.
      unfold ret at 1. cbn [fst snd]. rewrite try_run. unfold ret at 1.
      finish_frame cl.
      split; [split; [discriminate | intros [? _]; discriminate]|].
      split; [discriminate|].
      intros _. exists [theora_encode_YUVin; OGG_NewPacket],
        (theora_encode_packetout (if is_last then 1 else 0)).
      split; [reflexivity|].
      cbn [failed]. norm_logs. rewrite E2. reflexivity. }
  unfold ret at 1. cbn [fst snd]. rewrite try_run. unfold ret at 1.
  rewrite try_run. rewrite insert_snoc.
  fold (session (pk ++ [Some Data])
          (((cl ++ [theora_encode_YUVin]) ++ [OGG_NewPacket]) ++
           [theora_encode_packetout (if is_last then 1 else 0)])).
  rewrite run_SavePacketToStream, lookup_snoc. cbn zeta. cbn [mjoin option_join].
  unfold session.
  match goal with
  | |- context [match transport ?e ?l with _ => _ end] => destruct (transport e l) eqn:E3
  end.
  - finish_frame cl.
    split; [split; [discriminate|]|].
    { intros [_ Hnone]. unfold frame_script in Hnone. norm_logs. congruence. }
    split; [discriminate|].
    intros _. exists [theora_encode_YUVin; OGG_NewPacket;
                      theora_encode_packetout (if is_last then 1 else 0)],
      (SavePacketToStream (Some Data)).
    split; [reflexivity|].
    cbn [failed]. norm_logs. rewrite E3. reflexivity.
  - unfold ret. finish_frame cl.
    split; [split; [intros _; split; [reflexivity|] | reflexivity]|].
    { unfold frame_script. norm_logs. exact E3. }
    split; [reflexivity|].
    intros Hne. contradiction.
Qed.

(** X14.  On a session whose stream is set, [Flush] makes one
    [PagesFlushToStream] call and returns its result.  [Close] flushes
    first: when the flush fails it returns that error and leaves the session
    as it was, the stream not released, so that [Close] can be called again;
    when the flush succeeds it releases the stream once, after the flush,
    sets [foggs] to nil and returns nil.  [fState] is not touched.  [Flush]
    with a nil stream panics. *)
Theorem Close_flushes_then_releases (env : Environment) (st : option unit)
    (pk : list (option PacketKind)) (cl : list Call) :
  let s := mkState (mkTheoraEncoder st (Some tt)) pk cl in
  let flushed := cl ++ [PagesFlushToStream] in
  Flush env s = Ok (transport env flushed) (mkState (enc s) pk flushed) /\
  Close env s =
    match transport env flushed with
    | Some e => Ok (Some e) (mkState (enc s) pk flushed)
    | None => Ok None (mkState (mkTheoraEncoder st None) pk (flushed ++ [StreamDone]))
    end /\
  Flush env (mkState (mkTheoraEncoder st None) pk cl) = Panic.
Proof.
  intros s flushed. split; [reflexivity|]. split; [|reflexivity].
  unfold Close. rewrite try_run.
  unfold Flush, bind, deref_foggs, call_transport. cbn. fold flushed.
  destruct (transport env flushed); reflexivity.
Qed.

(** X15.  After a [Close] that returned nil, neither
    [SaveCustomHeadersToStream] nor [SaveYUVBufferToStream] ever returns
    nil: each returns the error of the first call that fails, or panics on
    the nil stream, which happens exactly when every call before its first
    stream call succeeded; for a frame that is after the encoder accepted
    the frame and produced its packet. *)
Theorem saving_after_Close (env : Environment) (tc : TheoraComment)
    (pk : list (option PacketKind)) (cl : list Call) (is_last : bool) :
  let s := closed_session pk cl in
  let lp := if is_last then 1 else 0 in
  (forall s', SaveCustomHeadersToStream env tc s <> Ok None s') /\
  (SaveCustomHeadersToStream env tc s = Panic <->
     transport env (cl ++ [OGG_NewPacket]) = None /\
     engine env (cl ++ [OGG_NewPacket; theora_encode_header]) = 0) /\
  (forall s', SaveYUVBufferToStream env is_last s <> Ok None s') /\
  (SaveYUVBufferToStream env is_last s = Panic <->
     engine env (cl ++ [theora_encode_YUVin]) = 0 /\
     transport env (cl ++ [theora_encode_YUVin; OGG_NewPacket]) = None /\
     engine env (cl ++ [theora_encode_YUVin; OGG_NewPacket;
                        theora_encode_packetout lp]) = 1).
Proof.
  intros s lp. subst s. unfold closed_session.
  assert (HH : SaveCustomHeadersToStream env tc
                 (mkState (mkTheoraEncoder (Some tt) None) pk cl) =
          match transport env (cl ++ [OGG_NewPacket]) with
          | Some e => Ok (Some e) (mkState (mkTheoraEncoder (Some tt) None)
                                     (pk ++ [None]) (cl ++ [OGG_NewPacket]))
          | None =>
              if engine env (cl ++ [OGG_NewPacket; theora_encode_header]) =? 0
              then Panic
              else Ok (Some (errTheoraException
                               (engine env (cl ++ [OGG_NewPacket; theora_encode_header]))))
                      (mkState (mkTheoraEncoder (Some tt) None) (pk ++ [None])
                         (cl ++ [OGG_NewPacket; theora_encode_header]))
          end).
  { replace (cl ++ [OGG_NewPacket; theora_encode_header])
      with ((cl ++ [OGG_NewPacket]) ++ [theora_encode_header])
      by (rewrite <- app_assoc; reflexivity).
    unfold SaveCustomHeadersToStream, NewPacket, try, Header, stream_SavePacketToStream,
      bind, ret, call_transport, call_engine, deref_fState, deref_foggs, fill.
    cbn.
    destruct (transport env (cl ++ [OGG_NewPacket])); cbn; [reflexivity|].
    destruct (engine env ((cl ++ [OGG_NewPacket]) ++ [theora_encode_header]) =? 0);
      cbn; reflexivity. }
  assert (HF : SaveYUVBufferToStream env is_last
                 (mkState (mkTheoraEncoder (Some tt) None) pk cl) =
          let R := engine env (cl ++ [theora_encode_YUVin]) in
          if R =? 0 then
            match transport env (cl ++ [theora_encode_YUVin; OGG_NewPacket]) with
            | Some e => Ok (Some e) (mkState (mkTheoraEncoder (Some tt) None)
                                       (pk ++ [None])
                                       (cl ++ [theora_encode_YUVin; OGG_NewPacket]))
            | None =>
                let R2 := engine env (cl ++ [theora_encode_YUVin; OGG_NewPacket;
                                             theora_encode_packetout lp]) in
                if R2 =? 1 then Panic
                else Ok (if R2 =? -1 then Some ETheoraEncCompletedException
                         else if R2 =? 0 then Some ETheoraEncNotReadyException
                         else Some (errTheoraException R2))
                        (mkState (mkTheoraEncoder (Some tt) None) (pk ++ [None])
                           (cl ++ [theora_encode_YUVin; OGG_NewPacket;
                                   theora_encode_packetout lp]))
            end
          else Ok (if R =? -1 then Some ETheoraEncDifferException
                   else if R =? OC_EINVAL then Some ETheoraEncNotReadyException
                   else Some (errTheoraException R))
                  (mkState (mkTheoraEncoder (Some tt) None) pk
                     (cl ++ [theora_encode_YUVin]))).
  { replace (cl ++ [theora_encode_YUVin; OGG_NewPacket; theora_encode_packetout lp])
      with (((cl ++ [theora_encode_YUVin]) ++ [OGG_NewPacket]) ++
            [theora_encode_packetout lp])
      by (rewrite <- !app_assoc; reflexivity).
    replace (cl ++ [theora_encode_YUVin; OGG_NewPacket])
      with ((cl ++ [theora_encode_YUVin]) ++ [OGG_NewPacket])
      by (rewrite <- app_assoc; reflexivity).
    unfold SaveYUVBufferToStream. rewrite try_run, run_YUVin. cbn zeta.
    destruct (engine env (cl ++ [theora_encode_YUVin]) =? 0) eqn:E0.
    2:{ destruct (YUVin_error _ E0) as [e He]. rewrite E0 in He.
        rewrite He. reflexivity. }
    unfold bind at 1. unfold DoPacketOut. unfold bind at 1.
    unfold NewPacket, bind at 1 2, call_transport. cbn [calls enc packets fst snd].
    destruct (transport env ((cl ++ [theora_encode_YUVin]) ++ [OGG_NewPacket])).
    { unfold ret at 1. cbn [fst snd]. rewrite try_run. reflexivity. }
    rewrite run_PacketOut_eq. cbn zeta. fold lp.
    destruct (engine env (((cl ++ [theora_encode_YUVin]) ++ [OGG_NewPacket]) ++
                          [theora_encode_packetout lp]) =? 1) eqn:E2.
    - unfold ret at 1. cbn [fst snd]. rewrite try_run. unfold ret at 1.
      rewrite try_run. reflexivity.
    - destruct (PacketOut_error
                  (engine env (((cl ++ [theora_encode_YUVin]) ++ [OGG_NewPacket]) ++
                               [theora_encode_packetout lp]))) as [e He].
      rewrite He. unfold ret at 1. cbn [fst snd]. rewrite try_run. reflexivity. }
  rewrite HH, HF. cbn zeta. clear HH HF.
  split; [|split; [|split]].
  - intros s' Heq. destruct (transport env _); [discriminate Heq|].
    destruct (_ =? 0); discriminate Heq.
  - destruct (transport env _);
      [split; [intros Heq; discriminate Heq | intros [Heq _]; discriminate Heq]|].
    destruct (_ =? 0) eqn:E; [apply Z.eqb_eq in E | apply Z.eqb_neq in E].
    + tauto.
    + split; [intros Heq; discriminate Heq | intros [_ ?]; contradiction].
  - intros s' Heq. destruct (_ =? 0).
    + destruct (transport env _); [discriminate Heq|].
      destruct (_ =? 1); [discriminate Heq|].
      destruct (_ =? -1); [discriminate Heq|]. destruct (_ =? 0); discriminate Heq.
    + destruct (_ =? -1); [discriminate Heq|].
      destruct (_ =? OC_EINVAL); discriminate Heq.
  - destruct (engine env (cl ++ [theora_encode_YUVin]) =? 0) eqn:E0;
      [apply Z.eqb_eq in E0 | apply Z.eqb_neq in E0].
    + destruct (transport env _);
        [split; [intros Heq; discriminate Heq
                | intros (_ & Heq & _); discriminate Heq]|].
      destruct (_ =? 1) eqn:E2; [apply Z.eqb_eq in E2 | apply Z.eqb_neq in E2].
      * tauto.
      * split; [intros Heq; discriminate Heq | intros (_ & _ & ?); contradiction].
    + split; [intros Heq; discriminate Heq | intros (? & _); contradiction].
Qed.

(** X16.  On a session whose [fState] is set, each of [Header], [Comment],
    [Tables], [PacketOut] and [YUVin] returns after exactly one engine call;
    an [errTheoraException] it returns carries that call's status, which is
    never 0, so none of them returns the exported [ETheoraException];
    [Header], [Comment] and [Tables] return nil exactly when the status
    is 0. *)
Theorem ETheoraException_never_returned (env : Environment) (fo : option unit)
    (pk : list (option PacketKind)) (cl : list Call)
    (tc : TheoraComment) (op : nat) (last_p : bool) :
  let s := mkState (mkTheoraEncoder (Some tt) fo) pk cl in
  Forall (fun m : M State (option error) =>
            exists r s' c,
              m s = Ok r s' /\
              calls s' = cl ++ [c] /\
              r <> Some ETheoraException /\
              (forall k, r = Some (errTheoraException k) ->
                 k = engine env (cl ++ [c]) /\ k <> 0) /\
              (produces_header c = true -> (r = None <-> engine env (cl ++ [c]) = 0)))
    [Header env op; Comment env tc op; Tables env op;
     PacketOut env last_p op; YUVin env].
Proof.
  intros s. subst s. unfold ETheoraException.
  repeat constructor.
  - fold (session pk cl). destruct fo as [[]|].
    + rewrite run_Header. cbn zeta.
      destruct (_ =? 0) eqn:E; [apply Z.eqb_eq in E | apply Z.eqb_neq in E];
        eexists _, _, _; (split; [reflexivity|]); (split; [reflexivity|]);
        repeat split; intros; try discriminate; try congruence.
    + unfold Header, bind, deref_fState, call_engine. cbn.
      destruct (_ =? 0) eqn:E; [apply Z.eqb_eq in E | apply Z.eqb_neq in E];
        eexists _, _, _; (split; [reflexivity|]); (split; [reflexivity|]);
        repeat split; intros; try discriminate; try congruence.
  - unfold Comment, bind, call_engine. cbn.
    destruct (_ =? 0) eqn:E; [apply Z.eqb_eq in E | apply Z.eqb_neq in E];
      eexists _, _, _; (split; [reflexivity|]); (split; [reflexivity|]);
      repeat split; intros; try discriminate; try congruence.
  - unfold Tables, bind, deref_fState, call_engine. cbn.
    destruct (_ =? 0) eqn:E; [apply Z.eqb_eq in E | apply Z.eqb_neq in E];
      eexists _, _, _; (split; [reflexivity|]); (split; [reflexivity|]);
      repeat split; intros; try discriminate; try congruence.
  - rewrite run_PacketOut_eq. cbn zeta.
    destruct (_ =? 1) eqn:E1; [apply Z.eqb_eq in E1 | apply Z.eqb_neq in E1];
      [|destruct (_ =? -1) eqn:E2; [apply Z.eqb_eq in E2 | apply Z.eqb_neq in E2];
        [|destruct (_ =? 0) eqn:E3; [apply Z.eqb_eq in E3 | apply Z.eqb_neq in E3]]];
      eexists _, _, _; (split; [reflexivity|]); (split; [reflexivity|]);
      repeat split; intros; try discriminate; try congruence.
  - rewrite run_YUVin. cbn zeta. unfold OC_EINVAL.
    destruct (_ =? 0) eqn:E1; [apply Z.eqb_eq in E1 | apply Z.eqb_neq in E1];
      [|destruct (_ =? -1) eqn:E2; [apply Z.eqb_eq in E2 | apply Z.eqb_neq in E2];
        [|destruct (_ =? -10) eqn:E3; [apply Z.eqb_eq in E3 | apply Z.eqb_neq in E3]]];
      eexists _, _, _; (split; [reflexivity|]); (split; [reflexivity|]);
      repeat split; intros; try discriminate; try congruence.
Qed.

(** ** Stream parameters: the numeric fields and the pixel format *)

Section InfoExtras.
Import Info.

(** X17.  On an allocated [TheoraInfo], each setter of a field that libtheora
    declares unsigned (the sizes, the offsets, the frame rate, the aspect,
    the keyframe frequencies, distance and bitrate) followed by its getter
    reads back the argument modulo 2^32, and each setter of a signed field
    (quality, target bitrate, keyframe threshold, noise sensitivity,
    sharpness) reads back the argument wrapped to 32 bits: what is read is
    what was given exactly when it is in the field's range, and -1 given to
    an unsigned field reads 4294967295.  After [Done] every one of these
    setters and getters panics. *)
Theorem TheoraInfo_numeric_round_trip (c : theora_info) (n : Z) :
  Forall (reads_back uint32 n c)
    [(SetAspectDenominator, GetAspectDenominator);
     (SetAspectNumerator, GetAspectNumerator);
     (SetFPSDenominator, GetFPSDenominator);
     (SetFPSNumerator, GetFPSNumerator);
     (SetFrameHeight, GetFrameHeight);
     (SetFrameWidth, GetFrameWidth);
     (SetHeight, GetHeight);
     (SetKeyframeDataTargetBitrate, GetKeyframeDataTargetBitrate);
     (SetKeyframeFrequency, GetKeyframeFrequency);
     (SetKeyframeFrequencyForce, GetKeyframeFrequencyForce);
     (SetKeyframeMindistance, GetKeyframeMindistance);
     (SetOffsetX, GetOffsetX);
     (SetOffsetY, GetOffsetY);
     (SetWidth, GetWidth)] /\
  Forall (reads_back C_int n c)
    [(SetKeyframeAutoThreshold, GetKeyframeAutoThreshold);
     (SetNoiseSensitivity, GetNoiseSensitivity);
     (SetQuality, GetQuality);
     (SetSharpness, GetSharpness);
     (SetTargetBitrate, GetTargetBitrate)] /\
  (uint32 n = n <-> 0 <= n < 2 ^ 32) /\
  (C_int n = n <-> - 2 ^ 31 <= n < 2 ^ 31) /\
  uint32 (-1) = 2 ^ 32 - 1 /\
  C_int (2 ^ 31) = - 2 ^ 31.
Proof.
  split; [|split; [|split; [|split; [|split]]]].
  - repeat constructor; unfold reads_back; cbn [fst snd];
      eexists; (split; [reflexivity|]); (split; [|split; reflexivity]);
      cbn; rewrite int_uint32; reflexivity.
  - repeat constructor; unfold reads_back; cbn [fst snd];
      eexists; (split; [reflexivity|]); (split; [|split; reflexivity]);
      cbn; rewrite int_C_int; reflexivity.
  - apply uint32_fixed.
  - apply C_int_fixed.
  - reflexivity.
  - reflexivity.
Qed.

(** X18.  [SetPixelFormat] stores [OC_PF_420], [OC_PF_422] or [OC_PF_444] for
    the three formats [ConvertFromRasterImage] supports, and
    [GetPixelFormat] then returns the format set; for any other format it
    does nothing at all, not even on a released [TheoraInfo], so the pixel
    format set before stays.  [GetPixelFormat] answers 4:2:0, 4:2:2, 4:4:4
    for the stored values 0, 2, 3 and 4:1:0 for every other, so 4:2:0 on a
    [TheoraInfo] as [NewTheoraInfo] returns it; after [Done] it panics. *)
Theorem SetPixelFormat_round_trip (c : theora_info) (f : YCbCrSubsampleRatio) :
  (if supported f
   then SetPixelFormat f (live c) = Some (live (set_pixelformat (pixelformat_of f) c)) /\
        GetPixelFormat (live (set_pixelformat (pixelformat_of f) c)) = Some f /\
        SetPixelFormat f (Done (live c)) = None
   else forall v, SetPixelFormat f v = Some v) /\
  GetPixelFormat (live c) =
    Some (if pixelformat c =? OC_PF_420 then YCbCrSubsampleRatio420
          else if pixelformat c =? OC_PF_422 then YCbCrSubsampleRatio422
          else if pixelformat c =? OC_PF_444 then YCbCrSubsampleRatio444
          else YCbCrSubsampleRatio410) /\
  GetPixelFormat NewTheoraInfo = Some YCbCrSubsampleRatio420 /\
  GetPixelFormat (Done (live c)) = None.
Proof.
  split; [|split; [|split; reflexivity]].
  - destruct (supported f) eqn:Hf.
    + destruct (supported_cases f Hf) as [-> | [-> | ->]]; repeat split; reflexivity.
    + intros v. unfold supported in Hf.
      apply orb_false_iff in Hf as [Hf H420]. apply orb_false_iff in Hf as [H444 H422].
      unfold SetPixelFormat. rewrite H420, H422, H444. reflexivity.
  - unfold GetPixelFormat, OC_PF_420, OC_PF_422, OC_PF_444. cbn.
    destruct (pixelformat c =? 0); [reflexivity|].
    destruct (pixelformat c =? 2); [reflexivity|].
    destruct (pixelformat c =? 3); reflexivity.
Qed.

End InfoExtras.

(** ** The decoder *)

(** X19.  On a decoder as [NewTheoraDecoder] returns it, [PacketIn], [Header]
    and [YUVout] each make exactly one libtheora call and map its status:
    [PacketIn] returns nil exactly for 0, [ETheoraDecBadPacketException]
    exactly for [OC_BADPACKET] and [errTheoraException] with the status
    otherwise; [Header] and [YUVout] return nil exactly for 0 and
    [errTheoraException] with the status otherwise.  With a nil [fState] all
    three panic, and [Header] panics when the state holds no info. *)
Theorem decoder_outcomes (engine : list Dec.Call -> Z) (cl : list Dec.Call) :
  let d := Dec.mkTheoraDecoder (Some (Dec.mkTheoraState (Some tt))) in
  let s := Dec.mkState d cl in
  (let R := engine (cl ++ [Dec.theora_decode_packetin]) in
   exists r,
     Dec.PacketIn engine s =
       Ok r (Dec.mkState d (cl ++ [Dec.theora_decode_packetin])) /\
     (r = None <-> R = 0) /\
     (r = Some Dec.ETheoraDecBadPacketException <-> R = Dec.OC_BADPACKET) /\
     (forall k, r = Some (Dec.errTheoraException k) <->
        k = R /\ R <> 0 /\ R <> Dec.OC_BADPACKET)) /\
  (let R := engine (cl ++ [Dec.theora_decode_header]) in
   exists r,
     Dec.Header engine s =
       Ok r (Dec.mkState d (cl ++ [Dec.theora_decode_header])) /\
     (r = None <-> R = 0) /\
     (forall k, r = Some (Dec.errTheoraException k) <-> k = R /\ R <> 0) /\
     r <> Some Dec.ETheoraDecBadPacketException) /\
  (let R := engine (cl ++ [Dec.theora_decode_YUVout]) in
   exists r,
     Dec.YUVout engine s =
       Ok r (Dec.mkState d (cl ++ [Dec.theora_decode_YUVout])) /\
     (r = None <-> R = 0) /\
     (forall k, r = Some (Dec.errTheoraException k) <-> k = R /\ R <> 0) /\
     r <> Some Dec.ETheoraDecBadPacketException) /\
  Forall (fun m : M Dec.State (option Dec.error) =>
            m (Dec.mkState (Dec.mkTheoraDecoder None) cl) = Panic)
    [Dec.Header engine; Dec.PacketIn engine; Dec.YUVout engine] /\
  Dec.Header engine
    (Dec.mkState (Dec.mkTheoraDecoder (Some (Dec.mkTheoraState None))) cl) = Panic.
Proof.
  intros d s.
  split; [|split; [|split; [|split; [repeat constructor | reflexivity]]]].
  - intros R. unfold Dec.PacketIn, bind, Dec.deref_fState, Dec.call_engine. cbn.
    fold R. unfold Dec.OC_BADPACKET.
    destruct (R =? 0) eqn:E0; [apply Z.eqb_eq in E0 | apply Z.eqb_neq in E0];
      [|destruct (R =? -24) eqn:E1; [apply Z.eqb_eq in E1 | apply Z.eqb_neq in E1]];
      (eexists; split; [reflexivity|]);
      repeat split; intros;
      repeat match goal with H : _ /\ _ |- _ => destruct H end;
      try discriminate; try lia; try congruence.
  - intros R. unfold Dec.Header, bind, Dec.deref_info, Dec.deref_fState,
      Dec.call_engine. cbn. fold R.
    destruct (R =? 0) eqn:E0; [apply Z.eqb_eq in E0 | apply Z.eqb_neq in E0];
      (eexists; split; [reflexivity|]);
      repeat split; intros;
      repeat match goal with H : _ /\ _ |- _ => destruct H end;
      try discriminate; try lia; try congruence.
  - intros R. unfold Dec.YUVout, bind, Dec.deref_fState, Dec.call_engine. cbn.
    fold R.
    destruct (R =? 0) eqn:E0; [apply Z.eqb_eq in E0 | apply Z.eqb_neq in E0];
      (eexists; split; [reflexivity|]);
      repeat split; intros;
      repeat match goal with H : _ /\ _ |- _ => destruct H end;
      try discriminate; try lia; try congruence.
Qed.


(** ** The example's configuration *)

Lemma coded_size_padded (v : Z) : 0 <= v <= max_dim -> Example.coded_size v = padded v.
Proof.
  unfold max_dim. intros Hv. unfold Example.coded_size, int_add.
  rewrite (int_small (v + 15)) by lia.
  rewrite Z.shiftr_div_pow2, Z.shiftl_mul_pow2 by lia. change (2 ^ 4) with 16.
  rewrite padded_eq. rewrite int_small by zlia. lia.
Qed.

(** X20.  For every size of a valid frame, the example's configuration gives
    the codec
    the coded width and height [((w+15)>>4)<<4] and [((h+15)>>4)<<4], which
    are the YWidth and YHeight [ConvertFromRasterImage] gives the buffer of
    a frame of that size on a host that grants its planes; the frame size [w] by [h] at offset 0, 0; the
    pixel format [CFG_CHROMA]; 4 frames a second, target bitrate 45000,
    quality 31, keyframe bitrate 67500; and, through the inverting setters,
    drop-frames on and automatic keyframes off, with quick mode on. *)
Theorem example_configuration {C} `{Color C} (host : Host) (aData : Image C)
    (c : Info.theora_info) (b : TheoraYUVbuffer) (c0 : yuv_buffer) (tr : list Event) :
  valid_image aData ->
  grants host aData ->
  fValue b = Some c0 ->
  let w := Dx (Bounds aData) in
  let h := Dy (Bounds aData) in
  exists info s' buf,
    Example.configure w h (Info.live c) = Some info /\
    ConvertFromRasterImage host Example.CFG_CHROMA aData (mkWorld b tr) = Ok true s' /\
    fValue (yuv s') = Some buf /\
    Info.GetWidth info = Some (y_width buf) /\
    Info.GetHeight info = Some (y_height buf) /\
    Info.GetFrameWidth info = Some w /\
    Info.GetFrameHeight info = Some h /\
    Info.GetOffsetX info = Some 0 /\
    Info.GetOffsetY info = Some 0 /\
    Info.GetPixelFormat info = Some Example.CFG_CHROMA /\
    Info.GetFPSNumerator info = Some 4 /\
    Info.GetFPSDenominator info = Some 1 /\
    Info.GetTargetBitrate info = Some 45000 /\
    Info.GetQuality info = Some 31 /\
    Info.GetKeyframeDataTargetBitrate info = Some 67500 /\
    Info.GetDropFrames info = Some true /\
    Info.GetKeyframeAuto info = Some false /\
    Info.GetQuick info = Some true.
Proof.
  intros Hvalid Hgrants Hlive w h.
  destruct (convert_clean host Example.CFG_CHROMA aData b c0 tr eq_refl Hvalid
              Hgrants Hlive) as (s' & Hrun & HI & _).
  destruct HI as [HfV _ _ _ _ _ _ _ _].
  destruct Hvalid as [Hw Hh]. fold w in Hw. fold h in Hh.
  pose proof (padded_le w ltac:(lia)) as [HW _].
  pose proof (padded_le h ltac:(lia)) as [HH _].
  unfold max_dim in *.
  eexists _, s', _. split; [reflexivity|]. split; [exact Hrun|].
  split; [exact HfV|].
  cbn [sized y_width y_height]. fold w h.
  unfold Info.GetWidth, Info.GetHeight, Info.GetFrameWidth, Info.GetFrameHeight.
  cbn [Info.fValue Info.live mbind option_bind Info.width Info.height
       Info.frame_width Info.frame_height Info.set_width Info.set_height].
  cbn.
  rewrite !int_uint32, !coded_size_padded by (unfold max_dim; lia).
  rewrite !uint32_small by lia.
  repeat split; reflexivity.
Qed.

(** ** The example's session *)

Section NeverFails.
Variable env : Environment.
Hypothesis Hok : never_fails env.

Lemma nf_header hist : (engine env (hist ++ [theora_encode_header]) =? 0) = true.
Proof. pose proof (Hok hist theora_encode_header) as E. cbn in E.
  apply negb_false_iff in E. exact E. Qed.

Lemma nf_comment hist tc : (engine env (hist ++ [theora_encode_comment tc]) =? 0) = true.
Proof. pose proof (Hok hist (theora_encode_comment tc)) as E. cbn in E.
  apply negb_false_iff in E. exact E. Qed.

Lemma nf_tables hist : (engine env (hist ++ [theora_encode_tables]) =? 0) = true.
Proof. pose proof (Hok hist theora_encode_tables) as E. cbn in E.
  apply negb_false_iff in E. exact E. Qed.

Lemma nf_YUVin hist : (engine env (hist ++ [theora_encode_YUVin]) =? 0) = true.
Proof. pose proof (Hok hist theora_encode_YUVin) as E. cbn in E.
  apply negb_false_iff in E. exact E. Qed.

Lemma nf_packetout hist lp :
  (engine env (hist ++ [theora_encode_packetout lp]) =? 1) = true.
Proof. pose proof (Hok hist (theora_encode_packetout lp)) as E. cbn in E.
  apply negb_false_iff in E. exact E. Qed.

Lemma nf_NewPacket hist : transport env (hist ++ [OGG_NewPacket]) = None.
Proof. pose proof (Hok hist OGG_NewPacket) as E. cbn in E.
  destruct (transport env _); [discriminate | reflexivity]. Qed.

Lemma nf_Save hist k : transport env (hist ++ [SavePacketToStream k]) = None.
Proof. pose proof (Hok hist (SavePacketToStream k)) as E. cbn in E.
  destruct (transport env _); [discriminate | reflexivity]. Qed.

Lemma nf_PacketIn hist k : transport env (hist ++ [PacketIn k]) = None.
Proof. pose proof (Hok hist (PacketIn k)) as E. cbn in E.
  destruct (transport env _); [discriminate | reflexivity]. Qed.

Lemma nf_Flush hist : transport env (hist ++ [PagesFlushToStream]) = None.
Proof. pose proof (Hok hist PagesFlushToStream) as E. cbn in E.
  destruct (transport env _); [discriminate | reflexivity]. Qed.

Lemma SaveCustomHeadersToStream_ok tc pk cl :
  SaveCustomHeadersToStream env tc (session pk cl) =
  Ok None (session (pk ++ [Some Setup]) (cl ++ header_script tc)).
Proof.
  unfold SaveCustomHeadersToStream. unfold bind at 1.
  rewrite run_NewPacket. cbn [fst snd].
  rewrite try_run. unfold ret at 1. rewrite nf_NewPacket.
  rewrite try_run, run_Header. cbn zeta. rewrite nf_header, insert_snoc.
  rewrite try_run, run_SavePacketToStream, lookup_snoc. cbn zeta. rewrite nf_Save.
  rewrite try_run, run_Comment. cbn zeta. rewrite nf_comment, insert_snoc.
  rewrite try_run, run_PacketIn, lookup_snoc. cbn zeta. rewrite nf_PacketIn.
  rewrite try_run, run_Tables. cbn zeta. rewrite nf_tables, insert_snoc.
  rewrite try_run, run_PacketIn, lookup_snoc. cbn zeta. rewrite nf_PacketIn.
  rewrite try_run, run_SavePacketToStream, lookup_snoc. cbn zeta. rewrite nf_Save.
  unfold ret, header_script. rewrite <- !app_assoc. reflexivity.
Qed.

Lemma SaveYUVBufferToStream_ok is_last pk cl :
  SaveYUVBufferToStream env is_last (session pk cl) =
  Ok None (session (pk ++ [Some Data]) (cl ++ frame_script is_last)).
Proof.
  unfold SaveYUVBufferToStream, session. rewrite try_run, run_YUVin. cbn zeta.
  rewrite nf_YUVin.
  unfold bind at 1. unfold DoPacketOut. unfold bind at 1.
  fold (session pk (cl ++ [theora_encode_YUVin])).
  rewrite run_NewPacket. cbn [fst snd]. rewrite nf_NewPacket.
  unfold bind at 1. unfold session. rewrite run_PacketOut_eq. cbn zeta.
  rewrite nf_packetout.
  unfold ret at 1. cbn [fst snd]. rewrite try_run. unfold ret at 1.
  rewrite try_run, insert_snoc.
  fold (session (pk ++ [Some Data])
          (((cl ++ [theora_encode_YUVin]) ++ [OGG_NewPacket]) ++
           [theora_encode_packetout (if is_last then 1 else 0)])).
  rewrite run_SavePacketToStream, lookup_snoc. cbn zeta. cbn [mjoin option_join].
  rewrite nf_Save. unfold ret, frame_script, session. rewrite <- !app_assoc. reflexivity.
Qed.

Lemma Close_ok pk cl :
  Close env (session pk cl) =
  Ok None (closed_session pk (cl ++ [PagesFlushToStream; StreamDone])).
Proof.
  unfold Close. rewrite try_run.
  unfold Flush, bind, deref_foggs, call_transport, session. cbn.
  rewrite nf_Flush. cbn. unfold closed_session. rewrite <- app_assoc. reflexivity.
Qed.

Section Frames.
Context {C : Type} `{Color C}.
Variable host : Host.

Lemma receive_frame total loc (aData : Image C) pk cl :
  valid_image aData -> grants host aData -> loc <> total ->
  Example.receive env host total loc (Some aData) (session pk cl) =
  Ok true (session (pk ++ [Some Data])
             (cl ++ frame_script (loc =? (total - 1)%int))).
Proof.
  intros Hvalid Hgrants Hne. unfold Example.receive.
  destruct (loc =? total) eqn:E; [apply Z.eqb_eq in E; contradiction|].
  destruct (convert_clean host Example.CFG_CHROMA aData NewTheoraYUVbuffer
              yuv_buffer_zero [] eq_refl Hvalid Hgrants eq_refl) as (s' & Hrun & _).
  rewrite Hrun. unfold bind at 1. rewrite SaveYUVBufferToStream_ok. reflexivity.
Qed.

Lemma consume_frames total : total < 2 ^ 62 ->
  forall (imgs : list (Image C)) i pk cl,
    Forall valid_image imgs -> Forall (grants host) imgs ->
    0 <= i -> i + Z.of_nat (length imgs) = total ->
    Example.consume env host total (Example.frames_from i imgs ++ [(total, None)])
      (session pk cl) =
    Ok tt (closed_session (pk ++ replicate (length imgs) (Some Data))
             (cl ++ frame_scripts total i (length imgs) ++
              [PagesFlushToStream; StreamDone])).
Proof.
  intros Htot imgs.
  induction imgs as [|img imgs IH]; intros i pk cl Hall Hgr Hi Hlen.
  - cbn [Example.frames_from app Example.consume length replicate frame_scripts].
    cbn [length] in Hlen.
    unfold bind at 1. unfold Example.receive.
    replace (total =? total) with true by (symmetry; apply Z.eqb_refl).
    unfold bind at 1. rewrite Close_ok. unfold ret. rewrite app_nil_r. reflexivity.
  - apply Forall_cons in Hall as [Hv Hall]. apply Forall_cons in Hgr as [Hg Hgr].
    cbn [length] in Hlen.
    cbn [Example.frames_from app Example.consume length replicate frame_scripts].
    unfold bind at 1. rewrite receive_frame by (assumption || lia).
    unfold int_add, int_sub. rewrite !int_small by lia.
    rewrite IH by (assumption || lia).
    f_equal. f_equal.
    + rewrite <- app_assoc. reflexivity.
    + rewrite <- !app_assoc. reflexivity.
Qed.

End Frames.
End NeverFails.

Lemma packetout_flags_app l1 l2 :
  packetout_flags (l1 ++ l2) = packetout_flags l1 ++ packetout_flags l2.
Proof. unfold packetout_flags. apply omap_app. Qed.

Lemma frame_scripts_flags total (n : nat) : forall i,
  i + Z.of_nat (S n) = total ->
  packetout_flags (frame_scripts total i (S n)) = replicate n 0 ++ [1].
Proof.
  induction n as [|n IH]; intros i Hi.
  - cbn [frame_scripts]. rewrite app_nil_r.
    replace (i =? total - 1) with true by (symmetry; apply Z.eqb_eq; lia).
    reflexivity.
  - change (frame_scripts total i (S (S n)))
      with (frame_script (i =? total - 1) ++ frame_scripts total (i + 1) (S n)).
    rewrite packetout_flags_app, IH by lia.
    replace (i =? total - 1) with false by (symmetry; apply Z.eqb_neq; lia).
    reflexivity.
Qed.

(** X21.  When no call fails, the example, from the headers on and for any
    non-empty sequence of valid images whose planes the host grants,
    returns.  The calls it made are
    those of the three header packets, then for each image in order the
    frame submission, the new packet, the packet request and the save, then
    the flush and the release of the stream; the last frame, and no other,
    is requested with [last_p] = 1. *)
Theorem example_session {C} `{Color C} (env : Environment) (host : Host)
    (tc : TheoraComment) (imgs : list (Image C)) :
  never_fails env ->
  imgs <> [] ->
  Z.of_nat (length imgs) < 2 ^ 62 ->
  Forall valid_image imgs ->
  Forall (grants host) imgs ->
  let total := Z.of_nat (length imgs) in
  exists s',
    Example.encode env host tc imgs NewTheoraEncoder = Ok tt s' /\
    calls s' = header_script tc ++ frame_scripts total 0 (length imgs) ++
               [PagesFlushToStream; StreamDone] /\
    packetout_flags (calls s') = replicate (length imgs - 1) 0 ++ [1] /\
    foggs (enc s') = None.
Proof.
  intros Hok Hne Hlen Hall Hgr total.
  destruct imgs as [|img imgs]; [contradiction|].
  unfold Example.encode. fold total.
  destruct (total =? 0) eqn:E0; [apply Z.eqb_eq in E0; subst total; cbn in E0; lia|].
  change NewTheoraEncoder with (session [] []). unfold bind at 1.
  rewrite (SaveCustomHeadersToStream_ok env Hok). unfold bind at 1. cbn [Example.check].
  unfold ret at 1.
  rewrite (consume_frames env Hok host total Hlen (img :: imgs) 0)
    by (assumption || lia).
  eexists. split; [reflexivity|]. cbn [calls enc foggs closed_session app].
  split; [reflexivity|]. split; [|reflexivity].
  change (OGG_NewPacket :: _) with
    (header_script tc ++ frame_scripts total 0 (length (img :: imgs)) ++
     [PagesFlushToStream; StreamDone]).
  rewrite !packetout_flags_app.
  cbn [length]. rewrite (frame_scripts_flags total (length imgs) 0) by (subst total; cbn [length]; lia).
  cbn. rewrite Nat.sub_0_r, app_nil_r. reflexivity.
Qed.

(** ** The theorems at concrete inputs *)

Lemma valid_grey_3x3 : valid_image grey_3x3.
Proof. repeat split; vm_compute; discriminate. Defined.

Lemma grants_grey_3x3 : grants linux_amd64 grey_3x3.
Proof. vm_compute; discriminate. Defined.

Lemma env_ok_never_fails : never_fails env_ok.
Proof.
  intros hist c. unfold failed, env_ok, engine, transport.
  rewrite last_snoc. destruct c; reflexivity.
Defined.

Lemma ConvertFromRasterImage_luma_witness :
  supported YCbCrSubsampleRatio420 = true /\
  valid_image red_17x15 /\
  grants linux_amd64 red_17x15 /\
  fValue NewTheoraYUVbuffer = Some yuv_buffer_zero /\
  exists s',
    ConvertFromRasterImage linux_amd64 YCbCrSubsampleRatio420 red_17x15 fresh = Ok true s' /\
    fyData (yuv s') !! 0%nat = Some 81.
Proof.
  split; [reflexivity|]. split; [exact valid_red_17x15|]. split; [exact grants_red_17x15|].
  split; [reflexivity|].
  destruct (ConvertFromRasterImage_luma linux_amd64 YCbCrSubsampleRatio420 red_17x15
              NewTheoraYUVbuffer yuv_buffer_zero [] eq_refl valid_red_17x15
              grants_red_17x15 eq_refl)
    as (s' & Hrun & Hpix).
  exists s'. split; [exact Hrun|].
  exact (proj1 (Hpix 0 0 ltac:(vm_compute; split; [discriminate | reflexivity])
                  ltac:(vm_compute; split; [discriminate | reflexivity]))).
Defined.

Lemma ConvertFromRasterImage_chroma_range_witness :
  supported YCbCrSubsampleRatio422 = true /\
  valid_image green_2x2 /\
  grants linux_amd64 green_2x2 /\
  fValue NewTheoraYUVbuffer = Some yuv_buffer_zero /\
  exists s' u v,
    ConvertFromRasterImage linux_amd64 YCbCrSubsampleRatio422 green_2x2 fresh = Ok true s' /\
    fuData (yuv s') !! 8%nat = Some u /\ fvData (yuv s') !! 8%nat = Some v /\
    16 <= u <= 240 /\ 16 <= v <= 240.
Proof.
  split; [reflexivity|]. split; [exact valid_green_2x2|]. split; [exact grants_green_2x2|].
  split; [reflexivity|].
  destruct (ConvertFromRasterImage_chroma_range linux_amd64 YCbCrSubsampleRatio422
              green_2x2 NewTheoraYUVbuffer yuv_buffer_zero [] eq_refl valid_green_2x2
              grants_green_2x2 eq_refl)
    as (s' & Hrun & Hpix).
  destruct (Hpix 1 1 ltac:(vm_compute; split; [discriminate | reflexivity])
              ltac:(vm_compute; split; [discriminate | reflexivity]))
    as (u & v & HU & HV & Hr).
  exists s', u, v. split; [exact Hrun|]. split; [exact HU|]. split; [exact HV|].
  exact Hr.
Defined.

Lemma ConvertFromRasterImage_padding_witness :
  supported YCbCrSubsampleRatio420 = true /\
  valid_image red_17x15 /\
  grants linux_amd64 red_17x15 /\
  fValue NewTheoraYUVbuffer = Some yuv_buffer_zero /\
  exists s',
    ConvertFromRasterImage linux_amd64 YCbCrSubsampleRatio420 red_17x15 fresh = Ok true s' /\
    forall n v, fyData (yuv s') !! n = Some v ->
      in_window 32 17 15 (Z.of_nat n) = false -> v = 0.
Proof.
  split; [reflexivity|]. split; [exact valid_red_17x15|]. split; [exact grants_red_17x15|].
  split; [reflexivity|].
  destruct (ConvertFromRasterImage_padding linux_amd64 YCbCrSubsampleRatio420 red_17x15
              NewTheoraYUVbuffer yuv_buffer_zero [] eq_refl valid_red_17x15
              grants_red_17x15 eq_refl)
    as (s' & evs & Hrun & _ & _ & _ & HY & _).
  exists s'. split; [exact Hrun | exact HY].
Defined.

Lemma ConvertFromRasterImage_depends_on_window_witness :
  let used := mkTheoraYUVbuffer (Some yuv_buffer_zero) [1; 2; 3] [4] [5] true in
  supported YCbCrSubsampleRatio420 = true /\
  valid_image red_17x15 /\
  grants linux_amd64 red_17x15 /\
  grants (mkHost 512 None) red_17x15 /\
  fValue NewTheoraYUVbuffer = Some yuv_buffer_zero /\
  fValue used = Some yuv_buffer_zero /\
  exists s1 s2,
    ConvertFromRasterImage linux_amd64 YCbCrSubsampleRatio420 red_17x15 fresh = Ok true s1 /\
    ConvertFromRasterImage (mkHost 512 None) YCbCrSubsampleRatio420 red_17x15
      (mkWorld used []) = Ok true s2 /\
    fyData (yuv s1) = fyData (yuv s2) /\
    fuData (yuv s1) = fuData (yuv s2) /\
    fvData (yuv s1) = fvData (yuv s2).
Proof.
  intros used.
  split; [reflexivity|]. split; [exact valid_red_17x15|].
  split; [exact grants_red_17x15|]. split; [vm_compute; discriminate|].
  split; [reflexivity|]. split; [reflexivity|].
  destruct (ConvertFromRasterImage_depends_on_window linux_amd64 (mkHost 512 None)
              YCbCrSubsampleRatio420
              red_17x15 red_17x15 NewTheoraYUVbuffer used yuv_buffer_zero yuv_buffer_zero
              [] [] eq_refl valid_red_17x15 grants_red_17x15
              ltac:(vm_compute; discriminate) eq_refl eq_refl
              (fun x y _ _ => eq_refl) eq_refl eq_refl)
    as (s1 & s2 & Hrun1 & Hrun2 & _ & HY & HU & HV & _).
  exists s1, s2. repeat split; assumption.
Defined.

Lemma grey_image_has_neutral_chroma_witness :
  supported YCbCrSubsampleRatio420 = true /\
  valid_image grey_3x3 /\
  grants linux_amd64 grey_3x3 /\
  fValue NewTheoraYUVbuffer = Some yuv_buffer_zero /\
  (forall x y, 0 <= x < 3 -> 0 <= y < 3 -> grey (nrgb (At grey_3x3 x y))) /\
  exists s',
    ConvertFromRasterImage linux_amd64 YCbCrSubsampleRatio420 grey_3x3 fresh = Ok true s' /\
    fuData (yuv s') !! 9%nat = Some 128 /\
    fvData (yuv s') !! 9%nat = Some 128 /\
    fyData (yuv s') !! 34%nat = Some 126.
Proof.
  split; [reflexivity|]. split; [exact valid_grey_3x3|]. split; [exact grants_grey_3x3|].
  split; [reflexivity|].
  assert (Hgrey : forall x y, 0 <= x < Dx (Bounds grey_3x3) ->
                    0 <= y < Dy (Bounds grey_3x3) -> grey (nrgb (At grey_3x3 x y))).
  { intros x y _ _. vm_compute. split; reflexivity. }
  split; [exact Hgrey|].
  destruct (grey_image_has_neutral_chroma grey_3x3 linux_amd64 YCbCrSubsampleRatio420
              NewTheoraYUVbuffer yuv_buffer_zero [] eq_refl valid_grey_3x3
              grants_grey_3x3 eq_refl Hgrey)
    as (s' & Hrun & Hpix).
  exists s'. split; [exact Hrun|].
  exact (Hpix 2 2 ltac:(vm_compute; split; [discriminate | reflexivity])
           ltac:(vm_compute; split; [discriminate | reflexivity])).
Defined.

Lemma ConvertFromRasterImage_then_Done_witness :
  supported YCbCrSubsampleRatio444 = true /\
  valid_image red_17x15 /\
  grants linux_amd64 red_17x15 /\
  fValue NewTheoraYUVbuffer = Some yuv_buffer_zero /\
  exists s1 s2,
    ConvertFromRasterImage linux_amd64 YCbCrSubsampleRatio444 red_17x15 fresh = Ok true s1 /\
    Done s1 = Ok [FreeStruct] s2 /\
    GetYData s2 = Ok (fyData (yuv s1)) s2.
Proof.
  split; [reflexivity|]. split; [exact valid_red_17x15|]. split; [exact grants_red_17x15|].
  split; [reflexivity|].
  destruct (ConvertFromRasterImage_then_Done linux_amd64 YCbCrSubsampleRatio444
              red_17x15 NewTheoraYUVbuffer yuv_buffer_zero [] eq_refl valid_red_17x15
              grants_red_17x15 eq_refl)
    as (s1 & s2 & Hrun & _ & HD & _ & HY & _).
  exists s1, s2. split; [exact Hrun|]. split; [exact HD | exact HY].
Defined.

Lemma example_configuration_witness :
  valid_image red_17x15 /\
  grants linux_amd64 red_17x15 /\
  fValue NewTheoraYUVbuffer = Some yuv_buffer_zero /\
  exists info s' buf,
    Example.configure 17 15 Info.NewTheoraInfo = Some info /\
    ConvertFromRasterImage linux_amd64 Example.CFG_CHROMA red_17x15 fresh = Ok true s' /\
    fValue (yuv s') = Some buf /\
    Info.GetWidth info = Some (y_width buf) /\
    Info.GetHeight info = Some (y_height buf) /\
    Info.GetDropFrames info = Some true /\
    Info.GetKeyframeAuto info = Some false.
Proof.
  split; [exact valid_red_17x15|]. split; [exact grants_red_17x15|].
  split; [reflexivity|].
  destruct (example_configuration linux_amd64 red_17x15 Info.theora_info_zero
              NewTheoraYUVbuffer yuv_buffer_zero [] valid_red_17x15 grants_red_17x15
              eq_refl)
    as (info & s' & buf & Hc & Hrun & Hb & HW & HH & _ & _ & _ & _ & _ & _ & _ & _
        & _ & _ & HD & HK & _).
  exists info, s', buf. repeat split; assumption.
Defined.

Lemma example_session_witness :
  never_fails env_ok /\
  [red_17x15; red_17x15] <> [] /\
  Forall valid_image [red_17x15; red_17x15] /\
  Forall (grants linux_amd64) [red_17x15; red_17x15] /\
  exists s',
    Example.encode env_ok linux_amd64 (mkTheoraComment EmptyString [])
      [red_17x15; red_17x15]
      NewTheoraEncoder = Ok tt s' /\
    packetout_flags (calls s') = [0; 1] /\
    foggs (enc s') = None.
Proof.
  split; [exact env_ok_never_fails|]. split; [discriminate|].
  assert (Hall : Forall valid_image [red_17x15; red_17x15])
    by (constructor; [exact valid_red_17x15|]; constructor;
        [exact valid_red_17x15 | constructor]).
  split; [exact Hall|].
  assert (Hgr : Forall (grants linux_amd64) [red_17x15; red_17x15])
    by (constructor; [exact grants_red_17x15|]; constructor;
        [exact grants_red_17x15 | constructor]).
  split; [exact Hgr|].
  destruct (example_session env_ok linux_amd64 (mkTheoraComment EmptyString [])
              [red_17x15; red_17x15] env_ok_never_fails ltac:(discriminate)
              ltac:(vm_compute; reflexivity) Hall Hgr)
    as (s' & Hrun & _ & Hflags & Hfo).
  exists s'. split; [exact Hrun|]. split; [exact Hflags | exact Hfo].
Defined.

Lemma ConvertFromRasterImage_V_near_average_witness :
  valid_image green_2x2 /\
  grants linux_amd64 green_2x2 /\
  fValue NewTheoraYUVbuffer = Some yuv_buffer_zero /\
  exists s',
    ConvertFromRasterImage linux_amd64 YCbCrSubsampleRatio420 green_2x2 fresh = Ok true s' /\
    (fvData (yuv s') !! 0%nat = Some 35 \/ fvData (yuv s') !! 0%nat = Some (35 - 1)).
Proof.
  split; [exact valid_green_2x2|]. split; [exact grants_green_2x2|].
  split; [reflexivity|].
  destruct (ConvertFromRasterImage_V_near_average linux_amd64 green_2x2
              NewTheoraYUVbuffer yuv_buffer_zero [] valid_green_2x2 grants_green_2x2
              eq_refl) as (s' & Hrun & Hblocks).
  exists s'. split; [exact Hrun|].
  exact (Hblocks 0 0 ltac:(lia) ltac:(lia) ltac:(vm_compute; reflexivity)
           ltac:(vm_compute; reflexivity)).
Defined.

Lemma ConvertFromRasterImage_empty_image_witness :
  supported YCbCrSubsampleRatio422 = true /\
  (Dx (Bounds no_pixels) = 0 \/ Dy (Bounds no_pixels) = 0) /\
  0 <= maxAlloc (mkHost 0 None) /\
  fValue NewTheoraYUVbuffer = Some yuv_buffer_zero /\
  ConvertFromRasterImage (mkHost 0 None) YCbCrSubsampleRatio422 no_pixels fresh =
    Panic /\
  exists s' c,
    ConvertFromRasterImage (mkHost 0 (Some NULL)) YCbCrSubsampleRatio422 no_pixels
      fresh = Ok true s' /\
    trace s' = [] /\ fyData (yuv s') = [] /\
    fValue (yuv s') = Some c /\ c_y c = NULL.
Proof.
  assert (Hw : 0 <= Dx (Bounds no_pixels) <= max_dim)
    by (vm_compute; split; discriminate).
  assert (Hh : 0 <= Dy (Bounds no_pixels) <= max_dim)
    by (vm_compute; split; discriminate).
  split; [reflexivity|]. split; [left; reflexivity|].
  split; [vm_compute; discriminate|]. split; [reflexivity|].
  split.
  - exact (ConvertFromRasterImage_empty_image (mkHost 0 None) YCbCrSubsampleRatio422
             no_pixels NewTheoraYUVbuffer yuv_buffer_zero [] eq_refl Hw Hh
             (or_introl eq_refl) ltac:(vm_compute; discriminate) eq_refl).
  - destruct (ConvertFromRasterImage_empty_image (mkHost 0 (Some NULL))
                YCbCrSubsampleRatio422 no_pixels NewTheoraYUVbuffer yuv_buffer_zero []
                eq_refl Hw Hh (or_introl eq_refl) ltac:(vm_compute; discriminate)
                eq_refl)
      as (s' & c & Hrun & Htr & HY & _ & _ & Hc & Hq & _).
    exists s', c. repeat split; assumption.
Defined.

Lemma ConvertFromRasterImage_too_large_witness :
  supported YCbCrSubsampleRatio420 = true /\
  fValue NewTheoraYUVbuffer = Some yuv_buffer_zero /\
  Dx (Bounds too_wide) = max_dim + 16 /\ Dy (Bounds too_wide) = 1 /\
  ConvertFromRasterImage linux_amd64 YCbCrSubsampleRatio420 too_wide fresh = Panic.
Proof.
  split; [reflexivity|]. split; [reflexivity|]. split; [reflexivity|].
  split; [reflexivity|].
  apply (ConvertFromRasterImage_too_large linux_amd64 YCbCrSubsampleRatio420
           too_wide NewTheoraYUVbuffer yuv_buffer_zero [] eq_refl eq_refl).
  left. vm_compute. repeat split; discriminate.
Defined.
